(** * OneTabBrowser: the application logic of [Browser/main.py]

    The program is a thin PyQt5 shell around an embedded web engine.  What it
    computes itself is modelled here:

    - the request filter [AdBlocker] (blocklist parsing and the per-request
      decision),
    - the settings dictionary, shared by reference between the main window,
      the request filter and the settings dialog, and its persistence as
      JSON text in [settings.json],
    - the address-bar navigation and the search-URL construction.

    Python values are modelled as follows.  A [str] is a [string]: a sequence
    of code points below 256; the module [UJson] models the settings file
    once more with a [str] as a list of code points below [0x110000], where
    the surrogates matter.  A [dict] is an association list in insertion
    order with pairwise distinct keys.  The file system is a finite map from
    paths to text.  An exception is a [Raise] outcome.  The limits of the
    interpreter itself (recursion depth, digits of an [int]) are not in the
    model; statements that depend on them carry them as hypotheses. *)

From Stdlib Require Import ZArith Ascii String List Lia.
From Stdlib Require Import DecimalString DecimalZ.
From stdpp Require Import base gmap strings list.

Local Open Scope Z_scope.
Local Open Scope nat_scope.

#[local] Arguments String.append !s1 s2 : simpl nomatch.

(** ** Exceptions *)

Inductive exn : Type :=
| FileNotFoundError
| JSONDecodeError
(** the input is legal for Python but lies outside the modelled fragment
    (floating-point literals, code points above 255): the model does not say
    what the program does there *)
| Unsupported
(** the recursion bound of the model was reached; [Json.loads] supplies a
    bound that is never reached (lemma [loads_total]) *)
| OutOfFuel
| AttributeError.

Inductive result (A : Type) : Type :=
| Ok (a : A)
| Raise (e : exn).

Arguments Ok {A} a.
Arguments Raise {A} e.

Definition bind {A B : Type} (m : result A) (k : A -> result B) : result B :=
  match m with
  | Ok a => k a
  | Raise e => Raise e
  end.

Notation "'let*' p ':=' m 'in' k" := (bind m (fun x => match x with p => k end))
  (at level 10, p pattern, m at level 200, k at level 200).

(** ** Python strings *)

Module Py.

(** [bool(s)] for a [str]: non-empty. *)
Definition str_truthy (s : string) : bool :=
  match s with
  | EmptyString => false
  | String _ _ => true
  end.

(** [str.isspace] on one code point below 256: the ASCII white space
    [\t \n \v \f \r], the separators [0x1c]..[0x1f], the space, and the
    Latin-1 characters NEL ([0x85]) and NBSP ([0xa0]). *)
Definition isspace (c : ascii) : bool :=
  let n := nat_of_ascii c in
  ((9 <=? n) && (n <=? 13)) || ((28 <=? n) && (n <=? 32))
  || (n =? 133) || (n =? 160).

Fixpoint lstrip (s : string) : string :=
  match s with
  | EmptyString => EmptyString
  | String c r => if isspace c then lstrip r else s
  end.

Fixpoint rstrip (s : string) : string :=
  match s with
  | EmptyString => EmptyString
  | String c r =>
      match rstrip r with
      | EmptyString => if isspace c then EmptyString else String c EmptyString
      | r' => String c r'
      end
  end.

(** [s.strip()] *)
Definition strip (s : string) : string := rstrip (lstrip s).

(** [s.startswith(p)] *)
Fixpoint startswith (p s : string) : bool :=
  match p, s with
  | EmptyString, _ => true
  | String a p', String b s' => if Ascii.eqb a b then startswith p' s' else false
  | String _ _, EmptyString => false
  end.

(** [sub in s] *)
Fixpoint contains (sub s : string) : bool :=
  startswith sub s
  || match s with
     | EmptyString => false
     | String _ s' => contains sub s'
     end.

(** [s.replace(old, new)] for one-character [old] and [new], the only form
    the program uses. *)
Fixpoint replace (old new : ascii) (s : string) : string :=
  match s with
  | EmptyString => EmptyString
  | String c r => String (if Ascii.eqb c old then new else c) (replace old new r)
  end.

(** Text-mode reading translates ["\r\n"] and a lone ["\r"] to ["\n"]. *)
Fixpoint universal_newlines (s : string) : string :=
  match s with
  | EmptyString => EmptyString
  | String c r =>
      if Ascii.eqb c "013" then
        match r with
        | String d r' =>
            if Ascii.eqb d "010" then String "010" (universal_newlines r')
            else String "010" (universal_newlines r)
        | EmptyString => String "010" EmptyString
        end
      else String c (universal_newlines r)
  end.

(** Iterating over a text file yields its lines, each with its terminating
    ["\n"] (the last line may lack one). *)
Fixpoint split_lines (s : string) : list string :=
  match s with
  | EmptyString => []
  | String c r =>
      if Ascii.eqb c "010" then String c EmptyString :: split_lines r
      else match split_lines r with
           | [] => [String c EmptyString]
           | l :: ls => String c l :: ls
           end
  end.

Definition iter_lines (content : string) : list string :=
  split_lines (universal_newlines content).

End Py.

(** ** JSON values, as [json.load] produces them and [json.dump] accepts them

    Floating-point numbers are left out of the model. *)

#[local] Unset Elimination Schemes.
Inductive json : Type :=
| JNull
| JBool (b : bool)
| JInt (z : Z)
| JStr (s : string)
| JList (l : list json)
| JDict (d : list (string * json)).
#[local] Set Elimination Schemes.

(** A Python [dict] with [str] keys. *)
Abbreviation pydict := (list (string * json)).

Module Dict.

(** [d[k]], with [None] for [KeyError] *)
Fixpoint lookup (k : string) (d : pydict) : option json :=
  match d with
  | [] => None
  | (k', v) :: d' => if String.eqb k' k then Some v else lookup k d'
  end.

(** [d.get(k, default)] *)
Definition get (k : string) (default : json) (d : pydict) : json :=
  match lookup k d with
  | Some v => v
  | None => default
  end.

(** [d[k] = v]: an existing key keeps its place, a new key goes last. *)
Fixpoint set (k : string) (v : json) (d : pydict) : pydict :=
  match d with
  | [] => [(k, v)]
  | (k', v') :: d' =>
      if String.eqb k' k then (k, v) :: d' else (k', v') :: set k v d'
  end.

Definition keys (d : pydict) : list string := List.map fst d.

(** [dict(pairs)]: the pairs are inserted from left to right. *)
Definition of_pairs (pairs : list (string * json)) : pydict :=
  fold_left (fun d kv => set (fst kv) (snd kv) d) pairs [].

(** The invariant of a [dict]: no key occurs twice. *)
Definition wf (d : pydict) : Prop := NoDup (keys d).

End Dict.

(** [bool(v)], as used by [if v] and [not v]. *)
Definition truthy (v : json) : bool :=
  match v with
  | JNull => false
  | JBool b => b
  | JInt z => negb (Z.eqb z 0)
  | JStr s => Py.str_truthy s
  | JList l => match l with [] => false | _ => true end
  | JDict d => match d with [] => false | _ => true end
  end.

(** [v == s] for a string literal [s]: only a [str] equals a [str]. *)
Definition eq_str (v : json) (s : string) : bool :=
  match v with
  | JStr t => String.eqb t s
  | _ => false
  end.

Module Json.

Definition dquote : ascii := "034".
Definition backslash : ascii := "092".

Definition hex_digit (n : nat) : ascii :=
  if n <? 10 then ascii_of_nat (48 + n) else ascii_of_nat (87 + n).

(** One character of [py_encode_basestring_ascii]: the short escapes, the
    printable ASCII characters as they are, everything else as [\u00xx]. *)
Definition escape_char (c : ascii) : string :=
  if Ascii.eqb c dquote then String backslash (String dquote "")
  else if Ascii.eqb c backslash then String backslash (String backslash "")
  else if Ascii.eqb c "008" then String backslash "b"
  else if Ascii.eqb c "012" then String backslash "f"
  else if Ascii.eqb c "010" then String backslash "n"
  else if Ascii.eqb c "013" then String backslash "r"
  else if Ascii.eqb c "009" then String backslash "t"
  else
    let n := nat_of_ascii c in
    if (32 <=? n) && (n <=? 126) then String c ""
    else String backslash
           ("u00" +:+ String (hex_digit (n / 16)) (String (hex_digit (n mod 16)) "")).

Fixpoint escape (s : string) : string :=
  match s with
  | EmptyString => EmptyString
  | String c r => escape_char c +:+ escape r
  end.

Definition encode_str (s : string) : string :=
  String dquote (escape s +:+ String dquote "").

(** [repr] of an [int] *)
Definition repr_int (z : Z) : string := NilZero.string_of_int (Z.to_int z).

Fixpoint spaces (n : nat) : string :=
  match n with
  | 0 => EmptyString
  | S n' => String " " (spaces n')
  end.

(** ["\n" + indent * level] with [indent=4] *)
Definition newline_indent (level : nat) : string :=
  String "010" (spaces (4 * level)).

Fixpoint join (sep : string) (l : list string) : string :=
  match l with
  | [] => EmptyString
  | [x] => x
  | x :: l' => x +:+ sep +:+ join sep l'
  end.

(** [json.dumps(v, indent=4)] at nesting depth [level] *)
Fixpoint dumps_at (level : nat) (v : json) : string :=
  match v with
  | JNull => "null"
  | JBool true => "true"
  | JBool false => "false"
  | JInt z => repr_int z
  | JStr s => encode_str s
  | JList [] => "[]"
  | JList l =>
      "[" +:+ newline_indent (S level)
      +:+ join ("," +:+ newline_indent (S level))
            (List.map (dumps_at (S level)) l)
      +:+ newline_indent level +:+ "]"
  | JDict [] => "{}"
  | JDict d =>
      "{" +:+ newline_indent (S level)
      +:+ join ("," +:+ newline_indent (S level))
            (List.map (fun kv => match kv with
                                 | (k, x) => encode_str k +:+ ": " +:+ dumps_at (S level) x
                                 end) d)
      +:+ newline_indent level +:+ "}"
  end.

Definition dumps (v : json) : string := dumps_at 0 v.

(** *** Decoding ([json.loads])  *)

(** The white space of the JSON grammar: space, tab, line feed, carriage
    return. *)
Definition is_ws (c : ascii) : bool :=
  Ascii.eqb c " " || Ascii.eqb c "009" || Ascii.eqb c "010" || Ascii.eqb c "013".

Fixpoint skip_ws (s : string) : string :=
  match s with
  | EmptyString => EmptyString
  | String c r => if is_ws c then skip_ws r else s
  end.

Definition hex_val (c : ascii) : option nat :=
  let n := nat_of_ascii c in
  if (48 <=? n) && (n <=? 57) then Some (n - 48)
  else if (97 <=? n) && (n <=? 102) then Some (n - 87)
  else if (65 <=? n) && (n <=? 70) then Some (n - 55)
  else None.

(** The character after a backslash, other than [u]. *)
Definition unescape (c : ascii) : option ascii :=
  if Ascii.eqb c dquote then Some dquote
  else if Ascii.eqb c backslash then Some backslash
  else if Ascii.eqb c "/" then Some "/"%char
  else if Ascii.eqb c "b" then Some "008"%char
  else if Ascii.eqb c "f" then Some "012"%char
  else if Ascii.eqb c "n" then Some "010"%char
  else if Ascii.eqb c "r" then Some "013"%char
  else if Ascii.eqb c "t" then Some "009"%char
  else None.

(** [scanstring] in strict mode, started behind the opening quote: the
    decoded string and the text behind the closing quote. *)
Fixpoint scanstring (s : string) : result (string * string) :=
  match s with
  | EmptyString => Raise JSONDecodeError
  | String c r =>
      if Ascii.eqb c dquote then Ok (EmptyString, r)
      else if Ascii.eqb c backslash then
        match r with
        | EmptyString => Raise JSONDecodeError
        | String e r1 =>
            if Ascii.eqb e "u" then
              match r1 with
              | String h1 (String h2 (String h3 (String h4 r2))) =>
                  match hex_val h1, hex_val h2, hex_val h3, hex_val h4 with
                  | Some a, Some b, Some c', Some d =>
                      let n := 4096 * a + 256 * b + 16 * c' + d in
                      if n <? 256 then
                        let* (t, rest) := scanstring r2 in
                        Ok (String (ascii_of_nat n) t, rest)
                      else Raise Unsupported
                  | _, _, _, _ => Raise JSONDecodeError
                  end
              | _ => Raise JSONDecodeError
              end
            else
              match unescape e with
              | Some ch =>
                  let* (t, rest) := scanstring r1 in Ok (String ch t, rest)
              | None => Raise JSONDecodeError
              end
        end
      else if nat_of_ascii c <? 32 then Raise JSONDecodeError
      else let* (t, rest) := scanstring r in Ok (String c t, rest)
  end.

Definition digit_val (c : ascii) : option nat :=
  let n := nat_of_ascii c in
  if (48 <=? n) && (n <=? 57) then Some (n - 48) else None.

Definition is_digit (c : ascii) : bool :=
  match digit_val c with Some _ => true | None => false end.

(** The longest run of decimal digits at the head of [s]. *)
Fixpoint scan_digits (s : string) : Decimal.uint * string :=
  match s with
  | EmptyString => (Decimal.Nil, s)
  | String c r =>
      match uint_of_char c (Some Decimal.Nil) with
      | Some _ =>
          let (u, rest) := scan_digits r in
          match uint_of_char c (Some u) with
          | Some u' => (u', rest)
          | None => (Decimal.Nil, s)
          end
      | None => (Decimal.Nil, s)
      end
  end.

(** Does a fraction or an exponent follow?  Then the literal is a float. *)
Definition float_follows (s : string) : bool :=
  match s with
  | String "." (String d _) => is_digit d
  | String e (String d r) =>
      (Ascii.eqb e "e" || Ascii.eqb e "E")
      && (is_digit d
          || ((Ascii.eqb d "+" || Ascii.eqb d "-")
              && match r with String d' _ => is_digit d' | _ => false end))
  | _ => false
  end.

(** The integer part [0|[1-9][0-9]*] of a number, without its sign. *)
Definition scan_natural (s : string) : option (Z * string) :=
  match s with
  | String "0" r => Some (0%Z, r)
  | String c _ =>
      if is_digit c then
        let (u, rest) := scan_digits s in Some (Z.of_uint u, rest)
      else None
  | EmptyString => None
  end.

Definition scan_number (s : string) : result (json * string) :=
  let (neg, body) :=
    match s with
    | String "-" r => (true, r)
    | _ => (false, s)
    end in
  match scan_natural body with
  | Some (n, rest) =>
      if float_follows rest then Raise Unsupported
      else Ok (JInt (if neg then Z.opp n else n), rest)
  | None =>
      if Py.startswith "NaN" s || Py.startswith "Infinity" s
         || Py.startswith "-Infinity" s
      then Raise Unsupported
      else Raise JSONDecodeError
  end.

(** [s] with the literal [p] taken off its head, when it starts with it. *)
Fixpoint literal (p s : string) : option string :=
  match p, s with
  | EmptyString, _ => Some s
  | String a p', String b s' => if Ascii.eqb a b then literal p' s' else None
  | String _ _, EmptyString => None
  end.

(** [scan_once], [JSONArray] and [JSONObject].  [parse_elems] starts at the
    first element of a non-empty array, [parse_members] behind the opening
    quote of a key.  [fuel] bounds the depth of the recursion. *)
Fixpoint scan_once (fuel : nat) (s : string) : result (json * string) :=
  match fuel with
  | 0 => Raise OutOfFuel
  | S fuel' =>
      match s with
      | EmptyString => Raise JSONDecodeError
      | String c r =>
          if Ascii.eqb c dquote then
            let* (t, rest) := scanstring r in Ok (JStr t, rest)
          else if Ascii.eqb c "{" then
            match skip_ws r with
            | String c1 r1 =>
                if Ascii.eqb c1 "}" then Ok (JDict [], r1)
                else if Ascii.eqb c1 dquote then
                  let* (pairs, rest) := parse_members fuel' r1 in
                  Ok (JDict (Dict.of_pairs pairs), rest)
                else Raise JSONDecodeError
            | EmptyString => Raise JSONDecodeError
            end
          else if Ascii.eqb c "[" then
            match skip_ws r with
            | String c1 r1 =>
                if Ascii.eqb c1 "]" then Ok (JList [], r1)
                else
                  let* (vs, rest) := parse_elems fuel' (String c1 r1) in
                  Ok (JList vs, rest)
            | EmptyString => Raise JSONDecodeError
            end
          else
            match literal "null" s, literal "true" s, literal "false" s with
            | Some rest, _, _ => Ok (JNull, rest)
            | _, Some rest, _ => Ok (JBool true, rest)
            | _, _, Some rest => Ok (JBool false, rest)
            | None, None, None => scan_number s
            end
      end
  end

with parse_elems (fuel : nat) (s : string) : result (list json * string) :=
  match fuel with
  | 0 => Raise OutOfFuel
  | S fuel' =>
      let* (v, r) := scan_once fuel' s in
      match skip_ws r with
      | String c r1 =>
          if Ascii.eqb c "]" then Ok ([v], r1)
          else if Ascii.eqb c "," then
            let* (vs, rest) := parse_elems fuel' (skip_ws r1) in
            Ok (v :: vs, rest)
          else Raise JSONDecodeError
      | EmptyString => Raise JSONDecodeError
      end
  end

with parse_members (fuel : nat) (s : string)
  : result (list (string * json) * string) :=
  match fuel with
  | 0 => Raise OutOfFuel
  | S fuel' =>
      let* (key, r) := scanstring s in
      match skip_ws r with
      | String c r1 =>
          if Ascii.eqb c ":" then
            let* (v, r2) := scan_once fuel' (skip_ws r1) in
            match skip_ws r2 with
            | String c2 r3 =>
                if Ascii.eqb c2 "}" then Ok ([(key, v)], r3)
                else if Ascii.eqb c2 "," then
                  match skip_ws r3 with
                  | String c3 r4 =>
                      if Ascii.eqb c3 dquote then
                        let* (ps, rest) := parse_members fuel' r4 in
                        Ok ((key, v) :: ps, rest)
                      else Raise JSONDecodeError
                  | EmptyString => Raise JSONDecodeError
                  end
                else Raise JSONDecodeError
            | EmptyString => Raise JSONDecodeError
            end
          else Raise JSONDecodeError
      | EmptyString => Raise JSONDecodeError
      end
  end.

(** [json.loads(s)]: one value, white space around it, nothing else.  A
    container costs the decoder two levels of the bound and at least one
    character, so twice the length of the text is enough. *)
Definition loads (s : string) : result json :=
  let* (v, rest) := scan_once (S (2 * String.length s)) (skip_ws s) in
  match skip_ws rest with
  | EmptyString => Ok v
  | String _ _ => Raise JSONDecodeError
  end.

End Json.

(** ** The program state

    [settings] is the one [dict] object that [Browser.settings],
    [AdBlocker.settings] and [SettingsDialog.settings] all refer to: the
    window creates it in [load_settings] and hands the same object to the
    request filter and to the dialog.  A write by one of them is seen by all,
    so the model keeps a single copy. *)

Definition SETTINGS_FILE : string := "settings.json".

Record state : Type := {
  files : gmap string string;       (* the files of the working directory *)
  settings : pydict;                (* the shared settings dict *)
  blocked_domains : gset string;    (* [AdBlocker.blocked_domains] *)
  url_bar : string;                 (* the text of [Browser.url_bar] *)
  url : string                      (* the URL last given to [browser.setUrl] *)
}.

(** [open(path, "r")] followed by reading the whole text *)
Definition open_read (fs : gmap string string) (path : string) : result string :=
  match fs !! path with
  | Some text => Ok text
  | None => Raise FileNotFoundError
  end.

(** [with open(SETTINGS_FILE, "w") as f: json.dump(d, f, indent=4)] *)
Definition dump_settings (d : pydict) (fs : gmap string string)
  : gmap string string :=
  <[SETTINGS_FILE := Json.dumps (JDict d)]> fs.

(** The request the engine hands to the interceptor: [info.requestUrl()]
    and whether [info.block(True)] has been called on it. *)
Record request_info : Type := {
  requestUrl : string;
  blocked : bool
}.

Definition new_request (u : string) : request_info :=
  {| requestUrl := u; blocked := false |}.

Module AdBlocker.

(** [set(line.strip() for line in file if line.strip())] *)
Definition read_blocklist (text : string) : gset string :=
  list_to_set
    (List.map Py.strip
       (List.filter (fun line => Py.str_truthy (Py.strip line))
          (Py.iter_lines text))).

(** [AdBlocker.__init__]: the value of [self.blocked_domains] *)
Definition init (fs : gmap string string) : result (gset string) :=
  match open_read fs "blocklist.txt" with
  | Ok text => Ok (read_blocklist text)
  | Raise FileNotFoundError => Ok ∅
  | Raise e => Raise e
  end.

(** [any(domain in url for domain in self.blocked_domains)] *)
Definition any_domain_in (domains : gset string) (u : string) : bool :=
  existsb (fun domain => Py.contains domain u) (elements domains).

(** [AdBlocker.interceptRequest] *)
Definition interceptRequest (st : state) (info : request_info)
  : state * request_info :=
  if negb (truthy (Dict.get "ad_block_enabled" (JBool true) (settings st)))
  then (st, info)
  else
    let u := requestUrl info in
    if any_domain_in (blocked_domains st) u
    then (st, {| requestUrl := requestUrl info; blocked := true |})
    else (st, info).

End AdBlocker.

Module SettingsDialog.

(** The four items of the search-engine combo box. *)
Inductive engine_item : Type := DuckDuckGo | Google | Startpage | Brave.

Definition item_text (e : engine_item) : string :=
  match e with
  | DuckDuckGo => "DuckDuckGo"
  | Google => "Google"
  | Startpage => "Startpage"
  | Brave => "Brave"
  end.

(** The widgets of the dialog as the user left them. *)
Record t : Type := {
  adblock_checkbox : bool;            (* [isChecked()] *)
  darkmode_checkbox : bool;           (* [isChecked()] *)
  search_engine_combo : engine_item;  (* the current item *)
  accepted : bool                     (* [self.accept()] was called *)
}.

(** [setChecked(v)]: the binding takes a [bool]; what it does with a value
    of another type is left out of the model. *)
Definition checkbox_value (v : json) : result bool :=
  match v with
  | JBool b => Ok b
  | _ => Raise Unsupported
  end.

(** The item of the combo box with the text [s], if there is one. *)
Definition find_item (s : string) : option engine_item :=
  if String.eqb s "DuckDuckGo" then Some DuckDuckGo
  else if String.eqb s "Google" then Some Google
  else if String.eqb s "Startpage" then Some Startpage
  else if String.eqb s "Brave" then Some Brave
  else None.

(** [addItems([...])] followed by [setCurrentText(v)] on the combo box, which
    is not editable: the item with that text becomes current; when no item
    has it, the first item, current since [addItems], stays.  A value that is
    not a [str] is left out of the model. *)
Definition combo_value (v : json) : result engine_item :=
  match v with
  | JStr s =>
      Ok match find_item s with
         | Some e => e
         | None => DuckDuckGo
         end
  | _ => Raise Unsupported
  end.

(** [SettingsDialog.__init__]: the widgets as the dialog first shows them. *)
Definition init (d : pydict) : result t :=
  let* a := checkbox_value (Dict.get "ad_block_enabled" (JBool true) d) in
  let* dm := checkbox_value (Dict.get "dark_mode" (JBool false) d) in
  let* e := combo_value (Dict.get "search_engine" (JStr "DuckDuckGo") d) in
  Ok {| adblock_checkbox := a; darkmode_checkbox := dm;
        search_engine_combo := e; accepted := false |}.

(** [SettingsDialog.save_settings_and_close] *)
Definition save_settings_and_close (dlg : t) (st : state) : t * state :=
  let s1 := Dict.set "ad_block_enabled" (JBool (adblock_checkbox dlg)) (settings st) in
  let s2 := Dict.set "dark_mode" (JBool (darkmode_checkbox dlg)) s1 in
  let s3 := Dict.set "search_engine"
              (JStr (item_text (search_engine_combo dlg))) s2 in
  ({| adblock_checkbox := adblock_checkbox dlg;
      darkmode_checkbox := darkmode_checkbox dlg;
      search_engine_combo := search_engine_combo dlg;
      accepted := true |},
   {| files := dump_settings s3 (files st);
      settings := s3;
      blocked_domains := blocked_domains st;
      url_bar := url_bar st;
      url := url st |}).

(** What the user does with the open dialog: closes it without saving, or
    leaves the widgets in some position and presses Save. *)
Inductive user_action : Type :=
| Dismiss
| PressSave (adblock darkmode : bool) (engine : engine_item).

(** [dlg.exec_()]: the dialog runs until the user is done with it. *)
Definition exec_ (dlg : t) (act : user_action) (st : state) : t * state :=
  match act with
  | Dismiss => (dlg, st)
  | PressSave a dm e =>
      save_settings_and_close
        {| adblock_checkbox := a; darkmode_checkbox := dm;
           search_engine_combo := e; accepted := accepted dlg |} st
  end.

End SettingsDialog.

Module Browser.

Definition default_settings : pydict :=
  [("ad_block_enabled", JBool true);
   ("dark_mode", JBool false);
   ("search_engine", JStr "DuckDuckGo")].

(** [Browser.load_settings]; [os.path.exists] is presence in the map. *)
Definition load_settings (fs : gmap string string) : result json :=
  match fs !! SETTINGS_FILE with
  | Some _ =>
      let* text := open_read fs SETTINGS_FILE in
      Json.loads text
  | None => Ok (JDict default_settings)
  end.

(** [Browser.get_search_url] *)
Definition get_search_url (d : pydict) (query : string) : string :=
  let engine := Dict.get "search_engine" (JStr "DuckDuckGo") d in
  let encoded := Py.replace " " "+" query in
  if eq_str engine "DuckDuckGo" then "https://duckduckgo.com/?q=" +:+ encoded
  else if eq_str engine "Google" then "https://www.google.com/search?q=" +:+ encoded
  else if eq_str engine "Startpage" then
    "https://www.startpage.com/do/search?query=" +:+ encoded
  else if eq_str engine "Brave" then "https://search.brave.com/search?q=" +:+ encoded
  else "https://duckduckgo.com/?q=" +:+ encoded.

(** [self.browser.setUrl(QUrl(u))] *)
Definition setUrl (u : string) (st : state) : state :=
  {| files := files st;
     settings := settings st;
     blocked_domains := blocked_domains st;
     url_bar := url_bar st;
     url := u |}.

(** [Browser.navigate_home] *)
Definition navigate_home (st : state) : state :=
  setUrl (get_search_url (settings st) "") st.

(** [Browser.navigate_to_url] *)
Definition navigate_to_url (st : state) : state :=
  let q := url_bar st in
  if Py.startswith "http" q then setUrl q st
  else setUrl (get_search_url (settings st) q) st.

(** [Browser.update_url_bar] *)
Definition update_url_bar (q : string) (st : state) : state :=
  {| files := files st;
     settings := settings st;
     blocked_domains := blocked_domains st;
     url_bar := q;
     url := url st |}.

(** [Browser.closeEvent] *)
Definition closeEvent (st : state) : state :=
  {| files := dump_settings (settings st) (files st);
     settings := settings st;
     blocked_domains := blocked_domains st;
     url_bar := url_bar st;
     url := url st |}.

(** [Browser.__init__], as far as the state goes: the settings are loaded
    (and must be a [dict] for the [.get] that follows), the request filter is
    built, the home page is requested. *)
Definition init (fs : gmap string string) : result state :=
  let* loaded := load_settings fs in
  match loaded with
  | JDict d =>
      let* domains := AdBlocker.init fs in
      Ok (navigate_home
            {| files := fs; settings := d; blocked_domains := domains;
               url_bar := ""; url := "" |})
  | _ => Raise AttributeError
  end.

(** [Browser.open_settings]: when the dialog was accepted the window is
    closed, which runs [closeEvent], and [os.execl] replaces the process by a
    fresh one, which starts from the files; the result is then the state of
    the new process. *)
Definition open_settings (act : SettingsDialog.user_action) (st : state)
  : result state :=
  let* dlg := SettingsDialog.init (settings st) in
  match SettingsDialog.exec_ dlg act st with
  | (dlg', st1) =>
      if SettingsDialog.accepted dlg' then init (files (closeEvent st1))
      else Ok st1
  end.

End Browser.

(** ** Strings in full: the settings with every Python [str]

    Above, a [str] is a sequence of code points below 256.  That is enough
    for the text of URLs and files, but [json.dump] and [json.load] treat
    the code points above [0xffff] and the surrogates ([0xd800]..[0xdfff]) in
    a way of their own.  Here a [str] is a list of code points, each below
    [0x110000], and the JSON encoder and decoder are modelled on such
    strings.  The text of a file stays a sequence of characters below 256:
    with [ensure_ascii], the default, [json.dump] writes ASCII only. *)

Abbreviation ustr := (list N).

Module UJson.

Local Open Scope N_scope.

(** A code point a Python [str] can hold. *)
Definition is_code_point (n : N) : bool := n <? 0x110000.

Definition is_high_surrogate (n : N) : bool := (0xd800 <=? n) && (n <=? 0xdbff).

Definition is_low_surrogate (n : N) : bool := (0xdc00 <=? n) && (n <=? 0xdfff).

(** The code points of a string of characters below 256. *)
Fixpoint of_string (s : string) : ustr :=
  match s with
  | EmptyString => []
  | String c r => N_of_ascii c :: of_string r
  end.

Fixpoint ustr_eqb (s t : ustr) : bool :=
  match s, t with
  | [], [] => true
  | a :: s', b :: t' => (a =? b) && ustr_eqb s' t'
  | _, _ => false
  end.

#[local] Unset Elimination Schemes.
Inductive json : Type :=
| Null
| Bool (b : bool)
| Int (z : Z)
| Str (s : ustr)
| List (l : list json)
| Dict (d : list (ustr * json)).
#[local] Set Elimination Schemes.

(** [d[k] = v] on a dict with [str] keys in full. *)
Fixpoint set (k : ustr) (v : json) (d : list (ustr * json))
  : list (ustr * json) :=
  match d with
  | [] => [(k, v)]
  | (k', v') :: d' =>
      if ustr_eqb k' k then (k, v) :: d' else (k', v') :: set k v d'
  end.

(** [dict(pairs)] *)
Definition of_pairs (pairs : list (ustr * json)) : list (ustr * json) :=
  fold_left (fun d kv => set (fst kv) (snd kv) d) pairs [].

(** *** Encoding *)

Definition hex_digit (d : N) : ascii :=
  if d <? 10 then ascii_of_N (48 + d) else ascii_of_N (87 + d).

(** ['{0:04x}'.format(n)] for [n] below [0x10000] *)
Definition hex4 (n : N) : string :=
  String (hex_digit (n / 4096 mod 16))
    (String (hex_digit (n / 256 mod 16))
       (String (hex_digit (n / 16 mod 16))
          (String (hex_digit (n mod 16)) EmptyString))).

(** One code point of [py_encode_basestring_ascii]: the short escapes, the
    printable ASCII characters as they are, the other code points below
    [0x10000] as one [\uXXXX], those above as a surrogate pair. *)
Definition escape_cp (n : N) : string :=
  if n =? 34 then String Json.backslash (String Json.dquote "")
  else if n =? 92 then String Json.backslash (String Json.backslash "")
  else if n =? 8 then String Json.backslash "b"
  else if n =? 12 then String Json.backslash "f"
  else if n =? 10 then String Json.backslash "n"
  else if n =? 13 then String Json.backslash "r"
  else if n =? 9 then String Json.backslash "t"
  else if (32 <=? n) && (n <=? 126) then String (ascii_of_N n) ""
  else if n <? 0x10000 then String Json.backslash (String "u" (hex4 n))
  else
    let v := n - 0x10000 in
    let s1 := N.lor 0xd800 (N.land (N.shiftr v 10) 0x3ff) in
    let s2 := N.lor 0xdc00 (N.land v 0x3ff) in
    String Json.backslash (String "u" (hex4 s1))
    +:+ String Json.backslash (String "u" (hex4 s2)).

Fixpoint escape (s : ustr) : string :=
  match s with
  | [] => EmptyString
  | n :: r => escape_cp n +:+ escape r
  end.

Definition encode_str (s : ustr) : string :=
  String Json.dquote (escape s +:+ String Json.dquote "").

(** [json.dumps(v, indent=4)] at nesting depth [level] *)
Fixpoint dumps_at (level : nat) (v : json) : string :=
  match v with
  | Null => "null"
  | Bool true => "true"
  | Bool false => "false"
  | Int z => Json.repr_int z
  | Str s => encode_str s
  | List [] => "[]"
  | List l =>
      "[" +:+ Json.newline_indent (S level)
      +:+ Json.join ("," +:+ Json.newline_indent (S level))
            (List.map (dumps_at (S level)) l)
      +:+ Json.newline_indent level +:+ "]"
  | Dict [] => "{}"
  | Dict d =>
      "{" +:+ Json.newline_indent (S level)
      +:+ Json.join ("," +:+ Json.newline_indent (S level))
            (List.map (fun kv => match kv with
                                 | (k, x) => encode_str k +:+ ": " +:+ dumps_at (S level) x
                                 end) d)
      +:+ Json.newline_indent level +:+ "}"
  end.

Definition dumps (v : json) : string := dumps_at 0 v.

(** *** Decoding *)

Definition hex4_val (h1 h2 h3 h4 : ascii) : option N :=
  match Json.hex_val h1, Json.hex_val h2, Json.hex_val h3, Json.hex_val h4 with
  | Some a, Some b, Some c, Some d =>
      Some (N.of_nat (4096 * a + 256 * b + 16 * c + d))
  | _, _, _, _ => None
  end.

(** [0x10000 + (((uni - 0xd800) << 10) | (uni2 - 0xdc00))] *)
Definition join_surrogates (uni uni2 : N) : N :=
  0x10000 + N.lor (N.shiftl (uni - 0xd800) 10) (uni2 - 0xdc00).

(** [scanstring] in strict mode, started behind the opening quote.  A
    [\uXXXX] that is a high surrogate and is followed by a [\uXXXX] that is a
    low surrogate is decoded, with it, as one code point. *)
Fixpoint scanstring (s : string) : result (ustr * string) :=
  match s with
  | EmptyString => Raise JSONDecodeError
  | String c r =>
      if Ascii.eqb c Json.dquote then Ok ([], r)
      else if Ascii.eqb c Json.backslash then
        match r with
        | EmptyString => Raise JSONDecodeError
        | String e r1 =>
            if Ascii.eqb e "u" then
              match r1 with
              | String h1 (String h2 (String h3 (String h4 r2))) =>
                  match hex4_val h1 h2 h3 h4 with
                  | Some uni =>
                      if is_high_surrogate uni then
                        match r2 with
                        | String b (String u' r3) =>
                            if Ascii.eqb b Json.backslash && Ascii.eqb u' "u" then
                              match r3 with
                              | String g1 (String g2 (String g3 (String g4 r4))) =>
                                  match hex4_val g1 g2 g3 g4 with
                                  | Some uni2 =>
                                      if is_low_surrogate uni2 then
                                        let* (t, rest) := scanstring r4 in
                                        Ok (join_surrogates uni uni2 :: t, rest)
                                      else
                                        let* (t, rest) := scanstring r2 in
                                        Ok (uni :: t, rest)
                                  | None => Raise JSONDecodeError
                                  end
                              | _ => Raise JSONDecodeError
                              end
                            else
                              let* (t, rest) := scanstring r2 in Ok (uni :: t, rest)
                        | _ => let* (t, rest) := scanstring r2 in Ok (uni :: t, rest)
                        end
                      else let* (t, rest) := scanstring r2 in Ok (uni :: t, rest)
                  | None => Raise JSONDecodeError
                  end
              | _ => Raise JSONDecodeError
              end
            else
              match Json.unescape e with
              | Some ch =>
                  let* (t, rest) := scanstring r1 in Ok (N_of_ascii ch :: t, rest)
              | None => Raise JSONDecodeError
              end
        end
      else if (nat_of_ascii c <? 32)%nat then Raise JSONDecodeError
      else let* (t, rest) := scanstring r in Ok (N_of_ascii c :: t, rest)
  end.

Definition scan_number (s : string) : result (json * string) :=
  let (neg, body) :=
    match s with
    | String "-" r => (true, r)
    | _ => (false, s)
    end in
  match Json.scan_natural body with
  | Some (n, rest) =>
      if Json.float_follows rest then Raise Unsupported
      else Ok (Int (if neg then Z.opp n else n), rest)
  | None =>
      if Py.startswith "NaN" s || Py.startswith "Infinity" s
         || Py.startswith "-Infinity" s
      then Raise Unsupported
      else Raise JSONDecodeError
  end.

(** [scan_once], [JSONArray] and [JSONObject], as in [Json]. *)
Fixpoint scan_once (fuel : nat) (s : string) : result (json * string) :=
  match fuel with
  | O => Raise OutOfFuel
  | S fuel' =>
      match s with
      | EmptyString => Raise JSONDecodeError
      | String c r =>
          if Ascii.eqb c Json.dquote then
            let* (t, rest) := scanstring r in Ok (Str t, rest)
          else if Ascii.eqb c "{" then
            match Json.skip_ws r with
            | String c1 r1 =>
                if Ascii.eqb c1 "}" then Ok (Dict [], r1)
                else if Ascii.eqb c1 Json.dquote then
                  let* (pairs, rest) := parse_members fuel' r1 in
                  Ok (Dict (of_pairs pairs), rest)
                else Raise JSONDecodeError
            | EmptyString => Raise JSONDecodeError
            end
          else if Ascii.eqb c "[" then
            match Json.skip_ws r with
            | String c1 r1 =>
                if Ascii.eqb c1 "]" then Ok (List [], r1)
                else
                  let* (vs, rest) := parse_elems fuel' (String c1 r1) in
                  Ok (List vs, rest)
            | EmptyString => Raise JSONDecodeError
            end
          else
            match Json.literal "null" s, Json.literal "true" s,
                  Json.literal "false" s with
            | Some rest, _, _ => Ok (Null, rest)
            | _, Some rest, _ => Ok (Bool true, rest)
            | _, _, Some rest => Ok (Bool false, rest)
            | None, None, None => scan_number s
            end
      end
  end

with parse_elems (fuel : nat) (s : string) : result (list json * string) :=
  match fuel with
  | O => Raise OutOfFuel
  | S fuel' =>
      let* (v, r) := scan_once fuel' s in
      match Json.skip_ws r with
      | String c r1 =>
          if Ascii.eqb c "]" then Ok ([v], r1)
          else if Ascii.eqb c "," then
            let* (vs, rest) := parse_elems fuel' (Json.skip_ws r1) in
            Ok (v :: vs, rest)
          else Raise JSONDecodeError
      | EmptyString => Raise JSONDecodeError
      end
  end

with parse_members (fuel : nat) (s : string)
  : result (list (ustr * json) * string) :=
  match fuel with
  | O => Raise OutOfFuel
  | S fuel' =>
      let* (key, r) := scanstring s in
      match Json.skip_ws r with
      | String c r1 =>
          if Ascii.eqb c ":" then
            let* (v, r2) := scan_once fuel' (Json.skip_ws r1) in
            match Json.skip_ws r2 with
            | String c2 r3 =>
                if Ascii.eqb c2 "}" then Ok ([(key, v)], r3)
                else if Ascii.eqb c2 "," then
                  match Json.skip_ws r3 with
                  | String c3 r4 =>
                      if Ascii.eqb c3 Json.dquote then
                        let* (ps, rest) := parse_members fuel' r4 in
                        Ok ((key, v) :: ps, rest)
                      else Raise JSONDecodeError
                  | EmptyString => Raise JSONDecodeError
                  end
                else Raise JSONDecodeError
            | EmptyString => Raise JSONDecodeError
            end
          else Raise JSONDecodeError
      | EmptyString => Raise JSONDecodeError
      end
  end.

(** [json.loads(s)] *)
Definition loads (s : string) : result json :=
  let* (v, rest) := scan_once (S (2 * String.length s)) (Json.skip_ws s) in
  match Json.skip_ws rest with
  | EmptyString => Ok v
  | String _ _ => Raise JSONDecodeError
  end.

(** *** The settings file *)

(** [with open(SETTINGS_FILE, "w") as f: json.dump(d, f, indent=4)] *)
Definition dump_settings (d : list (ustr * json)) (fs : gmap string string)
  : gmap string string :=
  <[SETTINGS_FILE := dumps (Dict d)]> fs.

(** The default dict of [Browser.load_settings]. *)
Definition default_settings : list (ustr * json) :=
  [(of_string "ad_block_enabled", Bool true);
   (of_string "dark_mode", Bool false);
   (of_string "search_engine", Str (of_string "DuckDuckGo"))].

(** [Browser.load_settings] *)
Definition load_settings (fs : gmap string string) : result json :=
  match fs !! SETTINGS_FILE with
  | Some _ =>
      let* text := open_read fs SETTINGS_FILE in
      loads text
  | None => Ok (Dict default_settings)
  end.

(** [SettingsDialog.save_settings_and_close] on the dict with every Python
    [str]: the three widget values are stored in the dict, then the dict is
    written.  The result is the dict and the files afterwards. *)
Definition save_settings_and_close (dlg : SettingsDialog.t)
    (settings : list (ustr * json)) (fs : gmap string string)
  : list (ustr * json) * gmap string string :=
  let s1 := set (of_string "ad_block_enabled")
              (Bool (SettingsDialog.adblock_checkbox dlg)) settings in
  let s2 := set (of_string "dark_mode")
              (Bool (SettingsDialog.darkmode_checkbox dlg)) s1 in
  let s3 := set (of_string "search_engine")
              (Str (of_string
                      (SettingsDialog.item_text
                         (SettingsDialog.search_engine_combo dlg)))) s2 in
  (s3, dump_settings s3 fs).

(** The settings record with a [search_engine] that is any Python [str]. *)
Record settings_record : Type := {
  ad_block_enabled : bool;
  dark_mode : bool;
  search_engine : ustr
}.

(** The record as the dict the program holds. *)
Definition record_dict (r : settings_record) : list (ustr * json) :=
  [(of_string "ad_block_enabled", Bool (ad_block_enabled r));
   (of_string "dark_mode", Bool (dark_mode r));
   (of_string "search_engine", Str (search_engine r))].

(** No high surrogate of [s] is followed at once by a low surrogate. *)
Fixpoint no_surrogate_pair (s : ustr) : bool :=
  match s with
  | [] => true
  | n :: r =>
      negb (is_high_surrogate n
            && match r with
               | m :: _ => is_low_surrogate m
               | [] => false
               end)
      && no_surrogate_pair r
  end.

(** Every element of [s] is a code point: [s] is a Python [str]. *)
Definition is_str (s : ustr) : bool := forallb is_code_point s.

(** What [scanstring] does behind a [\uXXXX] that is the high surrogate
    [uni], the text [tail] following: the branch of its definition. *)
Definition after_high (uni : N) (tail : string) : result (ustr * string) :=
  match tail with
  | String b (String u' r3) =>
      if Ascii.eqb b Json.backslash && Ascii.eqb u' "u" then
        match r3 with
        | String g1 (String g2 (String g3 (String g4 r4))) =>
            match hex4_val g1 g2 g3 g4 with
            | Some uni2 =>
                if is_low_surrogate uni2 then
                  let* (t, rest) := scanstring r4 in
                  Ok (join_surrogates uni uni2 :: t, rest)
                else
                  let* (t, rest) := scanstring tail in
                  Ok (uni :: t, rest)
            | None => Raise JSONDecodeError
            end
        | _ => Raise JSONDecodeError
        end
      else
        let* (t, rest) := scanstring tail in Ok (uni :: t, rest)
  | _ => let* (t, rest) := scanstring tail in Ok (uni :: t, rest)
  end.

End UJson.

(** * Notions the statements use *)

(** ** The settings record and the request filter *)

(** The settings record of the three documented fields. *)
Record settings_record : Type := {
  ad_block_enabled : bool;
  dark_mode : bool;
  search_engine : string
}.

(** The record as the dict the program holds. *)
Definition record_dict (r : settings_record) : pydict :=
  [("ad_block_enabled", JBool (ad_block_enabled r));
   ("dark_mode", JBool (dark_mode r));
   ("search_engine", JStr (search_engine r))].

(** The toggle as the filter reads it: [settings.get("ad_block_enabled", True)]
    taken as a truth value. *)
Definition toggle_enabled (st : state) : bool :=
  truthy (Dict.get "ad_block_enabled" (JBool true) (settings st)).

(** A state with the filter enabled and one blocklist entry. *)
Definition sample_state : state :=
  {| files := ∅;
     settings := [("ad_block_enabled", JBool true)];
     blocked_domains := {[ "ads." ]};
     url_bar := "";
     url := "" |}.

(** A dialog with ad blocking off, dark mode on and Brave chosen. *)
Definition sample_dialog : SettingsDialog.t :=
  {| SettingsDialog.adblock_checkbox := false;
     SettingsDialog.darkmode_checkbox := true;
     SettingsDialog.search_engine_combo := SettingsDialog.Brave;
     SettingsDialog.accepted := false |}.

(** The user actions and engine callbacks that run after start-up. *)
Inductive event : Type :=
| InterceptRequest (info : request_info)
| SaveSettingsAndClose (dlg : SettingsDialog.t)
| NavigateHome
| NavigateToUrl
| UpdateUrlBar (q : string)
| CloseEvent.

Definition handle (st : state) (e : event) : state :=
  match e with
  | InterceptRequest info => fst (AdBlocker.interceptRequest st info)
  | SaveSettingsAndClose dlg => snd (SettingsDialog.save_settings_and_close dlg st)
  | NavigateHome => Browser.navigate_home st
  | NavigateToUrl => Browser.navigate_to_url st
  | UpdateUrlBar q => Browser.update_url_bar q st
  | CloseEvent => Browser.closeEvent st
  end.

Definition run (st : state) (es : list event) : state := fold_left handle es st.

(** [s] starts with [http]. *)
Definition starts_with_http (s : string) : Prop :=
  exists rest, s = "http" +:+ rest.

(** The four search-URL templates. *)
Definition search_templates : list string :=
  ["https://duckduckgo.com/?q=";
   "https://www.google.com/search?q=";
   "https://www.startpage.com/do/search?query=";
   "https://search.brave.com/search?q="].

(** The template of an item of the combo box. *)
Definition template_of (e : SettingsDialog.engine_item) : string :=
  match e with
  | SettingsDialog.DuckDuckGo => "https://duckduckgo.com/?q="
  | SettingsDialog.Google => "https://www.google.com/search?q="
  | SettingsDialog.Startpage => "https://www.startpage.com/do/search?query="
  | SettingsDialog.Brave => "https://search.brave.com/search?q="
  end.

(** The character [c] occurs in [s]. *)
Definition occurs (c : ascii) (s : string) : Prop :=
  In c (list_ascii_of_string s).

(** A text of white space in the sense of the JSON grammar. *)
Definition json_blank (s : string) : Prop :=
  forall c, occurs c s ->
            c = " "%char \/ c = "009"%char \/ c = "010"%char \/ c = "013"%char.

(** The text of a file that holds the lines [ls], each ended by a line
    feed. *)
Fixpoint lines_text (ls : list string) : string :=
  match ls with
  | [] => EmptyString
  | l :: ls' => l +:+ String "010" (lines_text ls')
  end.

(** The same file with each line ended by carriage return and line feed. *)
Fixpoint crlf_text (ls : list string) : string :=
  match ls with
  | [] => EmptyString
  | l :: ls' => l +:+ String "013" (String "010" (crlf_text ls'))
  end.

(** ** What [strip] does *)

(** Every character of [s] is white space. *)
Fixpoint all_space (s : string) : Prop :=
  match s with
  | EmptyString => True
  | String c r => Py.isspace c = true /\ all_space r
  end.

(** [s] does not begin with white space. *)
Definition no_leading_space (s : string) : Prop :=
  match s with
  | EmptyString => True
  | String c _ => Py.isspace c = false
  end.

(** [s] does not end with white space. *)
Fixpoint no_trailing_space (s : string) : Prop :=
  match s with
  | EmptyString => True
  | String c EmptyString => Py.isspace c = false
  | String _ r => no_trailing_space r
  end.

(** [d] is [line] without its leading and trailing white space. *)
Definition stripped_of (line d : string) : Prop :=
  (exists pre post,
      line = pre +:+ d +:+ post /\ all_space pre /\ all_space post)
  /\ no_leading_space d /\ no_trailing_space d.

(** ** Search URLs *)

(** [encoded] is [query] with every space turned into a plus sign and every
    other character kept. *)
Definition plus_encoded (query encoded : string) : Prop :=
  String.length encoded = String.length query
  /\ forall i : nat,
      String.get i encoded
      = option_map (fun c => if Ascii.eqb c " " then "+"%char else c)
          (String.get i query).

(** ** JSON text *)

(** What may follow a value in the text [dumps] writes: nothing, a comma or
    a line feed. *)
Definition delimited (rest : string) : Prop :=
  match rest with
  | EmptyString => True
  | String c _ => c = ","%char \/ c = "010"%char
  end.

(** ** Well-formed values and their size *)

(** Every dict inside [v] has pairwise distinct keys, as every Python dict
    has. *)
Fixpoint json_wf (v : json) : Prop :=
  match v with
  | JList l => fold_right (fun x acc => json_wf x /\ acc) True l
  | JDict d =>
      Dict.wf d
      /\ fold_right (fun kv acc => match kv with (_, x) => json_wf x /\ acc end) True d
  | _ => True
  end.

(** A bound on the recursion depth the decoder needs for [v]. *)
Fixpoint json_size (v : json) : nat :=
  match v with
  | JList l => S (fold_right (fun x acc => S (json_size x + acc)) 0 l)
  | JDict d =>
      S (fold_right (fun kv acc => match kv with (_, x) => S (json_size x + acc) end) 0 d)
  | _ => 1
  end.

(** ** The limits of the interpreter's decoder *)





Section JsonInduction.

Variable P : json -> Prop.
Hypothesis HNull : P JNull.
Hypothesis HBool : forall b, P (JBool b).
Hypothesis HInt : forall z, P (JInt z).
Hypothesis HStr : forall s, P (JStr s).
Hypothesis HList : forall l, Forall P l -> P (JList l).
Hypothesis HDict : forall d, Forall (fun kv => P (snd kv)) d -> P (JDict d).

Fixpoint json_nested_ind (v : json) : P v :=
  match v with
  | JNull => HNull
  | JBool b => HBool b
  | JInt z => HInt z
  | JStr s => HStr s
  | JList l =>
      HList l
        ((fix go (l : list json) : Forall P l :=
            match l with
            | [] => @List.Forall_nil _ P
            | x :: l' => @List.Forall_cons _ P x l' (json_nested_ind x) (go l')
            end) l)
  | JDict d =>
      HDict d
        ((fix go (d : list (string * json)) : Forall (fun kv => P (snd kv)) d :=
            match d with
            | [] => @List.Forall_nil _ (fun kv => P (snd kv))
            | (k, x) :: d' =>
                @List.Forall_cons _ (fun kv => P (snd kv)) (k, x) d'
                  (json_nested_ind x) (go d')
            end) d)
  end.

End JsonInduction.

(** [join sep l +:+ closing], with the appends nested to the right. *)
Fixpoint items (sep : string) (l : list string) (closing : string) : string :=
  match l with
  | [] => closing
  | x :: l' =>
      x +:+ match l' with
            | [] => closing
            | _ :: _ => sep +:+ items sep l' closing
            end
  end.

(** What follows the first item. *)
Definition tail_of (sep : string) (l : list string) (closing : string) : string :=
  match l with
  | [] => closing
  | _ :: _ => sep +:+ items sep l closing
  end.

(** The characters a value can start with in the text [dumps] writes. *)
Definition value_start : list ascii :=
  Json.dquote :: list_ascii_of_string "ntf-0123456789[{".

(** The separator between the items of a container at depth [m]. *)
Definition sep_at (m : nat) : string := "," +:+ Json.newline_indent m.

(** One member of a dict at depth [m]. *)
Definition member_text (m : nat) (kv : string * json) : string :=
  match kv with
  | (key, x) => Json.encode_str key +:+ ": " +:+ Json.dumps_at m x
  end.

Definition elems_size (l : list json) : nat :=
  fold_right (fun x acc => S (json_size x + acc)) 0 l.

Definition members_size (d : pydict) : nat :=
  fold_right (fun kv acc => match kv with (_, x) => S (json_size x + acc) end) 0 d.

Definition elems_wf (l : list json) : Prop :=
  fold_right (fun x acc => json_wf x /\ acc) True l.

Definition members_wf (d : pydict) : Prop :=
  fold_right (fun kv acc => match kv with (_, x) => json_wf x /\ acc end) True d.

(** * The model on concrete inputs *)

Example strip_ex : Py.strip "  ads.example.com
" = "ads.example.com".
Proof. reflexivity. Qed.

Example iter_lines_ex :
  Py.iter_lines ("a" +:+ String "013" (String "010" "b") +:+ String "013" "c")
  = ["a" +:+ String "010" ""; "b" +:+ String "010" ""; "c"].
Proof. reflexivity. Qed.

Example dumps_default :
  Json.dumps (JDict Browser.default_settings) =
  "{
    " +:+ String Json.dquote "ad_block_enabled" +:+ String Json.dquote ": true,
    " +:+ String Json.dquote "dark_mode" +:+ String Json.dquote ": false,
    " +:+ String Json.dquote "search_engine" +:+ String Json.dquote ": "
      +:+ String Json.dquote "DuckDuckGo" +:+ String Json.dquote "
}".
Proof. reflexivity. Qed.

Example init_empty_dir :
  Browser.init ∅ =
  Ok {| files := ∅; settings := Browser.default_settings; blocked_domains := ∅;
        url_bar := ""; url := "https://duckduckgo.com/?q=" |}.
Proof. reflexivity. Qed.

(** * Properties of the string operations *)

Section StringFacts.

Implicit Types (s p sub : string) (c : ascii).

Lemma append_nil_r s : s +:+ "" = s.
Proof. induction s as [|c s IH]; simpl; [reflexivity | now rewrite IH]. Qed.

Lemma append_assoc s1 s2 s3 : (s1 +:+ s2) +:+ s3 = s1 +:+ s2 +:+ s3.
Proof. induction s1 as [|c s1 IH]; simpl; [reflexivity | now rewrite IH]. Qed.

Lemma ascii_eqb_true c1 c2 : Ascii.eqb c1 c2 = true <-> c1 = c2.
Proof. apply Ascii.eqb_eq. Qed.

(** [startswith] decides being a prefix. *)
Lemma startswith_spec p s :
  Py.startswith p s = true <-> exists post, s = p +:+ post.
Proof.
  revert s. induction p as [|a p IH]; intros s; simpl.
  - split; [intros _; now exists s | reflexivity].
  - destruct s as [|b s].
    + split; [discriminate | intros [post H]; discriminate].
    + destruct (Ascii.eqb a b) eqn:E.
      * apply Ascii.eqb_eq in E. subst b. rewrite IH.
        split; intros [post H]; exists post; [now rewrite H | now injection H].
      * apply Ascii.eqb_neq in E.
        split; [discriminate | intros [post H]; injection H; congruence].
Qed.

(** [contains] decides being a substring. *)
Lemma contains_spec sub s :
  Py.contains sub s = true <-> exists pre post, s = pre +:+ sub +:+ post.
Proof.
  induction s as [|c s IH]; simpl.
  - rewrite orb_false_r, startswith_spec. split.
    + intros [post H]. now exists "", post.
    + intros [[|c pre] [post H]]; [now exists post | discriminate].
  - rewrite orb_true_iff, startswith_spec, IH. split.
    + intros [[post H] | [pre [post H]]].
      * now exists "", post.
      * exists (String c pre), post. simpl. now rewrite H.
    + intros [[|c' pre] [post H]].
      * left. now exists post.
      * right. simpl in H. injection H as _ H. now exists pre, post.
Qed.

Lemma contains_empty s : Py.contains "" s = true.
Proof. destruct s; reflexivity. Qed.

(** [replace] keeps the length and works character by character. *)
Lemma replace_length old new s :
  String.length (Py.replace old new s) = String.length s.
Proof. induction s as [|c s IH]; simpl; [reflexivity | now rewrite IH]. Qed.

Lemma replace_get old new s (i : nat) :
  String.get i (Py.replace old new s)
  = option_map (fun c => if Ascii.eqb c old then new else c) (String.get i s).
Proof.
  revert i. induction s as [|c s IH]; intros i; simpl; [reflexivity|].
  destruct i; simpl; [reflexivity | apply IH].
Qed.

End StringFacts.

Section StripFacts.

Lemma lstrip_spec s :
  exists pre, s = pre +:+ Py.lstrip s /\ all_space pre
              /\ no_leading_space (Py.lstrip s).
Proof.
  induction s as [|c s (pre & Hs & Hpre & Hhd)]; simpl.
  - now exists "".
  - destruct (Py.isspace c) eqn:E.
    + exists (String c pre). simpl. now rewrite <- Hs.
    + exists "". simpl. auto.
Qed.

Lemma rstrip_spec s :
  exists post, s = Py.rstrip s +:+ post /\ all_space post
               /\ no_trailing_space (Py.rstrip s).
Proof.
  induction s as [|c s (post & Hs & Hpost & Htl)]; simpl.
  - now exists "".
  - destruct (Py.rstrip s) as [|c' r'] eqn:E.
    + simpl in Hs. subst post. destruct (Py.isspace c) eqn:Ec.
      * exists (String c s). simpl. auto.
      * exists s. simpl. auto.
    + exists post. simpl. rewrite Hs at 1. simpl. auto.
Qed.

Lemma rstrip_keeps_head s : no_leading_space s -> no_leading_space (Py.rstrip s).
Proof.
  destruct s as [|c s]; simpl; [trivial|]. intros H.
  destruct (Py.rstrip s); [rewrite H|]; exact H.
Qed.

Lemma strip_spec line : stripped_of line (Py.strip line).
Proof.
  unfold Py.strip.
  destruct (lstrip_spec line) as (pre & Hl & Hpre & Hhd).
  destruct (rstrip_spec (Py.lstrip line)) as (post & Hr & Hpost & Htl).
  split; [|split].
  - exists pre, post. now rewrite <- Hr.
  - now apply rstrip_keeps_head.
  - exact Htl.
Qed.

End StripFacts.

(** * The request filter *)

Lemma any_domain_in_spec (domains : gset string) (u : string) :
  AdBlocker.any_domain_in domains u = true
  <-> exists d, d ∈ domains /\ exists pre post, u = pre +:+ d +:+ post.
Proof.
  unfold AdBlocker.any_domain_in. rewrite existsb_exists. split.
  - intros (d & Hin & Hc). exists d. split.
    + apply elem_of_elements. now apply list_elem_of_In.
    + now apply contains_spec.
  - intros (d & Hin & Hc). exists d. split.
    + apply list_elem_of_In. now apply elem_of_elements.
    + now apply contains_spec.
Qed.

(** C1: with the toggle enabled a request is blocked exactly when its URL
    contains a blocklisted substring; with the toggle disabled no request is
    blocked, whatever the blocklist holds. *)
Theorem intercept_decision (st : state) (u : string) :
  let decision := blocked (snd (AdBlocker.interceptRequest st (new_request u))) in
  (toggle_enabled st = true ->
   (decision = true
    <-> exists d, d ∈ blocked_domains st /\ exists pre post, u = pre +:+ d +:+ post))
  /\ (toggle_enabled st = false -> decision = false).
Proof.
  unfold toggle_enabled, AdBlocker.interceptRequest. simpl.
  split; intros ->; simpl; [|reflexivity].
  rewrite <- any_domain_in_spec.
  destruct (AdBlocker.any_domain_in (blocked_domains st) u); simpl; tauto.
Qed.

Lemma intercept_decision_witness :
  blocked (snd (AdBlocker.interceptRequest sample_state
                  (new_request "https://ads.example.com/x.js"))) = true.
Proof.
  apply (proj1 (intercept_decision sample_state "https://ads.example.com/x.js")).
  - reflexivity.
  - exists "ads.". split; [set_solver|].
    now exists "https://", "example.com/x.js".
Defined.

(** C5: without a blocklist file the filter is built with the empty set, and
    with the empty set no request is blocked, whatever the settings and the
    URL. *)
Theorem missing_blocklist_blocks_nothing (fs : gmap string string) :
  fs !! "blocklist.txt" = None ->
  AdBlocker.init fs = Ok ∅
  /\ forall (st : state) (u : string),
      blocked_domains st = ∅ ->
      blocked (snd (AdBlocker.interceptRequest st (new_request u))) = false.
Proof.
  intros Hfs. split.
  - unfold AdBlocker.init, open_read. now rewrite Hfs.
  - intros st u Hb. unfold AdBlocker.interceptRequest. rewrite Hb.
    destruct (negb _); reflexivity.
Qed.

Lemma missing_blocklist_blocks_nothing_witness :
  AdBlocker.init ∅ = Ok ∅
  /\ blocked (snd (AdBlocker.interceptRequest
                     {| files := ∅; settings := Browser.default_settings;
                        blocked_domains := ∅; url_bar := ""; url := "" |}
                     (new_request "https://ads.example.com/"))) = false.
Proof.
  destruct (missing_blocklist_blocks_nothing ∅) as [H1 H2]; [reflexivity|].
  split; [exact H1 | apply H2; reflexivity].
Defined.

Lemma intercept_state (st : state) (info : request_info) :
  fst (AdBlocker.interceptRequest st info) = st.
Proof.
  unfold AdBlocker.interceptRequest.
  destruct (negb _); [reflexivity|]. destruct (AdBlocker.any_domain_in _ _); reflexivity.
Qed.

Lemma handle_blocked_domains (st : state) (e : event) :
  blocked_domains (handle st e) = blocked_domains st.
Proof.
  destruct e; simpl; try reflexivity.
  - now rewrite intercept_state.
  - unfold Browser.navigate_to_url. destruct (Py.startswith _ _); reflexivity.
Qed.

(** C7: the request-filter callback leaves the whole program state as it
    was, in particular the blocklist set and the settings record; and no
    action that follows start-up changes the blocklist set. *)
Theorem intercept_frame :
  (forall (st : state) (info : request_info),
      let st' := fst (AdBlocker.interceptRequest st info) in
      st' = st
      /\ blocked_domains st' = blocked_domains st
      /\ settings st' = settings st)
  /\ (forall (st : state) (es : list event),
         blocked_domains (run st es) = blocked_domains st).
Proof.
  split.
  - intros st info. simpl. now rewrite intercept_state.
  - intros st es. revert st. unfold run.
    induction es as [|e es IH]; intros st; simpl; [reflexivity|].
    now rewrite IH, handle_blocked_domains.
Qed.

Lemma str_truthy_spec (s : string) : Py.str_truthy s = true <-> s <> "".
Proof. destruct s; simpl; split; congruence. Qed.

Lemma read_blocklist_spec (text d : string) :
  d ∈ AdBlocker.read_blocklist text
  <-> exists line, In line (Py.iter_lines text) /\ d = Py.strip line /\ d <> "".
Proof.
  unfold AdBlocker.read_blocklist.
  rewrite elem_of_list_to_set, list_elem_of_In, in_map_iff. split.
  - intros (line & <- & Hin). apply filter_In in Hin as [Hin Ht].
    exists line. split; [exact Hin|]. split; [reflexivity|].
    now apply str_truthy_spec.
  - intros (line & Hin & -> & Hne). exists line. split; [reflexivity|].
    apply filter_In. split; [exact Hin|]. now apply str_truthy_spec.
Qed.

(** C8: building the filter always succeeds; the elements of the blocklist
    set are exactly the lines of the file with their leading and trailing
    white space taken off, those that are empty afterwards left out; so the
    empty string, which is a substring of every URL, is never in the set. *)
Theorem blocklist_never_holds_empty_string (fs : gmap string string) :
  exists domains,
    AdBlocker.init fs = Ok domains
    /\ ("" ∉ domains)
    /\ (forall d,
          (d ∈ domains)
          <-> (exists text line,
                  fs !! "blocklist.txt" = Some text
                  /\ In line (Py.iter_lines text)
                  /\ d = Py.strip line /\ stripped_of line d /\ d <> ""))
    /\ (forall u, Py.contains "" u = true).
Proof.
  unfold AdBlocker.init, open_read.
  destruct (fs !! "blocklist.txt") as [text|] eqn:Hfs.
  - exists (AdBlocker.read_blocklist text). split; [reflexivity|].
    split; [|split].
    + rewrite read_blocklist_spec. intros (line & _ & _ & Hne). now apply Hne.
    + intros d. rewrite read_blocklist_spec. split.
      * intros (line & Hin & -> & Hne). exists text, line.
        repeat split; auto; apply strip_spec.
      * intros (text' & line & [= <-] & Hin & Hd & _ & Hne). now exists line.
    + apply contains_empty.
  - exists ∅. split; [reflexivity|]. split; [set_solver|]. split.
    + intros d. split; [set_solver|]. intros (text & line & [=] & _).
    + apply contains_empty.
Qed.

Example read_blocklist_ex :
  AdBlocker.read_blocklist
    ("ads.example.com" +:+ String "013" (String "010" "")
     +:+ "   " +:+ String "010" "" +:+ String "010" ""
     +:+ String "009" "track." +:+ String "010" "")
  = {[ "ads.example.com"; "track." ]}.
Proof. vm_compute. reflexivity. Qed.

(** * Settings: defaults *)

(** C2: when [settings.json] does not exist, loading the settings gives the
    default record: ad blocking on, dark mode off, DuckDuckGo. *)
Theorem load_settings_missing_file (fs : gmap string string) :
  fs !! SETTINGS_FILE = None ->
  Browser.load_settings fs
  = Ok (JDict [("ad_block_enabled", JBool true);
               ("dark_mode", JBool false);
               ("search_engine", JStr "DuckDuckGo")]).
Proof. intros H. unfold Browser.load_settings. now rewrite H. Qed.

Lemma load_settings_missing_file_witness :
  Browser.load_settings ∅
  = Ok (JDict [("ad_block_enabled", JBool true);
               ("dark_mode", JBool false);
               ("search_engine", JStr "DuckDuckGo")]).
Proof. apply (load_settings_missing_file ∅). reflexivity. Defined.

(** * Search URLs and navigation *)

Lemma replace_plus_encoded (query : string) :
  plus_encoded query (Py.replace " " "+" query).
Proof. split; [apply replace_length | intros i; apply replace_get]. Qed.

(** C4: for each of the four engines the search URL is the engine's
    template followed by the query with its spaces turned into plus signs. *)
Theorem search_url_templates (d : pydict) (query : string)
    (e : SettingsDialog.engine_item) :
  Dict.lookup "search_engine" d = Some (JStr (SettingsDialog.item_text e)) ->
  exists encoded,
    plus_encoded query encoded
    /\ Browser.get_search_url d query
       = match e with
         | SettingsDialog.DuckDuckGo => "https://duckduckgo.com/?q="
         | SettingsDialog.Google => "https://www.google.com/search?q="
         | SettingsDialog.Startpage => "https://www.startpage.com/do/search?query="
         | SettingsDialog.Brave => "https://search.brave.com/search?q="
         end +:+ encoded.
Proof.
  intros H. exists (Py.replace " " "+" query).
  split; [apply replace_plus_encoded|].
  unfold Browser.get_search_url, Dict.get. rewrite H.
  destruct e; reflexivity.
Qed.

Lemma search_url_templates_witness :
  exists encoded,
    plus_encoded "rocq prover" encoded
    /\ Browser.get_search_url [("search_engine", JStr "Startpage")] "rocq prover"
       = "https://www.startpage.com/do/search?query=" +:+ encoded.
Proof.
  apply (search_url_templates [("search_engine", JStr "Startpage")]
           "rocq prover" SettingsDialog.Startpage).
  reflexivity.
Defined.

Example search_url_ex :
  Browser.get_search_url [("search_engine", JStr "Brave")] "rocq  prover 9"
  = "https://search.brave.com/search?q=rocq++prover+9".
Proof. reflexivity. Qed.

(** C10: the search URL is defined for every settings dict and every query;
    when the [search_engine] key is absent, or holds a string that is none of
    the four engine names, it is the DuckDuckGo URL. *)
Theorem search_url_fallback (d : pydict) (query : string) :
  Dict.lookup "search_engine" d = None
  \/ (exists s, Dict.lookup "search_engine" d = Some (JStr s)
                /\ s <> "DuckDuckGo" /\ s <> "Google"
                /\ s <> "Startpage" /\ s <> "Brave") ->
  Browser.get_search_url d query
  = "https://duckduckgo.com/?q=" +:+ Py.replace " " "+" query.
Proof.
  unfold Browser.get_search_url, Dict.get.
  intros [-> | (s & -> & H1 & H2 & H3 & H4)]; [reflexivity|]. simpl.
  apply String.eqb_neq in H1, H2, H3, H4. now rewrite H1, H2, H3, H4.
Qed.

Lemma search_url_fallback_witness :
  Browser.get_search_url [("search_engine", JStr "Bing")] "a b"
  = "https://duckduckgo.com/?q=" +:+ Py.replace " " "+" "a b".
Proof.
  apply (search_url_fallback [("search_engine", JStr "Bing")] "a b").
  right. exists "Bing". repeat split; discriminate.
Defined.

(** C9: navigation loads the address-bar text itself when it starts with
    [http], and the search URL for that text otherwise; nothing else of the
    state changes. *)
Theorem navigate_to_url_spec (st : state) :
  let q := url_bar st in
  let st' := Browser.navigate_to_url st in
  (((exists rest, q = "http" +:+ rest) /\ url st' = q)
   \/ (~ (exists rest, q = "http" +:+ rest)
       /\ url st' = Browser.get_search_url (settings st) q))
  /\ url_bar st' = q /\ settings st' = settings st
  /\ files st' = files st /\ blocked_domains st' = blocked_domains st.
Proof.
  simpl. unfold Browser.navigate_to_url.
  destruct (Py.startswith "http" (url_bar st)) eqn:E; simpl.
  - split; [|auto]. left. split; [|reflexivity].
    exact (proj1 (startswith_spec "http" (url_bar st)) E).
  - split; [|auto]. right. split; [|reflexivity].
    intros H. apply (proj2 (startswith_spec "http" (url_bar st))) in H.
    congruence.
Qed.

(** * Dictionaries *)

Section DictFacts.

Implicit Types (k : string) (v : json) (d : pydict).

Lemma lookup_set_eq k v d : Dict.lookup k (Dict.set k v d) = Some v.
Proof.
  induction d as [|[k' v'] d IH]; simpl.
  - now rewrite String.eqb_refl.
  - destruct (String.eqb k' k) eqn:E; simpl.
    + now rewrite String.eqb_refl.
    + now rewrite E.
Qed.

Lemma lookup_set_ne k k' v d :
  k <> k' -> Dict.lookup k' (Dict.set k v d) = Dict.lookup k' d.
Proof.
  intros Hne. induction d as [|[k0 v0] d IH]; simpl.
  - apply String.eqb_neq in Hne. now rewrite Hne.
  - destruct (String.eqb k0 k) eqn:E; simpl.
    + apply String.eqb_eq in E. subst k0.
      apply String.eqb_neq in Hne. now rewrite Hne.
    + now rewrite IH.
Qed.

Lemma keys_set_in k v d : In k (Dict.keys d) -> Dict.keys (Dict.set k v d) = Dict.keys d.
Proof.
  induction d as [|[k' v'] d IH]; simpl; [tauto|].
  destruct (String.eqb k' k) eqn:E; simpl.
  - apply String.eqb_eq in E. now subst.
  - intros [H | H]; [apply String.eqb_neq in E; congruence|].
    now rewrite IH.
Qed.

Lemma set_fresh k v d : ~ In k (Dict.keys d) -> Dict.set k v d = d ++ [(k, v)].
Proof.
  induction d as [|[k' v'] d IH]; simpl; [reflexivity|]. intros H.
  destruct (String.eqb k' k) eqn:E.
  - apply String.eqb_eq in E. tauto.
  - rewrite IH; [reflexivity | tauto].
Qed.

Lemma set_wf k v d : Dict.wf d -> Dict.wf (Dict.set k v d).
Proof.
  unfold Dict.wf. intros Hd.
  destruct (in_dec string_dec k (Dict.keys d)) as [Hin | Hout].
  - now rewrite keys_set_in.
  - rewrite set_fresh by assumption. unfold Dict.keys.
    rewrite List.map_app. simpl.
    apply NoDup_app; split; [exact Hd|]. split.
    + intros x Hx Hx'. apply list_elem_of_In in Hx, Hx'.
      destruct Hx' as [<- | []]. contradiction.
    + apply NoDup_singleton.
Qed.

(** Building a dict from pairs with distinct keys keeps the pairs. *)
Lemma of_pairs_wf d : Dict.wf d -> Dict.of_pairs d = d.
Proof.
  unfold Dict.of_pairs, Dict.wf.
  assert (G : forall (acc : pydict),
             NoDup (Dict.keys (acc ++ d)) ->
             fold_left (fun d0 kv => Dict.set (fst kv) (snd kv) d0) d acc = acc ++ d).
  { induction d as [|[k v] d IH]; intros acc Hnd; simpl.
    - now rewrite List.app_nil_r.
    - rewrite set_fresh.
      + rewrite IH; rewrite <- List.app_assoc; [reflexivity | exact Hnd].
      + unfold Dict.keys in *. rewrite List.map_app in Hnd. simpl in Hnd.
        apply NoDup_app in Hnd as (_ & Hdisj & _).
        intros Hin. apply (Hdisj k); [now apply list_elem_of_In|].
        apply list_elem_of_In. now left. }
  intros Hd. now apply (G []).
Qed.

End DictFacts.

(** * Settings: persistence *)

(** C6: both the dialog's save action and the window-close handler leave in
    [settings.json] the JSON text of the settings dict as it then is in
    memory; the save action has first stored the three widget values in it,
    the close handler leaves it as it was. *)
Theorem settings_persisted (dlg : SettingsDialog.t) (st : state) :
  (let st' := snd (SettingsDialog.save_settings_and_close dlg st) in
   files st' !! SETTINGS_FILE = Some (Json.dumps (JDict (settings st')))
   /\ Dict.lookup "ad_block_enabled" (settings st')
      = Some (JBool (SettingsDialog.adblock_checkbox dlg))
   /\ Dict.lookup "dark_mode" (settings st')
      = Some (JBool (SettingsDialog.darkmode_checkbox dlg))
   /\ Dict.lookup "search_engine" (settings st')
      = Some (JStr (SettingsDialog.item_text (SettingsDialog.search_engine_combo dlg))))
  /\ (let st' := Browser.closeEvent st in
      files st' !! SETTINGS_FILE = Some (Json.dumps (JDict (settings st')))
      /\ settings st' = settings st).
Proof.
  split; cbv zeta.
  - unfold SettingsDialog.save_settings_and_close, dump_settings; simpl.
    split; [apply lookup_insert_eq|].
    split; [|split].
    + rewrite !lookup_set_ne by discriminate. apply lookup_set_eq.
    + rewrite lookup_set_ne by discriminate. apply lookup_set_eq.
    + apply lookup_set_eq.
  - unfold Browser.closeEvent, dump_settings; simpl.
    split; [apply lookup_insert_eq | reflexivity].
Qed.

(** * JSON: decoding what was encoded *)

Section JsonStrings.

Lemma bind_ok {A B : Type} (a : A) (k : A -> result B) : bind (Ok a) k = k a.
Proof. reflexivity. Qed.

(** Decoding one escaped character gives the character back. *)
Lemma scanstring_escape_char (c : ascii) (tail : string) :
  Json.scanstring (Json.escape_char c +:+ tail)
  = bind (Json.scanstring tail)
      (fun x => match x with (t, rest) => Ok (String c t, rest) end).
Proof. destruct c as [[] [] [] [] [] [] [] []]; reflexivity. Qed.

Lemma scanstring_escape (s rest : string) :
  Json.scanstring (Json.escape s +:+ String Json.dquote rest) = Ok (s, rest).
Proof.
  induction s as [|c s IH]; [reflexivity|].
  cbn [Json.escape]. rewrite append_assoc, scanstring_escape_char, IH.
  reflexivity.
Qed.

End JsonStrings.

Section JsonNumbers.

Lemma scan_digits_string_of_uint (u : Decimal.uint) (rest : string) :
  delimited rest ->
  Json.scan_digits (NilEmpty.string_of_uint u +:+ rest) = (u, rest).
Proof.
  intros Hr. induction u; simpl; try (rewrite IHu; reflexivity).
  destruct rest as [|c r]; [reflexivity|].
  destruct Hr as [-> | ->]; reflexivity.
Qed.

Lemma to_uint_head (p : positive) :
  match Pos.to_uint p with
  | Decimal.Nil | Decimal.D0 _ => False
  | _ => True
  end.
Proof.
  pose proof (DecimalPos.Unsigned.to_of (Pos.to_uint p)) as H.
  rewrite DecimalPos.Unsigned.of_to in H. simpl in H.
  pose proof (DecimalPos.Unsigned.to_uint_nonzero p) as Hnz.
  destruct (Pos.to_uint p) as [|u| | | | | | | | |] eqn:E; try exact I.
  - discriminate H.
  - rewrite DecimalFacts.unorm_D0 in H. unfold Decimal.unorm in H.
    destruct (Decimal.nzhead u) eqn:En; try discriminate H.
    + injection H as ->. now apply Hnz.
    + now apply DecimalFacts.nzhead_nonzero in En.
Qed.

Lemma float_follows_delimited (rest : string) :
  delimited rest -> Json.float_follows rest = false.
Proof.
  destruct rest as [|c r]; [reflexivity|].
  intros [-> | ->]; destruct r; reflexivity.
Qed.

Lemma scan_natural_to_uint (p : positive) (rest : string) :
  delimited rest ->
  Json.scan_natural (NilEmpty.string_of_uint (Pos.to_uint p) +:+ rest)
  = Some (Z.pos p, rest).
Proof.
  intros Hr. pose proof (to_uint_head p) as Hh.
  assert (Hv : Z.of_uint (Pos.to_uint p) = Z.pos p).
  { unfold Z.of_uint. now rewrite DecimalPos.Unsigned.of_to. }
  unfold Json.scan_natural.
  rewrite (scan_digits_string_of_uint _ _ Hr), Hv.
  destruct (Pos.to_uint p); try contradiction; reflexivity.
Qed.

Lemma string_of_uint_nonnil (u : Decimal.uint) :
  u <> Decimal.Nil -> NilZero.string_of_uint u = NilEmpty.string_of_uint u.
Proof. destruct u; [congruence | reflexivity ..]. Qed.

Lemma repr_int_pos (p : positive) :
  Json.repr_int (Z.pos p) = NilEmpty.string_of_uint (Pos.to_uint p).
Proof.
  unfold Json.repr_int. simpl. apply string_of_uint_nonnil.
  apply DecimalPos.Unsigned.to_uint_nonnil.
Qed.

Lemma repr_int_neg (p : positive) :
  Json.repr_int (Z.neg p) = String "-" (NilEmpty.string_of_uint (Pos.to_uint p)).
Proof.
  unfold Json.repr_int. simpl. f_equal. apply string_of_uint_nonnil.
  apply DecimalPos.Unsigned.to_uint_nonnil.
Qed.

(** The head of a positive numeral is a digit from 1 to 9. *)
Lemma to_uint_text_head (p : positive) :
  exists c r, NilEmpty.string_of_uint (Pos.to_uint p) = String c r
              /\ In c (list_ascii_of_string "123456789").
Proof.
  pose proof (to_uint_head p) as Hh.
  destruct (Pos.to_uint p); try contradiction; simpl; eauto 15.
Qed.

Lemma scan_number_repr_int (z : Z) (rest : string) :
  delimited rest ->
  Json.scan_number (Json.repr_int z +:+ rest) = Ok (JInt z, rest).
Proof.
  intros Hr. pose proof (float_follows_delimited _ Hr) as Hf.
  destruct z as [|p|p].
  - unfold Json.scan_number. simpl. now rewrite Hf.
  - rewrite repr_int_pos. unfold Json.scan_number.
    destruct (to_uint_text_head p) as (c & r & E & Hc).
    assert (Hs : match NilEmpty.string_of_uint (Pos.to_uint p) +:+ rest with
                 | String "-" r0 => (true, r0)
                 | _ => (false, NilEmpty.string_of_uint (Pos.to_uint p) +:+ rest)
                 end = (false, NilEmpty.string_of_uint (Pos.to_uint p) +:+ rest)).
    { rewrite E. simpl in Hc.
      repeat (destruct Hc as [<- | Hc]; [reflexivity|]). contradiction. }
    rewrite Hs, (scan_natural_to_uint _ _ Hr), Hf. reflexivity.
  - rewrite repr_int_neg. unfold Json.scan_number. cbn [String.append].
    rewrite (scan_natural_to_uint _ _ Hr), Hf. reflexivity.
Qed.

End JsonNumbers.

Section JsonText.

Implicit Types (s sep closing rest : string) (l : list string).

Lemma length_append s1 s2 :
  String.length (s1 +:+ s2) = String.length s1 + String.length s2.
Proof. induction s1 as [|c s1 IH]; simpl; [reflexivity | now rewrite IH]. Qed.

Lemma items_cons sep x l closing :
  items sep (x :: l) closing = x +:+ tail_of sep l closing.
Proof. reflexivity. Qed.

Lemma join_items sep l closing : Json.join sep l +:+ closing = items sep l closing.
Proof.
  induction l as [|x l IH]; [reflexivity|].
  destruct l as [|y l]; [reflexivity|].
  change (Json.join sep (x :: y :: l)) with (x +:+ sep +:+ Json.join sep (y :: l)).
  rewrite !append_assoc, IH. reflexivity.
Qed.

Lemma skip_ws_spaces (n : nat) s : Json.skip_ws (Json.spaces n +:+ s) = Json.skip_ws s.
Proof. induction n as [|n IH]; simpl; [reflexivity | exact IH]. Qed.

Lemma skip_ws_newline_indent (k : nat) s :
  Json.skip_ws (Json.newline_indent k +:+ s) = Json.skip_ws s.
Proof. unfold Json.newline_indent. simpl. apply skip_ws_spaces. Qed.

Lemma newline_indent_head (k : nat) :
  exists r, Json.newline_indent k = String "010" r.
Proof. unfold Json.newline_indent. eauto. Qed.

Lemma value_start_props (c : ascii) :
  In c value_start ->
  Json.is_ws c = false /\ Ascii.eqb c "]" = false /\ Ascii.eqb c "}" = false.
Proof.
  unfold value_start. simpl. intros H.
  repeat (destruct H as [<- | H]; [repeat split; reflexivity|]). contradiction.
Qed.

Lemma repr_int_head (z : Z) :
  exists c r, Json.repr_int z = String c r
              /\ In c (list_ascii_of_string "-0123456789").
Proof.
  destruct z as [|p|p].
  - exists "0"%char, "". split; [reflexivity | simpl; tauto].
  - rewrite repr_int_pos. destruct (to_uint_text_head p) as (c & r & E & Hc).
    exists c, r. split; [exact E|]. simpl in *. tauto.
  - rewrite repr_int_neg. eexists _, _. split; [reflexivity | simpl; tauto].
Qed.

Lemma dumps_at_head (m : nat) (v : json) :
  exists c r, Json.dumps_at m v = String c r /\ In c value_start.
Proof.
  unfold value_start.
  destruct v as [|[]|z|s|[|x l]|[|kv d]];
    try (eexists _, _; split; [reflexivity | simpl; tauto]).
  destruct (repr_int_head z) as (c & r & E & Hc).
  exists c, r. split; [exact E|]. simpl in *. tauto.
Qed.

Lemma skip_ws_dumps_at (m : nat) (v : json) rest :
  Json.skip_ws (Json.dumps_at m v +:+ rest) = Json.dumps_at m v +:+ rest.
Proof.
  destruct (dumps_at_head m v) as (c & r & E & Hc).
  apply value_start_props in Hc as (Hws & _). rewrite E. simpl. now rewrite Hws.
Qed.

End JsonText.

(** ** The decoder on encoded text *)

Section RoundTrip.

Implicit Types (s rest : string) (m k fuel : nat) (v x : json).

Lemma parse_elems_S fuel s :
  Json.parse_elems (S fuel) s
  = bind (Json.scan_once fuel s) (fun p =>
      match p with
      | (v, r) =>
          match Json.skip_ws r with
          | String c r1 =>
              if Ascii.eqb c "]" then Ok ([v], r1)
              else if Ascii.eqb c "," then
                bind (Json.parse_elems fuel (Json.skip_ws r1)) (fun q =>
                  match q with (vs, rest) => Ok (v :: vs, rest) end)
              else Raise JSONDecodeError
          | EmptyString => Raise JSONDecodeError
          end
      end).
Proof. reflexivity. Qed.

Lemma scan_once_list fuel s c r :
  Json.skip_ws s = String c r -> Ascii.eqb c "]" = false ->
  Json.scan_once (S fuel) (String "[" s)
  = bind (Json.parse_elems fuel (String c r)) (fun q =>
      match q with (vs, rest) => Ok (JList vs, rest) end).
Proof. intros Hs Hc. cbn [Json.scan_once]. simpl. rewrite Hs, Hc. reflexivity. Qed.

Lemma scan_once_dict fuel s r :
  Json.skip_ws s = String Json.dquote r ->
  Json.scan_once (S fuel) (String "{" s)
  = bind (Json.parse_members fuel r) (fun q =>
      match q with (pairs, rest) => Ok (JDict (Dict.of_pairs pairs), rest) end).
Proof. intros Hs. cbn [Json.scan_once]. simpl. rewrite Hs. reflexivity. Qed.

Lemma scan_once_str fuel s :
  Json.scan_once (S fuel) (String Json.dquote s)
  = bind (Json.scanstring s) (fun q => match q with (t, rest) => Ok (JStr t, rest) end).
Proof. reflexivity. Qed.

Lemma scan_once_number fuel c r :
  In c (list_ascii_of_string "-0123456789") ->
  Json.scan_once (S fuel) (String c r) = Json.scan_number (String c r).
Proof.
  simpl. intros H.
  repeat (destruct H as [<- | H]; [reflexivity|]). contradiction.
Qed.

Lemma dumps_list_text m x (l : list json) rest :
  Json.dumps_at m (JList (x :: l)) +:+ rest
  = String "[" (Json.newline_indent (S m)
      +:+ Json.dumps_at (S m) x
      +:+ tail_of (sep_at (S m)) (List.map (Json.dumps_at (S m)) l)
            (Json.newline_indent m +:+ String "]" rest)).
Proof.
  change (Json.dumps_at m (JList (x :: l)))
    with ("[" +:+ Json.newline_indent (S m)
          +:+ Json.join (sep_at (S m)) (List.map (Json.dumps_at (S m)) (x :: l))
          +:+ Json.newline_indent m +:+ "]").
  rewrite !append_assoc. rewrite join_items. reflexivity.
Qed.

Lemma member_text_app m key x rest :
  member_text m (key, x) +:+ rest
  = String Json.dquote
      (Json.escape key +:+ String Json.dquote (": " +:+ Json.dumps_at m x +:+ rest)).
Proof.
  unfold member_text, Json.encode_str. cbn [String.append].
  rewrite !append_assoc. reflexivity.
Qed.

Lemma dumps_dict_text m key x (d : pydict) rest :
  Json.dumps_at m (JDict ((key, x) :: d)) +:+ rest
  = String "{" (Json.newline_indent (S m)
      +:+ String Json.dquote
            (Json.escape key
             +:+ String Json.dquote
                   (": " +:+ Json.dumps_at (S m) x
                    +:+ tail_of (sep_at (S m)) (List.map (member_text (S m)) d)
                          (Json.newline_indent m +:+ String "}" rest)))).
Proof.
  change (Json.dumps_at m (JDict ((key, x) :: d)))
    with ("{" +:+ Json.newline_indent (S m)
          +:+ Json.join (sep_at (S m)) (List.map (member_text (S m)) ((key, x) :: d))
          +:+ Json.newline_indent m +:+ "}").
  rewrite !append_assoc. rewrite join_items.
  cbn [List.map]. rewrite items_cons, member_text_app. reflexivity.
Qed.

End RoundTrip.

Section RoundTripProof.

Implicit Types (s rest : string) (m k fuel : nat) (v x : json).

Lemma parse_members_S fuel s :
  Json.parse_members (S fuel) s
  = bind (Json.scanstring s) (fun p =>
      match p with
      | (key, r) =>
          match Json.skip_ws r with
          | String c r1 =>
              if Ascii.eqb c ":" then
                bind (Json.scan_once fuel (Json.skip_ws r1)) (fun q =>
                  match q with
                  | (v, r2) =>
                      match Json.skip_ws r2 with
                      | String c2 r3 =>
                          if Ascii.eqb c2 "}" then Ok ([(key, v)], r3)
                          else if Ascii.eqb c2 "," then
                            match Json.skip_ws r3 with
                            | String c3 r4 =>
                                if Ascii.eqb c3 Json.dquote then
                                  bind (Json.parse_members fuel r4) (fun w =>
                                    match w with
                                    | (ps, rest) => Ok ((key, v) :: ps, rest)
                                    end)
                                else Raise JSONDecodeError
                            | EmptyString => Raise JSONDecodeError
                            end
                          else Raise JSONDecodeError
                      | EmptyString => Raise JSONDecodeError
                      end
                  end)
              else Raise JSONDecodeError
          | EmptyString => Raise JSONDecodeError
          end
      end).
Proof. reflexivity. Qed.

Lemma scan_once_list_dumps fuel k m x rest :
  Json.scan_once (S fuel)
    (String "[" (Json.newline_indent k +:+ Json.dumps_at m x +:+ rest))
  = bind (Json.parse_elems fuel (Json.dumps_at m x +:+ rest)) (fun q =>
      match q with (vs, r) => Ok (JList vs, r) end).
Proof.
  destruct (dumps_at_head m x) as (c & r & E & Hc).
  apply value_start_props in Hc as (Hws & Hb & _).
  rewrite (scan_once_list fuel _ c (r +:+ rest)); [now rewrite E | | exact Hb].
  rewrite skip_ws_newline_indent, E. simpl. now rewrite Hws.
Qed.

Lemma json_size_pos v : 1 <= json_size v.
Proof. destruct v; simpl; lia. Qed.

Lemma delimited_tail_of m (l : list string) k c rest :
  delimited (tail_of (sep_at m) l (Json.newline_indent k +:+ String c rest)).
Proof. destruct l; simpl; auto. Qed.

Lemma skip_ws_other (c : ascii) s :
  Json.is_ws c = false -> Json.skip_ws (String c s) = String c s.
Proof. intros H. simpl. now rewrite H. Qed.

Lemma sep_at_app m s :
  sep_at m +:+ s = String "," (Json.newline_indent m +:+ s).
Proof. unfold sep_at. now rewrite append_assoc. Qed.

(** Reduce a [match] on a text whose first character is known, and the
    character tests that follow. *)
Ltac step_char :=
  cbv beta iota;
  repeat match goal with
         | |- context [Ascii.eqb ?a ?b] =>
             let r := eval vm_compute in (Ascii.eqb a b) in
             change (Ascii.eqb a b) with r
         end;
  cbv beta iota.

Lemma roundtrip_fuel fuel :
  (forall v m rest,
      json_wf v -> json_size v <= fuel -> delimited rest ->
      Json.scan_once fuel (Json.dumps_at m v +:+ rest) = Ok (v, rest))
  /\ (forall x (l : list json) m k rest,
         elems_wf (x :: l) -> elems_size (x :: l) <= fuel ->
         Json.parse_elems fuel
           (Json.dumps_at m x
            +:+ tail_of (sep_at m) (List.map (Json.dumps_at m) l)
                  (Json.newline_indent k +:+ String "]" rest))
         = Ok (x :: l, rest))
  /\ (forall key x (d : pydict) m k rest,
         members_wf ((key, x) :: d) -> members_size ((key, x) :: d) <= fuel ->
         Json.parse_members fuel
           (Json.escape key
            +:+ String Json.dquote
                  (": " +:+ Json.dumps_at m x
                   +:+ tail_of (sep_at m) (List.map (member_text m) d)
                         (Json.newline_indent k +:+ String "}" rest)))
         = Ok ((key, x) :: d, rest)).
Proof.
  induction fuel as [|f (IH1 & IH2 & IH3)].
  { split; [|split].
    - intros v m rest _ H. pose proof (json_size_pos v). lia.
    - intros x l m k rest _ H. simpl in H. lia.
    - intros key x d m k rest _ H. simpl in H. lia. }
  split; [|split].
  - intros v m rest Hwf Hsz Hd.
    destruct v as [|[]|z|s|[|x l]|[|[key x] d]]; try reflexivity.
    + (* int *)
      cbn [Json.dumps_at].
      destruct (repr_int_head z) as (c & r & E & Hc).
      rewrite <- (scan_number_repr_int z rest Hd).
      rewrite E. cbn [String.append]. now apply scan_once_number.
    + (* str *)
      cbn [Json.dumps_at]. unfold Json.encode_str. cbn [String.append].
      rewrite scan_once_str, append_assoc. cbn [String.append].
      now rewrite scanstring_escape.
    + (* non-empty list *)
      rewrite dumps_list_text, scan_once_list_dumps.
      change (json_size (JList (x :: l))) with (S (elems_size (x :: l))) in Hsz.
      rewrite IH2; [reflexivity | exact Hwf | lia].
    + (* non-empty dict *)
      rewrite dumps_dict_text.
      erewrite scan_once_dict by (rewrite skip_ws_newline_indent; reflexivity).
      destruct Hwf as [Hnd Hwf].
      change (json_size (JDict ((key, x) :: d)))
        with (S (members_size ((key, x) :: d))) in Hsz.
      rewrite IH3; [| exact Hwf | lia].
      rewrite bind_ok. now rewrite of_pairs_wf.
  - intros x l m k rest [Hx Hl] Hsz.
    change (elems_size (x :: l)) with (S (json_size x + elems_size l)) in Hsz.
    rewrite parse_elems_S.
    rewrite IH1; [| exact Hx | lia | apply delimited_tail_of].
    rewrite bind_ok.
    destruct l as [|y l]; cbn [List.map tail_of].
    + rewrite skip_ws_newline_indent. reflexivity.
    + rewrite sep_at_app, skip_ws_other by reflexivity. step_char.
      rewrite skip_ws_newline_indent, items_cons, skip_ws_dumps_at.
      rewrite IH2; [reflexivity | exact Hl | lia].
  - intros key x d m k rest [Hx Hd] Hsz.
    change (members_size ((key, x) :: d))
      with (S (json_size x + members_size d)) in Hsz.
    rewrite parse_members_S, scanstring_escape, bind_ok.
    cbn [String.append].
    rewrite skip_ws_other by reflexivity. step_char.
    change (Json.skip_ws (String " " ?t)) with (Json.skip_ws t).
    rewrite skip_ws_dumps_at.
    rewrite IH1; [| exact Hx | lia | apply delimited_tail_of].
    rewrite bind_ok.
    destruct d as [|[key' y] d]; cbn [List.map tail_of].
    + rewrite skip_ws_newline_indent. reflexivity.
    + rewrite sep_at_app, skip_ws_other by reflexivity. step_char.
      rewrite skip_ws_newline_indent, items_cons, member_text_app.
      rewrite skip_ws_other by reflexivity. step_char.
      rewrite IH3; [reflexivity | exact Hd | lia].
Qed.

End RoundTripProof.

(** ** The bound [loads] supplies is enough *)

Section SizeBound.

Lemma join_length_bound {A : Type} (f : A -> string) (g : A -> nat)
    (sep : string) (l : list A) :
  1 <= String.length sep ->
  Forall (fun a => g a <= String.length (f a)) l ->
  fold_right (fun a acc => S (g a + acc)) 0 l
  <= S (String.length (Json.join sep (List.map f l))).
Proof.
  intros Hsep Hl. induction Hl as [|a l Ha Hl IH]; [simpl; lia|].
  destruct l as [|b l]; [simpl in *; lia|].
  change (Json.join sep (List.map f (a :: b :: l)))
    with (f a +:+ sep +:+ Json.join sep (List.map f (b :: l))).
  rewrite !length_append.
  change (fold_right (fun a acc => S (g a + acc)) 0 (a :: b :: l))
    with (S (g a + fold_right (fun a acc => S (g a + acc)) 0 (b :: l))).
  lia.
Qed.

Lemma members_size_snd (d : pydict) :
  members_size d = fold_right (fun kv acc => S (json_size (snd kv) + acc)) 0 d.
Proof.
  unfold members_size.
  induction d as [|[key x] d IH]; [reflexivity|].
  cbn [fold_right snd]. now rewrite IH.
Qed.

Lemma newline_indent_length (k : nat) : 1 <= String.length (Json.newline_indent k).
Proof. unfold Json.newline_indent. simpl. lia. Qed.

Lemma sep_at_length (m : nat) : 1 <= String.length (sep_at m).
Proof. unfold sep_at. simpl. lia. Qed.

Lemma json_size_le_length (v : json) :
  forall m, json_size v <= String.length (Json.dumps_at m v).
Proof.
  induction v as [| b | z | s | l IH | d IH] using json_nested_ind; intros m.
  - simpl. lia.
  - destruct b; simpl; lia.
  - cbn [Json.dumps_at json_size].
    destruct (repr_int_head z) as (c & r & -> & _). simpl. lia.
  - simpl. lia.
  - destruct l as [|x l]; [simpl; lia|].
    change (json_size (JList (x :: l))) with (S (elems_size (x :: l))).
    change (Json.dumps_at m (JList (x :: l)))
      with ("[" +:+ Json.newline_indent (S m)
            +:+ Json.join (sep_at (S m)) (List.map (Json.dumps_at (S m)) (x :: l))
            +:+ Json.newline_indent m +:+ "]").
    rewrite !length_append.
    pose proof (join_length_bound (Json.dumps_at (S m)) json_size (sep_at (S m))
                  (x :: l) (sep_at_length _)) as Hb.
    pose proof (newline_indent_length (S m)). pose proof (newline_indent_length m).
    unfold elems_size. simpl (String.length "["). simpl (String.length "]").
    assert (Hl : Forall (fun a => json_size a <= String.length (Json.dumps_at (S m) a))
                   (x :: l)).
    { eapply Forall_impl; [exact IH|]. intros a Ha. apply Ha. }
    specialize (Hb Hl). lia.
  - destruct d as [|[key x] d]; [simpl; lia|].
    change (json_size (JDict ((key, x) :: d)))
      with (S (members_size ((key, x) :: d))).
    change (Json.dumps_at m (JDict ((key, x) :: d)))
      with ("{" +:+ Json.newline_indent (S m)
            +:+ Json.join (sep_at (S m)) (List.map (member_text (S m)) ((key, x) :: d))
            +:+ Json.newline_indent m +:+ "}").
    rewrite !length_append, members_size_snd.
    pose proof (join_length_bound (member_text (S m)) (fun kv => json_size (snd kv))
                  (sep_at (S m)) ((key, x) :: d) (sep_at_length _)) as Hb.
    pose proof (newline_indent_length (S m)). pose proof (newline_indent_length m).
    simpl (String.length "{"). simpl (String.length "}").
    assert (Hl : Forall (fun a => json_size (snd a)
                                  <= String.length (member_text (S m) a))
                   ((key, x) :: d)).
    { eapply Forall_impl; [exact IH|]. intros [key' y] Ha.
      specialize (Ha (S m)). unfold member_text.
      rewrite !length_append. simpl in Ha |- *. lia. }
    specialize (Hb Hl). lia.
Qed.

End SizeBound.

(** Decoding the text [dumps] writes for a well-formed value gives the value
    back. *)
Theorem loads_dumps (v : json) : json_wf v -> Json.loads (Json.dumps v) = Ok v.
Proof.
  intros Hwf. unfold Json.loads, Json.dumps.
  pose proof (json_size_le_length v 0) as Hsz.
  pose proof (skip_ws_dumps_at 0 v "") as Hskip.
  rewrite append_nil_r in Hskip. rewrite Hskip.
  rewrite <- (append_nil_r (Json.dumps_at 0 v)) at 2.
  destruct (roundtrip_fuel (S (2 * String.length (Json.dumps_at 0 v)))) as (H1 & _).
  rewrite H1; [reflexivity | exact Hwf | lia | exact I].
Qed.

(** * The decoder never reaches its recursion bound *)

Section DecoderProgress.

Implicit Types (s r rest : string) (fuel : nat).

Lemma bind_ok_inv {A B : Type} (m : result A) (k : A -> result B) (b : B) :
  bind m k = Ok b -> exists a, m = Ok a /\ k a = Ok b.
Proof. destruct m as [a|e]; simpl; [eauto | discriminate]. Qed.

Lemma bind_fuel_inv {A B : Type} (m : result A) (k : A -> result B) :
  bind m k = Raise OutOfFuel ->
  m = Raise OutOfFuel \/ exists a, m = Ok a /\ k a = Raise OutOfFuel.
Proof. destruct m as [a|e]; simpl; [eauto | intros [= ->]; now left]. Qed.

Lemma skip_ws_length s : String.length (Json.skip_ws s) <= String.length s.
Proof.
  induction s as [|c s IH]; simpl; [lia|].
  destruct (Json.is_ws c); simpl; lia.
Qed.

Lemma literal_length (p s rest : string) :
  Json.literal p s = Some rest ->
  String.length rest + String.length p = String.length s.
Proof.
  revert s. induction p as [|a p IH]; intros [|b s]; simpl; try discriminate.
  - intros [= <-]. simpl. lia.
  - intros [= <-]. simpl. lia.
  - destruct (Ascii.eqb a b); [|discriminate]. intros H. apply IH in H. lia.
Qed.

(** [scanstring] consumes at least the closing quote and does not use the
    recursion bound. *)
Lemma scanstring_progress (n : nat) :
  forall s, String.length s <= n ->
    Json.scanstring s <> Raise OutOfFuel
    /\ forall t rest, Json.scanstring s = Ok (t, rest) ->
                      String.length rest < String.length s.
Proof.
  induction n as [|n IH]; intros [|c r] Hn; simpl in Hn;
    try (split; [discriminate | intros t rest [=]]); try lia.
  assert (Hrec : forall (ch : ascii) r',
             String.length r' <= n ->
             bind (Json.scanstring r')
               (fun x => match x with (t, rest) => Ok (String ch t, rest) end)
             <> Raise OutOfFuel
             /\ forall t rest,
                 bind (Json.scanstring r')
                   (fun x => match x with (t, rest) => Ok (String ch t, rest) end)
                 = Ok (t, rest) ->
                 String.length rest < S (String.length r')).
  { intros ch r' Hr'. destruct (IH r' Hr') as [Hf Hc]. split.
    - intros H. apply bind_fuel_inv in H as [H | ([t rest] & _ & H)];
        [contradiction | discriminate].
    - intros t rest H. apply bind_ok_inv in H as ([t' rest'] & H & [= <- <-]).
      apply Hc in H. lia. }
  cbn [Json.scanstring].
  destruct (Ascii.eqb c Json.dquote).
  { split; [discriminate | intros t rest [= <- <-]; simpl; lia]. }
  destruct (Ascii.eqb c Json.backslash).
  - destruct r as [|e r1]; [split; [discriminate | intros t rest [=]]|].
    destruct (Ascii.eqb e "u").
    + destruct r1 as [|h1 [|h2 [|h3 [|h4 r2]]]];
        try (split; [discriminate | intros t rest [=]]).
      destruct (Json.hex_val h1), (Json.hex_val h2), (Json.hex_val h3),
        (Json.hex_val h4); try (split; [discriminate | intros t rest [=]]).
      destruct (_ <? 256); [|split; [discriminate | intros t rest [=]]].
      simpl in Hn. destruct (Hrec (ascii_of_nat (4096 * n0 + 256 * n1 + 16 * n2 + n3)) r2)
        as [Hf Hc]; [lia|].
      split; [exact Hf|]. intros t rest H. apply Hc in H. simpl. lia.
    + destruct (Json.unescape e) as [ch|];
        [|split; [discriminate | intros t rest [=]]].
      simpl in Hn. destruct (Hrec ch r1) as [Hf Hc]; [lia|].
      split; [exact Hf|]. intros t rest H. apply Hc in H. simpl. lia.
  - destruct (nat_of_ascii c <? 32); [split; [discriminate | intros t rest [=]]|].
    destruct (Hrec c r) as [Hf Hc]; [lia|].
    split; [exact Hf|]. intros t rest H. apply Hc in H. simpl. lia.
Qed.

Lemma scanstring_no_fuel s : Json.scanstring s <> Raise OutOfFuel.
Proof. exact (proj1 (scanstring_progress (String.length s) s (le_n _))). Qed.

Lemma scanstring_consumes s t rest :
  Json.scanstring s = Ok (t, rest) -> String.length rest < String.length s.
Proof. exact (proj2 (scanstring_progress (String.length s) s (le_n _)) t rest). Qed.

Lemma scan_digits_cons (c : ascii) s :
  Json.scan_digits (String c s)
  = match uint_of_char c (Some Decimal.Nil) with
    | Some _ =>
        let (u, rest) := Json.scan_digits s in
        match uint_of_char c (Some u) with
        | Some u' => (u', rest)
        | None => (Decimal.Nil, String c s)
        end
    | None => (Decimal.Nil, String c s)
    end.
Proof. reflexivity. Qed.

Lemma scan_digits_length s :
  String.length (snd (Json.scan_digits s)) <= String.length s.
Proof.
  induction s as [|c s IH]; [simpl; lia|]. rewrite scan_digits_cons.
  destruct (uint_of_char c (Some Decimal.Nil)) as [u0|]; [|simpl; lia].
  destruct (Json.scan_digits s) as [u rest]. simpl in IH.
  destruct (uint_of_char c (Some u)) as [u1|]; simpl; lia.
Qed.

Lemma scan_digits_consumes (c : ascii) s :
  Json.is_digit c = true ->
  String.length (snd (Json.scan_digits (String c s))) <= String.length s.
Proof.
  intros Hc. pose proof (scan_digits_length s) as Hs. rewrite scan_digits_cons.
  destruct (Json.scan_digits s) as [u rest]. simpl in Hs.
  destruct c as [[] [] [] [] [] [] [] []]; try discriminate Hc; simpl; exact Hs.
Qed.

Lemma scan_natural_consumes s (n : Z) rest :
  Json.scan_natural s = Some (n, rest) -> String.length rest < String.length s.
Proof.
  destruct s as [|c r]; [discriminate|]. unfold Json.scan_natural.
  destruct (Json.is_digit c) eqn:Hc.
  - pose proof (scan_digits_consumes c r Hc) as Hl.
    destruct (Json.scan_digits (String c r)) as [u rest'] eqn:E. simpl in Hl.
    destruct c as [[] [] [] [] [] [] [] []]; intros [= <- <-]; simpl; lia.
  - destruct c as [[] [] [] [] [] [] [] []]; try discriminate Hc; discriminate.
Qed.

Lemma scan_number_progress s :
  Json.scan_number s <> Raise OutOfFuel
  /\ forall v rest, Json.scan_number s = Ok (v, rest) ->
                    String.length rest < String.length s.
Proof.
  unfold Json.scan_number.
  assert (G : forall (neg : bool) body,
             String.length body <= String.length s ->
             match Json.scan_natural body with
             | Some (n, rest) =>
                 if Json.float_follows rest then Raise Unsupported
                 else Ok (JInt (if neg then (- n)%Z else n), rest)
             | None =>
                 if Py.startswith "NaN" s || Py.startswith "Infinity" s
                    || Py.startswith "-Infinity" s
                 then Raise Unsupported else Raise JSONDecodeError
             end <> Raise OutOfFuel
             /\ forall v rest,
                 match Json.scan_natural body with
                 | Some (n, rest) =>
                     if Json.float_follows rest then Raise Unsupported
                     else Ok (JInt (if neg then (- n)%Z else n), rest)
                 | None =>
                     if Py.startswith "NaN" s || Py.startswith "Infinity" s
                        || Py.startswith "-Infinity" s
                     then Raise Unsupported else Raise JSONDecodeError
                 end = Ok (v, rest) ->
                 String.length rest < String.length s).
  { intros neg body Hb.
    destruct (Json.scan_natural body) as [[n rest]|] eqn:E.
    - apply scan_natural_consumes in E.
      destruct (Json.float_follows rest);
        (split; [discriminate | intros v rest' [=]; subst; lia]).
    - destruct (_ || _); (split; [discriminate | intros v rest' [=]]). }
  destruct s as [|c r]; [apply (G false); simpl; lia|].
  destruct c as [[] [] [] [] [] [] [] []];
    solve [apply (G false); simpl; lia | apply (G true); simpl; lia].
Qed.

Lemma scan_once_S fuel (c : ascii) r :
  Json.scan_once (S fuel) (String c r)
  = if Ascii.eqb c Json.dquote then
      bind (Json.scanstring r) (fun q => match q with (t, rest) => Ok (JStr t, rest) end)
    else if Ascii.eqb c "{" then
      match Json.skip_ws r with
      | String c1 r1 =>
          if Ascii.eqb c1 "}" then Ok (JDict [], r1)
          else if Ascii.eqb c1 Json.dquote then
            bind (Json.parse_members fuel r1) (fun q =>
              match q with
              | (pairs, rest) => Ok (JDict (Dict.of_pairs pairs), rest)
              end)
          else Raise JSONDecodeError
      | EmptyString => Raise JSONDecodeError
      end
    else if Ascii.eqb c "[" then
      match Json.skip_ws r with
      | String c1 r1 =>
          if Ascii.eqb c1 "]" then Ok (JList [], r1)
          else
            bind (Json.parse_elems fuel (String c1 r1)) (fun q =>
              match q with (vs, rest) => Ok (JList vs, rest) end)
      | EmptyString => Raise JSONDecodeError
      end
    else
      match Json.literal "null" (String c r), Json.literal "true" (String c r),
            Json.literal "false" (String c r) with
      | Some rest, _, _ => Ok (JNull, rest)
      | _, Some rest, _ => Ok (JBool true, rest)
      | _, _, Some rest => Ok (JBool false, rest)
      | None, None, None => Json.scan_number (String c r)
      end.
Proof. reflexivity. Qed.

(** A result that is an error other than [OutOfFuel]. *)
Ltac dead_end :=
  split; [intros ? H; discriminate H | intros ? ? H; discriminate H].

(** On every text the decoder either stops with a result that leaves less
    text than it was given, or raises; with a bound of twice the length of
    the text it does not stop for lack of fuel. *)
Lemma decoder_progress fuel :
  (forall s,
      (2 * String.length s + 1 <= fuel -> Json.scan_once fuel s <> Raise OutOfFuel)
      /\ (forall v rest, Json.scan_once fuel s = Ok (v, rest) ->
                         String.length rest < String.length s))
  /\ (forall s,
         (2 * String.length s + 2 <= fuel ->
          Json.parse_elems fuel s <> Raise OutOfFuel)
         /\ (forall vs rest, Json.parse_elems fuel s = Ok (vs, rest) ->
                             String.length rest < String.length s))
  /\ (forall s,
         (2 * String.length s + 2 <= fuel ->
          Json.parse_members fuel s <> Raise OutOfFuel)
         /\ (forall ps rest, Json.parse_members fuel s = Ok (ps, rest) ->
                             String.length rest < String.length s)).
Proof.
  induction fuel as [|f (IH1 & IH2 & IH3)].
  { repeat split; try (intros; lia); intros ? ? H; discriminate H. }
  split; [|split].
  - (* scan_once *)
    intros [|c r]; [dead_end|]. rewrite scan_once_S.
    destruct (Ascii.eqb c Json.dquote).
    { split.
      - intros _ H. apply bind_fuel_inv in H as [H | ([t rest] & _ & H)];
          [now apply scanstring_no_fuel in H | discriminate H].
      - intros v rest H. apply bind_ok_inv in H as ([t rest'] & H & [= <- <-]).
        apply scanstring_consumes in H. simpl. lia. }
    destruct (Ascii.eqb c "{").
    { pose proof (skip_ws_length r) as Hl.
      destruct (Json.skip_ws r) as [|c1 r1]; [dead_end|]. simpl in Hl.
      destruct (Ascii.eqb c1 "}").
      { split; [intros ? H; discriminate H|].
        intros v rest [= <- <-]. simpl. lia. }
      destruct (Ascii.eqb c1 Json.dquote); [|dead_end].
      destruct (IH3 r1) as [Hf Hc]. split.
      - intros Hfuel H. simpl in Hfuel.
        apply bind_fuel_inv in H as [H | ([ps rest] & _ & H)];
          [revert H; apply Hf; lia | discriminate H].
      - intros v rest H. apply bind_ok_inv in H as ([ps rest'] & H & [= <- <-]).
        apply Hc in H. simpl. lia. }
    destruct (Ascii.eqb c "[").
    { pose proof (skip_ws_length r) as Hl.
      destruct (Json.skip_ws r) as [|c1 r1]; [dead_end|]. simpl in Hl.
      destruct (Ascii.eqb c1 "]").
      { split; [intros ? H; discriminate H|].
        intros v rest [= <- <-]. simpl. lia. }
      destruct (IH2 (String c1 r1)) as [Hf Hc]. split.
      - intros Hfuel H. simpl in Hfuel.
        apply bind_fuel_inv in H as [H | ([vs rest] & _ & H)];
          [revert H; apply Hf; simpl; lia | discriminate H].
      - intros v rest H. apply bind_ok_inv in H as ([vs rest'] & H & [= <- <-]).
        apply Hc in H. simpl in *. lia. }
    destruct (Json.literal "null" (String c r)) as [r0|] eqn:E1.
    { apply literal_length in E1. split; [intros ? H; discriminate H|].
      intros v rest [= <- <-]. simpl in *. lia. }
    destruct (Json.literal "true" (String c r)) as [r0|] eqn:E2.
    { apply literal_length in E2. split; [intros ? H; discriminate H|].
      intros v rest [= <- <-]. simpl in *. lia. }
    destruct (Json.literal "false" (String c r)) as [r0|] eqn:E3.
    { apply literal_length in E3. split; [intros ? H; discriminate H|].
      intros v rest [= <- <-]. simpl in *. lia. }
    destruct (scan_number_progress (String c r)) as [Hf Hc].
    split; [intros _; exact Hf | exact Hc].
  - (* parse_elems *)
    intros s. rewrite parse_elems_S. destruct (IH1 s) as [Hf1 Hc1]. split.
    + intros Hfuel H. apply bind_fuel_inv in H as [H | ([v r] & Hs & H)].
      { revert H. apply Hf1. lia. }
      apply Hc1 in Hs. pose proof (skip_ws_length r) as Hl.
      destruct (Json.skip_ws r) as [|c r1]; [discriminate H|]. simpl in Hl.
      destruct (Ascii.eqb c "]"); [discriminate H|].
      destruct (Ascii.eqb c ","); [|discriminate H].
      apply bind_fuel_inv in H as [H | ([vs rest] & _ & H)]; [|discriminate H].
      destruct (IH2 (Json.skip_ws r1)) as [Hf2 _]. revert H. apply Hf2.
      pose proof (skip_ws_length r1). lia.
    + intros vs rest H. apply bind_ok_inv in H as ([v r] & Hs & H).
      apply Hc1 in Hs. pose proof (skip_ws_length r) as Hl.
      destruct (Json.skip_ws r) as [|c r1]; [discriminate H|]. simpl in Hl.
      destruct (Ascii.eqb c "]"); [injection H as <- <-; lia|].
      destruct (Ascii.eqb c ","); [|discriminate H].
      apply bind_ok_inv in H as ([vs' rest'] & H & [= <- <-]).
      destruct (IH2 (Json.skip_ws r1)) as [_ Hc2]. apply Hc2 in H.
      pose proof (skip_ws_length r1). lia.
  - (* parse_members *)
    intros s. rewrite parse_members_S. split.
    + intros Hfuel H. apply bind_fuel_inv in H as [H | ([key r] & Hs & H)].
      { now apply scanstring_no_fuel in H. }
      apply scanstring_consumes in Hs. pose proof (skip_ws_length r) as Hl.
      destruct (Json.skip_ws r) as [|c r1]; [discriminate H|]. simpl in Hl.
      destruct (Ascii.eqb c ":"); [|discriminate H].
      pose proof (skip_ws_length r1) as Hl1.
      destruct (IH1 (Json.skip_ws r1)) as [Hf1 Hc1].
      apply bind_fuel_inv in H as [H | ([v r2] & Hv & H)].
      { revert H. apply Hf1. lia. }
      apply Hc1 in Hv. pose proof (skip_ws_length r2) as Hl2.
      destruct (Json.skip_ws r2) as [|c2 r3]; [discriminate H|]. simpl in Hl2.
      destruct (Ascii.eqb c2 "}"); [discriminate H|].
      destruct (Ascii.eqb c2 ","); [|discriminate H].
      pose proof (skip_ws_length r3) as Hl3.
      destruct (Json.skip_ws r3) as [|c3 r4]; [discriminate H|]. simpl in Hl3.
      destruct (Ascii.eqb c3 Json.dquote); [|discriminate H].
      apply bind_fuel_inv in H as [H | ([ps rest] & _ & H)]; [|discriminate H].
      destruct (IH3 r4) as [Hf3 _]. revert H. apply Hf3. lia.
    + intros ps rest H. apply bind_ok_inv in H as ([key r] & Hs & H).
      apply scanstring_consumes in Hs. pose proof (skip_ws_length r) as Hl.
      destruct (Json.skip_ws r) as [|c r1]; [discriminate H|]. simpl in Hl.
      destruct (Ascii.eqb c ":"); [|discriminate H].
      pose proof (skip_ws_length r1) as Hl1.
      destruct (IH1 (Json.skip_ws r1)) as [_ Hc1].
      apply bind_ok_inv in H as ([v r2] & Hv & H).
      apply Hc1 in Hv. pose proof (skip_ws_length r2) as Hl2.
      destruct (Json.skip_ws r2) as [|c2 r3]; [discriminate H|]. simpl in Hl2.
      destruct (Ascii.eqb c2 "}"); [injection H as <- <-; lia|].
      destruct (Ascii.eqb c2 ","); [|discriminate H].
      pose proof (skip_ws_length r3) as Hl3.
      destruct (Json.skip_ws r3) as [|c3 r4]; [discriminate H|]. simpl in Hl3.
      destruct (Ascii.eqb c3 Json.dquote); [|discriminate H].
      apply bind_ok_inv in H as ([ps' rest'] & H & [= <- <-]).
      destruct (IH3 r4) as [_ Hc3]. apply Hc3 in H. lia.
Qed.

(** [loads] never stops for lack of fuel: on every text it gives a value or
    raises one of the errors of the decoder. *)
Theorem loads_total s : Json.loads s <> Raise OutOfFuel.
Proof.
  unfold Json.loads. intros H.
  apply bind_fuel_inv in H as [H | ([v rest] & _ & H)].
  - revert H. apply (decoder_progress (S (2 * String.length s))).
    pose proof (skip_ws_length s). lia.
  - destruct (Json.skip_ws rest); discriminate H.
Qed.

End DecoderProgress.

(** * Settings: saving and loading *)

Lemma load_after_dump (d : pydict) (fs : gmap string string) :
  json_wf (JDict d) ->
  Browser.load_settings (dump_settings d fs) = Ok (JDict d).
Proof.
  intros Hwf. unfold Browser.load_settings, dump_settings, open_read.
  rewrite lookup_insert_eq. rewrite bind_ok. now apply loads_dumps.
Qed.

Lemma members_wf_set (k : string) (v : json) (d : pydict) :
  json_wf v -> members_wf d -> members_wf (Dict.set k v d).
Proof.
  intros Hv. induction d as [|[k' v'] d IH]; simpl; [tauto|].
  intros [Hv' Hd]. destruct (String.eqb k' k); simpl; tauto.
Qed.

Lemma set_json_wf (k : string) (v : json) (d : pydict) :
  json_wf v -> json_wf (JDict d) -> json_wf (JDict (Dict.set k v d)).
Proof.
  intros Hv [Hnd Hd]. split; [now apply set_wf | now apply members_wf_set].
Qed.

(** The dialog's save action followed by loading gives the dict in memory,
    whatever else the dict held before. *)
Lemma save_then_load (dlg : SettingsDialog.t) (st : state) :
  json_wf (JDict (settings st)) ->
  let st' := snd (SettingsDialog.save_settings_and_close dlg st) in
  Browser.load_settings (files st') = Ok (JDict (settings st')).
Proof.
  intros Hwf. cbv zeta. unfold SettingsDialog.save_settings_and_close.
  cbn [snd files settings]. apply load_after_dump.
  repeat apply set_json_wf; try exact I. exact Hwf.
Qed.

(** So does the close handler. *)
Lemma close_then_load (st : state) :
  json_wf (JDict (settings st)) ->
  Browser.load_settings (files (Browser.closeEvent st)) = Ok (JDict (settings st)).
Proof. intros Hwf. now apply load_after_dump. Qed.

Lemma record_dict_wf (r : settings_record) : json_wf (JDict (record_dict r)).
Proof.
  split; [|simpl; tauto]. unfold Dict.wf. simpl. compute_done.
Qed.

(** With strings of code points below 256, a settings record written to
    [settings.json] and loaded again is the record that was written,
    whatever the two booleans and the string are; this holds for the dump
    on its own and for the dialog's save action, which first stores the
    widget values in the dict.  The last part of this file has the
    statement for every Python [str]. *)
Theorem settings_round_trip :
  (forall (r : settings_record) (fs : gmap string string),
      Browser.load_settings (dump_settings (record_dict r) fs)
      = Ok (JDict (record_dict r)))
  /\ (forall (dlg : SettingsDialog.t) (r : settings_record)
        (fs : gmap string string) (domains : gset string) (bar u : string),
         let st := {| files := fs; settings := record_dict r;
                      blocked_domains := domains; url_bar := bar; url := u |} in
         let st' := snd (SettingsDialog.save_settings_and_close dlg st) in
         settings st'
         = record_dict
             {| ad_block_enabled := SettingsDialog.adblock_checkbox dlg;
                dark_mode := SettingsDialog.darkmode_checkbox dlg;
                search_engine :=
                  SettingsDialog.item_text (SettingsDialog.search_engine_combo dlg) |}
         /\ Browser.load_settings (files st') = Ok (JDict (settings st'))).
Proof.
  split.
  - intros r fs. apply load_after_dump, record_dict_wf.
  - intros dlg r fs domains bar u. cbv zeta.
    unfold SettingsDialog.save_settings_and_close. cbn [snd settings files].
    split; [reflexivity|].
    apply (load_after_dump
             (record_dict
                {| ad_block_enabled := SettingsDialog.adblock_checkbox dlg;
                   dark_mode := SettingsDialog.darkmode_checkbox dlg;
                   search_engine :=
                     SettingsDialog.item_text
                       (SettingsDialog.search_engine_combo dlg) |})).
    apply record_dict_wf.
Qed.

Example round_trip_ex :
  Browser.load_settings
    (dump_settings
       (record_dict {| ad_block_enabled := false; dark_mode := true;
                       search_engine := String "233" (String "009" "x y\z") |})
       ∅)
  = Ok (JDict [("ad_block_enabled", JBool false); ("dark_mode", JBool true);
               ("search_engine", JStr (String "233" (String "009" "x y\z")))]).
Proof. vm_compute. reflexivity. Qed.

(** * Further properties of the search URLs and of navigation *)

Section SearchUrlFacts.

Lemma occurs_append (c : ascii) (s1 s2 : string) :
  occurs c (s1 +:+ s2) <-> occurs c s1 \/ occurs c s2.
Proof.
  unfold occurs. induction s1 as [|a s1 IH]; simpl; [tauto|].
  rewrite IH. tauto.
Qed.

Lemma replace_removes (old new : ascii) (s : string) :
  old <> new -> ~ occurs old (Py.replace old new s).
Proof.
  unfold occurs. intros Hne. induction s as [|c s IH]; simpl; [tauto|].
  intros [H | H]; [|tauto].
  destruct (Ascii.eqb c old) eqn:E; [congruence|].
  apply Ascii.eqb_neq in E. congruence.
Qed.

Lemma replace_idempotent (old new : ascii) (s : string) :
  old <> new -> Py.replace old new (Py.replace old new s) = Py.replace old new s.
Proof.
  intros Hne. induction s as [|c s IH]; simpl; [reflexivity|]. rewrite IH.
  destruct (Ascii.eqb c old) eqn:E; [|now rewrite E].
  destruct (Ascii.eqb new old) eqn:E'; [|reflexivity].
  apply Ascii.eqb_eq in E'. congruence.
Qed.

(** The template depends on the settings only, not on the query. *)
Lemma search_url_split (d : pydict) :
  exists t, In t search_templates
            /\ forall q, Browser.get_search_url d q = t +:+ Py.replace " " "+" q.
Proof.
  unfold Browser.get_search_url, search_templates.
  destruct (eq_str _ "DuckDuckGo"); [eexists; split; [|reflexivity]; simpl; tauto|].
  destruct (eq_str _ "Google"); [eexists; split; [|reflexivity]; simpl; tauto|].
  destruct (eq_str _ "Startpage"); [eexists; split; [|reflexivity]; simpl; tauto|].
  destruct (eq_str _ "Brave"); eexists; (split; [|reflexivity]); simpl; tauto.
Qed.

Lemma template_props (t : string) :
  In t search_templates -> starts_with_http t /\ ~ occurs " " t.
Proof.
  unfold search_templates, starts_with_http, occurs. simpl.
  intros H. repeat (destruct H as [<- | H]; [split; [eexists; reflexivity|]|]);
    try contradiction; simpl; intuition discriminate.
Qed.

Lemma search_url_http (d : pydict) (q : string) :
  starts_with_http (Browser.get_search_url d q).
Proof.
  destruct (search_url_split d) as (t & Ht & Hq). rewrite Hq.
  apply template_props in Ht as [[rest ->] _].
  exists (rest +:+ Py.replace " " "+" q). now rewrite append_assoc.
Qed.

Lemma startswith_http (s : string) :
  starts_with_http s -> Py.startswith "http" s = true.
Proof. intros H. now apply startswith_spec. Qed.

End SearchUrlFacts.

(** X1: whatever the settings dict holds, also a [search_engine] value that
    is no string, the search URL is one of the four templates followed by
    the query with its spaces replaced; it never contains a space. *)
Theorem search_url_shape (d : pydict) (q : string) :
  (exists t, In t search_templates
             /\ Browser.get_search_url d q = t +:+ Py.replace " " "+" q)
  /\ ~ occurs " " (Browser.get_search_url d q).
Proof.
  destruct (search_url_split d) as (t & Ht & Hq). split.
  - exists t. split; [exact Ht | apply Hq].
  - rewrite Hq, occurs_append. intros [H | H].
    + now apply (template_props t Ht).
    + revert H. now apply replace_removes.
Qed.

(** X2: two queries give the same search URL exactly when they agree after
    their spaces are replaced by plus signs: a plus sign typed by the user is
    not told apart from a space, and an encoded query encodes to itself. *)
Theorem search_url_collisions (d : pydict) (q1 q2 : string) :
  (Browser.get_search_url d q1 = Browser.get_search_url d q2
   <-> Py.replace " " "+" q1 = Py.replace " " "+" q2)
  /\ Browser.get_search_url d (Py.replace " " "+" q1) = Browser.get_search_url d q1.
Proof.
  destruct (search_url_split d) as (t & _ & Hq). rewrite !Hq. split.
  - split; [|now intros ->]. intros H. now apply (inj (String.app t)) in H.
  - now rewrite replace_idempotent.
Qed.

(** X3: an empty address bar sends the browser to the home page. *)
Theorem navigate_empty_is_home (st : state) :
  url_bar st = "" -> Browser.navigate_to_url st = Browser.navigate_home st.
Proof.
  intros H. unfold Browser.navigate_to_url, Browser.navigate_home. now rewrite H.
Qed.

Lemma navigate_empty_is_home_witness :
  Browser.navigate_to_url sample_state = Browser.navigate_home sample_state.
Proof. apply (navigate_empty_is_home sample_state). reflexivity. Defined.

(** X4: once navigation has loaded a URL and the address bar shows it,
    pressing Enter again loads that same URL: a search URL is never taken
    for a query. *)
Theorem navigate_again (st : state) :
  let st1 := Browser.navigate_to_url st in
  url (Browser.navigate_to_url (Browser.update_url_bar (url st1) st1)) = url st1.
Proof.
  cbv zeta.
  assert (H : starts_with_http (url (Browser.navigate_to_url st))).
  { unfold Browser.navigate_to_url.
    destruct (Py.startswith "http" (url_bar st)) eqn:E; simpl.
    - exact (proj1 (startswith_spec "http" (url_bar st)) E).
    - apply search_url_http. }
  apply startswith_http in H.
  unfold Browser.navigate_to_url at 1. cbn [url_bar Browser.update_url_bar].
  now rewrite H.
Qed.

(** * Further properties of the event handlers *)

Section HandlerFacts.

Lemma run_cons (st : state) (e : event) (es : list event) :
  run st (e :: es) = run (handle st e) es.
Proof. reflexivity. Qed.

Lemma navigate_to_url_http (st : state) :
  starts_with_http (url (Browser.navigate_to_url st)).
Proof.
  unfold Browser.navigate_to_url.
  destruct (Py.startswith "http" (url_bar st)) eqn:E; simpl.
  - exact (proj1 (startswith_spec "http" (url_bar st)) E).
  - apply search_url_http.
Qed.

Lemma handle_url_http (st : state) (e : event) :
  starts_with_http (url st) -> starts_with_http (url (handle st e)).
Proof.
  intros H. destruct e; simpl; try exact H.
  - now rewrite intercept_state.
  - apply search_url_http.
  - apply navigate_to_url_http.
Qed.

Lemma init_inv (fs : gmap string string) (st : state) :
  Browser.init fs = Ok st ->
  exists d domains,
    Browser.load_settings fs = Ok (JDict d)
    /\ AdBlocker.init fs = Ok domains
    /\ st = {| files := fs; settings := d; blocked_domains := domains;
               url_bar := ""; url := Browser.get_search_url d "" |}.
Proof.
  unfold Browser.init. intros H.
  destruct (Browser.load_settings fs) as [[| | | | |d]|e]; try discriminate H.
  simpl in H. destruct (AdBlocker.init fs) as [domains|e]; [|discriminate H].
  simpl in H. injection H as <-. now exists d, domains.
Qed.

Lemma handle_files_other (st : state) (e : event) (p : string) :
  p <> SETTINGS_FILE -> files (handle st e) !! p = files st !! p.
Proof.
  intros Hp. destruct e; simpl; try reflexivity.
  - now rewrite intercept_state.
  - unfold dump_settings. now rewrite lookup_insert_ne.
  - unfold Browser.navigate_to_url. destruct (Py.startswith _ _); reflexivity.
  - unfold dump_settings. now rewrite lookup_insert_ne.
Qed.

Lemma intercept_new_request (st : state) (u : string) :
  blocked (snd (AdBlocker.interceptRequest st (new_request u))) = true
  <-> toggle_enabled st = true
      /\ exists d, d ∈ blocked_domains st /\ exists pre post, u = pre +:+ d +:+ post.
Proof.
  rewrite <- any_domain_in_spec.
  unfold toggle_enabled, AdBlocker.interceptRequest. cbn [requestUrl new_request].
  destruct (truthy _); cbn [negb snd blocked new_request];
    [|split; [discriminate | intros [? _]; discriminate]].
  destruct (AdBlocker.any_domain_in _ _); cbn [snd blocked new_request];
    intuition discriminate.
Qed.

End HandlerFacts.

(** X5: from start-up on, whatever the user types and whatever the engine
    reports, the URL the window hands to the engine starts with the four
    characters [http].  Nothing more is said of the scheme: typed text that
    starts with [http] is handed over as it is. *)
Theorem loaded_url_always_http (fs : gmap string string) (st : state)
    (es : list event) :
  Browser.init fs = Ok st -> starts_with_http (url (run st es)).
Proof.
  intros H. apply init_inv in H as (d & domains & _ & _ & ->).
  assert (G : forall es st, starts_with_http (url st) ->
                            starts_with_http (url (run st es))).
  { clear. induction es as [|e es IH]; intros st H; [exact H|].
    rewrite run_cons. apply IH. now apply handle_url_http. }
  apply G. simpl. apply search_url_http.
Qed.

Lemma loaded_url_always_http_witness :
  exists st,
    Browser.init ∅ = Ok st
    /\ starts_with_http
         (url (run st [UpdateUrlBar "file:///etc/passwd"; NavigateToUrl])).
Proof.
  eexists. split; [reflexivity|].
  apply (loaded_url_always_http ∅ _ _). reflexivity.
Defined.

(** X6: no handler writes a file other than [settings.json]; the blocklist
    file in particular is never changed by the program. *)
Theorem only_settings_file_written (st : state) (es : list event) (p : string) :
  p <> "settings.json" -> files (run st es) !! p = files st !! p.
Proof.
  intros Hp. revert st. induction es as [|e es IH]; intros st; [reflexivity|].
  rewrite run_cons, IH. now apply handle_files_other.
Qed.

Lemma only_settings_file_written_witness :
  files (run sample_state [CloseEvent; NavigateHome]) !! "blocklist.txt"
  = files sample_state !! "blocklist.txt".
Proof.
  apply (only_settings_file_written sample_state [CloseEvent; NavigateHome]).
  discriminate.
Defined.

(** * Further properties of the request filter *)

(** X7: the filter only ever adds a block: it keeps the URL of the request,
    it leaves a request blocked that came in blocked, and running it a second
    time on its own result changes nothing. *)
Theorem intercept_only_blocks (st : state) (info : request_info) :
  let info' := snd (AdBlocker.interceptRequest st info) in
  requestUrl info' = requestUrl info
  /\ (blocked info = true -> blocked info' = true)
  /\ snd (AdBlocker.interceptRequest st info') = info'.
Proof.
  cbv zeta. unfold AdBlocker.interceptRequest.
  destruct (negb _) eqn:En; cbn [snd]; rewrite ?En; cbn [snd]; [auto|].
  destruct (AdBlocker.any_domain_in _ (requestUrl info)) eqn:Ea;
    cbn [snd requestUrl blocked]; rewrite ?En, ?Ea; cbn [snd requestUrl]; auto.
Qed.

Lemma intercept_only_blocks_witness :
  blocked (snd (AdBlocker.interceptRequest sample_state
                  {| requestUrl := "https://example.org/"; blocked := true |}))
  = true.
Proof.
  apply (proj1 (proj2 (intercept_only_blocks sample_state
                         {| requestUrl := "https://example.org/";
                            blocked := true |}))).
  reflexivity.
Defined.

(** X8: blocking is monotone: when a URL is blocked, every URL that
    contains it is blocked too, and so it stays when entries are added to
    the blocklist, the settings being the same. *)
Theorem intercept_monotone (st st' : state) (u pre post : string) :
  settings st' = settings st ->
  blocked_domains st ⊆ blocked_domains st' ->
  blocked (snd (AdBlocker.interceptRequest st (new_request u))) = true ->
  blocked (snd (AdBlocker.interceptRequest st'
                  (new_request (pre +:+ u +:+ post)))) = true.
Proof.
  intros Hs Hsub H. apply intercept_new_request in H as (Hen & d & Hd & a & b & ->).
  apply intercept_new_request. split.
  - unfold toggle_enabled in *. now rewrite Hs.
  - exists d. split; [now apply Hsub|].
    exists (pre +:+ a), (b +:+ post). now rewrite !append_assoc.
Qed.

Lemma intercept_monotone_witness :
  blocked (snd (AdBlocker.interceptRequest sample_state
                  (new_request ("https://example.org/?next=" +:+ "ads.example.com"
                                +:+ "/x")))) = true.
Proof.
  apply (intercept_monotone sample_state sample_state "ads.example.com").
  - reflexivity.
  - intros d Hd. exact Hd.
  - reflexivity.
Defined.

(** X9: when the settings hold no [ad_block_enabled] key the filter is on:
    a request is blocked exactly when its URL contains a blocklist entry. *)
Theorem intercept_missing_key (st : state) (u : string) :
  Dict.lookup "ad_block_enabled" (settings st) = None ->
  (blocked (snd (AdBlocker.interceptRequest st (new_request u))) = true
   <-> exists d, d ∈ blocked_domains st /\ exists pre post, u = pre +:+ d +:+ post).
Proof.
  intros H. rewrite intercept_new_request. unfold toggle_enabled, Dict.get.
  rewrite H. simpl. tauto.
Qed.

Lemma intercept_missing_key_witness :
  blocked (snd (AdBlocker.interceptRequest
                  {| files := ∅; settings := [("dark_mode", JBool true)];
                     blocked_domains := {[ "track" ]}; url_bar := ""; url := "" |}
                  (new_request "https://tracker.example/"))) = true.
Proof.
  apply intercept_missing_key; [reflexivity|].
  exists "track". split; [cbn [blocked_domains]; now apply elem_of_singleton|].
  now exists "https://", "er.example/".
Defined.

(** * What the decoder returns is well formed *)

Section DecoderWf.

Lemma of_pairs_json_wf (ps : list (string * json)) :
  members_wf ps -> json_wf (JDict (Dict.of_pairs ps)).
Proof.
  unfold Dict.of_pairs.
  assert (G : forall (acc : pydict),
             json_wf (JDict acc) -> members_wf ps ->
             json_wf (JDict (fold_left (fun d kv => Dict.set (fst kv) (snd kv) d)
                               ps acc))).
  { induction ps as [|[k v] ps IH]; intros acc Hacc Hps; [exact Hacc|].
    destruct Hps as [Hv Hps]. simpl. apply IH; [|exact Hps].
    now apply set_json_wf. }
  apply G. split; [apply NoDup_nil_2 | exact I].
Qed.

Lemma scan_number_wf (s : string) (v : json) (rest : string) :
  Json.scan_number s = Ok (v, rest) -> json_wf v.
Proof.
  unfold Json.scan_number.
  match goal with |- context [let (_, _) := ?M in _] => destruct M as [neg body] end.
  destruct (Json.scan_natural body) as [[n r]|].
  - destruct (Json.float_follows r); [discriminate|]. intros [= <- _]. exact I.
  - destruct (_ || _); discriminate.
Qed.

Lemma decoder_wf (fuel : nat) :
  (forall s v rest, Json.scan_once fuel s = Ok (v, rest) -> json_wf v)
  /\ (forall s vs rest, Json.parse_elems fuel s = Ok (vs, rest) -> elems_wf vs)
  /\ (forall s ps rest, Json.parse_members fuel s = Ok (ps, rest) -> members_wf ps).
Proof.
  induction fuel as [|f (IH1 & IH2 & IH3)].
  { repeat split; intros ? ? ? H; discriminate H. }
  split; [|split].
  - intros [|c r] v rest; [intros H; discriminate H|]. rewrite scan_once_S.
    destruct (Ascii.eqb c Json.dquote).
    { intros H. apply bind_ok_inv in H as ([t r'] & _ & [= <- _]). exact I. }
    destruct (Ascii.eqb c "{").
    { destruct (Json.skip_ws r) as [|c1 r1]; [intros H; discriminate H|].
      destruct (Ascii.eqb c1 "}").
      { intros [= <- _]. split; [apply NoDup_nil_2 | exact I]. }
      destruct (Ascii.eqb c1 Json.dquote); [|intros H; discriminate H].
      intros H. apply bind_ok_inv in H as ([ps r'] & H & [= <- _]).
      apply of_pairs_json_wf. now apply IH3 in H. }
    destruct (Ascii.eqb c "[").
    { destruct (Json.skip_ws r) as [|c1 r1]; [intros H; discriminate H|].
      destruct (Ascii.eqb c1 "]"); [intros [= <- _]; exact I|].
      intros H. apply bind_ok_inv in H as ([vs r'] & H & [= <- _]).
      now apply IH2 in H. }
    destruct (Json.literal "null" (String c r)); [intros [= <- _]; exact I|].
    destruct (Json.literal "true" (String c r)); [intros [= <- _]; exact I|].
    destruct (Json.literal "false" (String c r)); [intros [= <- _]; exact I|].
    apply scan_number_wf.
  - intros s vs rest. rewrite parse_elems_S. intros H.
    apply bind_ok_inv in H as ([v r] & Hv & H). apply IH1 in Hv.
    destruct (Json.skip_ws r) as [|c r1]; [discriminate H|].
    destruct (Ascii.eqb c "]"); [injection H as <- _; now split|].
    destruct (Ascii.eqb c ","); [|discriminate H].
    apply bind_ok_inv in H as ([vs' r'] & H & [= <- _]).
    apply IH2 in H. now split.
  - intros s ps rest. rewrite parse_members_S. intros H.
    apply bind_ok_inv in H as ([key r] & _ & H).
    destruct (Json.skip_ws r) as [|c r1]; [discriminate H|].
    destruct (Ascii.eqb c ":"); [|discriminate H].
    apply bind_ok_inv in H as ([v r2] & Hv & H). apply IH1 in Hv.
    destruct (Json.skip_ws r2) as [|c2 r3]; [discriminate H|].
    destruct (Ascii.eqb c2 "}"); [injection H as <- _; now split|].
    destruct (Ascii.eqb c2 ","); [|discriminate H].
    destruct (Json.skip_ws r3) as [|c3 r4]; [discriminate H|].
    destruct (Ascii.eqb c3 Json.dquote); [|discriminate H].
    apply bind_ok_inv in H as ([ps' r'] & H & [= <- _]).
    apply IH3 in H. now split.
Qed.

Lemma loads_wf (s : string) (v : json) : Json.loads s = Ok v -> json_wf v.
Proof.
  unfold Json.loads. intros H. apply bind_ok_inv in H as ([v' rest] & H & Hv).
  apply (decoder_wf _) in H.
  destruct (Json.skip_ws rest); [|discriminate Hv]. now injection Hv as <-.
Qed.

Lemma load_settings_wf (fs : gmap string string) (v : json) :
  Browser.load_settings fs = Ok v -> json_wf v.
Proof.
  unfold Browser.load_settings, open_read.
  destruct (fs !! SETTINGS_FILE) as [text|].
  - rewrite bind_ok. apply loads_wf.
  - intros [= <-]. split; [|simpl; tauto]. unfold Dict.wf. simpl. compute_done.
Qed.

End DecoderWf.

(** * Further properties of the settings *)

Section SettingsFacts.

Lemma handle_settings_wf (st : state) (e : event) :
  json_wf (JDict (settings st)) -> json_wf (JDict (settings (handle st e))).
Proof.
  intros H. destruct e; simpl; try exact H.
  - now rewrite intercept_state.
  - repeat apply set_json_wf; try exact I. exact H.
  - unfold Browser.navigate_to_url. destruct (Py.startswith _ _); exact H.
Qed.

Lemma handle_in_sync (st : state) (e : event) :
  json_wf (JDict (settings st)) ->
  Browser.load_settings (files st) = Ok (JDict (settings st)) ->
  Browser.load_settings (files (handle st e)) = Ok (JDict (settings (handle st e))).
Proof.
  intros Hwf H. destruct e; simpl; try exact H.
  - now rewrite intercept_state.
  - now apply save_then_load.
  - unfold Browser.navigate_to_url. destruct (Py.startswith _ _); exact H.
  - now apply load_after_dump.
Qed.

Lemma run_in_sync (es : list event) (st : state) :
  json_wf (JDict (settings st)) ->
  Browser.load_settings (files st) = Ok (JDict (settings st)) ->
  json_wf (JDict (settings (run st es)))
  /\ Browser.load_settings (files (run st es)) = Ok (JDict (settings (run st es))).
Proof.
  revert st. induction es as [|e es IH]; intros st Hwf H; [now split|].
  rewrite run_cons. apply IH; [now apply handle_settings_wf | now apply handle_in_sync].
Qed.

Lemma init_in_sync (fs : gmap string string) (st : state) :
  Browser.init fs = Ok st ->
  json_wf (JDict (settings st))
  /\ Browser.load_settings (files st) = Ok (JDict (settings st)).
Proof.
  intros H. apply init_inv in H as (d & domains & Hl & _ & ->). simpl.
  split; [now apply load_settings_wf in Hl | exact Hl].
Qed.

Lemma run_blocked_domains (es : list event) (st : state) :
  blocked_domains (run st es) = blocked_domains st.
Proof.
  revert st. induction es as [|e es IH]; intros st; [reflexivity|].
  now rewrite run_cons, IH, handle_blocked_domains.
Qed.

Lemma run_files_other (es : list event) (st : state) (p : string) :
  p <> SETTINGS_FILE -> files (run st es) !! p = files st !! p.
Proof.
  intros Hp. revert st. induction es as [|e es IH]; intros st; [reflexivity|].
  rewrite run_cons, IH. now apply handle_files_other.
Qed.

Lemma adblocker_init_blocklist (fs fs' : gmap string string) :
  fs' !! "blocklist.txt" = fs !! "blocklist.txt" ->
  AdBlocker.init fs' = AdBlocker.init fs.
Proof. unfold AdBlocker.init, open_read. now intros ->. Qed.

End SettingsFacts.

(** X10: from start-up on, after every action, the settings a fresh start
    would load from the files are the settings held in memory. *)
Theorem settings_always_in_sync (fs : gmap string string) (st : state)
    (es : list event) :
  Browser.init fs = Ok st ->
  Browser.load_settings (files (run st es)) = Ok (JDict (settings (run st es))).
Proof.
  intros H. apply init_in_sync in H as [Hwf H]. now apply run_in_sync.
Qed.

Lemma settings_always_in_sync_witness :
  exists st,
    Browser.init ∅ = Ok st
    /\ Browser.load_settings
         (files (run st [SaveSettingsAndClose sample_dialog; NavigateHome; CloseEvent]))
       = Ok (JDict (settings
                      (run st [SaveSettingsAndClose sample_dialog; NavigateHome;
                               CloseEvent]))).
Proof.
  eexists. split; [reflexivity|].
  apply (settings_always_in_sync ∅ _ _). reflexivity.
Defined.

(** X11: closing the window and starting again brings back the state:
    the new process holds the settings the old one held last and the same
    blocklist set, with an empty address bar and the home page loading. *)
Theorem restart_restores (fs : gmap string string) (st : state) (es : list event) :
  Browser.init fs = Ok st ->
  let st1 := run st es in
  Browser.init (files (Browser.closeEvent st1))
  = Ok {| files := files (Browser.closeEvent st1);
          settings := settings st1;
          blocked_domains := blocked_domains st1;
          url_bar := "";
          url := Browser.get_search_url (settings st1) "" |}.
Proof.
  intros H. cbv zeta.
  pose proof (init_in_sync _ _ H) as [Hwf Hsync].
  destruct (run_in_sync es st Hwf Hsync) as [Hwf1 _].
  apply init_inv in H as (d & domains & _ & Hb & Hst).
  unfold Browser.init. cbn [files Browser.closeEvent].
  rewrite (load_after_dump _ _ Hwf1), bind_ok.
  rewrite (adblocker_init_blocklist fs).
  - rewrite Hb, bind_ok, run_blocked_domains. subst st. reflexivity.
  - unfold dump_settings. rewrite lookup_insert_ne by discriminate.
    rewrite run_files_other by discriminate. now subst st.
Qed.

Lemma restart_restores_witness :
  exists st,
    Browser.init ∅ = Ok st
    /\ settings (run st [SaveSettingsAndClose sample_dialog])
       = [("ad_block_enabled", JBool false); ("dark_mode", JBool true);
          ("search_engine", JStr "Brave")]
    /\ exists st2,
        Browser.init
          (files (Browser.closeEvent (run st [SaveSettingsAndClose sample_dialog])))
        = Ok st2
        /\ settings st2 = settings (run st [SaveSettingsAndClose sample_dialog])
        /\ url st2 = "https://search.brave.com/search?q=".
Proof.
  eexists. split; [reflexivity|]. split; [reflexivity|].
  eexists. split.
  - apply (restart_restores ∅ _ [SaveSettingsAndClose sample_dialog]). reflexivity.
  - split; reflexivity.
Defined.

(** X12: the save action changes the three keys of the dialog only: the
    value under any other key of the settings dict is kept. *)
Theorem save_keeps_other_keys (dlg : SettingsDialog.t) (st : state) (k : string) :
  k <> "ad_block_enabled" -> k <> "dark_mode" -> k <> "search_engine" ->
  Dict.lookup k (settings (snd (SettingsDialog.save_settings_and_close dlg st)))
  = Dict.lookup k (settings st).
Proof.
  intros H1 H2 H3. unfold SettingsDialog.save_settings_and_close.
  cbn [snd settings]. rewrite !lookup_set_ne by congruence. reflexivity.
Qed.

Lemma save_keeps_other_keys_witness :
  Dict.lookup "zoom"
    (settings (snd (SettingsDialog.save_settings_and_close sample_dialog
                      {| files := ∅; settings := [("zoom", JInt 2)];
                         blocked_domains := ∅; url_bar := ""; url := "" |})))
  = Some (JInt 2).
Proof.
  rewrite save_keeps_other_keys by discriminate. reflexivity.
Defined.

(** X13: the filter and the search read the dict the dialog writes, so a
    save takes effect at once: the filter follows the check box, and search
    URLs and the home page use the engine chosen in the dialog. *)
Theorem save_takes_effect (dlg : SettingsDialog.t) (st : state) (u q : string) :
  let st' := snd (SettingsDialog.save_settings_and_close dlg st) in
  (blocked (snd (AdBlocker.interceptRequest st' (new_request u))) = true
   <-> SettingsDialog.adblock_checkbox dlg = true
       /\ exists d, d ∈ blocked_domains st /\ exists pre post, u = pre +:+ d +:+ post)
  /\ Browser.get_search_url (settings st') q
     = template_of (SettingsDialog.search_engine_combo dlg) +:+ Py.replace " " "+" q
  /\ url (Browser.navigate_home st')
     = template_of (SettingsDialog.search_engine_combo dlg).
Proof.
  cbv zeta.
  assert (Hq : forall q0,
             Browser.get_search_url
               (settings (snd (SettingsDialog.save_settings_and_close dlg st))) q0
             = template_of (SettingsDialog.search_engine_combo dlg)
               +:+ Py.replace " " "+" q0).
  { intros q0. unfold Browser.get_search_url, Dict.get,
      SettingsDialog.save_settings_and_close. cbn [snd settings].
    rewrite lookup_set_eq. destruct (SettingsDialog.search_engine_combo dlg);
      reflexivity. }
  split; [|split].
  - rewrite intercept_new_request. unfold toggle_enabled, Dict.get,
      SettingsDialog.save_settings_and_close. cbn [snd settings blocked_domains].
    rewrite !lookup_set_ne by discriminate. rewrite lookup_set_eq. reflexivity.
  - apply Hq.
  - unfold Browser.navigate_home. cbn [url Browser.setUrl]. rewrite Hq.
    apply append_nil_r.
Qed.

Section StartupFacts.

Lemma skip_ws_blank (s : string) : json_blank s -> Json.skip_ws s = "".
Proof.
  unfold json_blank, occurs. induction s as [|c s IH]; intros H; [reflexivity|].
  simpl. assert (Hc : Json.is_ws c = true).
  { destruct (H c) as [-> | [-> | [-> | ->]]]; [simpl; tauto | reflexivity ..]. }
  rewrite Hc. apply IH. intros c' Hc'. apply H. simpl. tauto.
Qed.

Lemma adblocker_init_total (fs : gmap string string) :
  exists domains, AdBlocker.init fs = Ok domains.
Proof.
  unfold AdBlocker.init, open_read. destruct (fs !! "blocklist.txt"); eauto.
Qed.

End StartupFacts.

(** X14: a settings file that exists but is empty, or holds white space
    only, makes start-up fail with [JSONDecodeError]: only a missing file
    gives the defaults. *)
Theorem blank_settings_file_fails (fs : gmap string string) (text : string) :
  fs !! "settings.json" = Some text -> json_blank text ->
  Browser.init fs = Raise JSONDecodeError.
Proof.
  intros Hfs Hb. unfold Browser.init, Browser.load_settings, open_read.
  change SETTINGS_FILE with "settings.json". rewrite Hfs, bind_ok.
  unfold Json.loads. now rewrite (skip_ws_blank _ Hb).
Qed.

Lemma blank_settings_file_fails_witness :
  Browser.init {[ "settings.json" := "" ]} = Raise JSONDecodeError.
Proof.
  apply (blank_settings_file_fails _ ""); [reflexivity|].
  intros c [].
Defined.



(** X16: start-up without a settings file succeeds with the default
    settings and the DuckDuckGo home page and writes nothing: the file is
    still missing afterwards and first appears when the window is closed. *)
Theorem startup_without_settings_file (fs : gmap string string) :
  fs !! "settings.json" = None ->
  exists st,
    Browser.init fs = Ok st
    /\ files st = fs
    /\ settings st = Browser.default_settings
    /\ url st = "https://duckduckgo.com/?q="
    /\ files (Browser.closeEvent st) !! "settings.json"
       = Some (Json.dumps (JDict Browser.default_settings)).
Proof.
  intros Hfs. destruct (adblocker_init_total fs) as [domains Hd].
  eexists. split.
  - unfold Browser.init, Browser.load_settings.
    change SETTINGS_FILE with "settings.json". rewrite Hfs, bind_ok, Hd, bind_ok.
    reflexivity.
  - repeat split. apply lookup_insert_eq.
Qed.

Lemma startup_without_settings_file_witness :
  exists st,
    Browser.init ∅ = Ok st
    /\ files st = ∅
    /\ settings st = Browser.default_settings
    /\ url st = "https://duckduckgo.com/?q="
    /\ files (Browser.closeEvent st) !! "settings.json"
       = Some (Json.dumps (JDict Browser.default_settings)).
Proof. apply (startup_without_settings_file ∅). reflexivity. Defined.

(** * Further properties of the settings dialog *)

Section DialogFacts.

Lemma dialog_init_inv (d : pydict) (dlg : SettingsDialog.t) :
  SettingsDialog.init d = Ok dlg ->
  Dict.get "ad_block_enabled" (JBool true) d
  = JBool (SettingsDialog.adblock_checkbox dlg)
  /\ Dict.get "dark_mode" (JBool false) d
     = JBool (SettingsDialog.darkmode_checkbox dlg)
  /\ (exists s,
         Dict.get "search_engine" (JStr "DuckDuckGo") d = JStr s
         /\ SettingsDialog.search_engine_combo dlg
            = match SettingsDialog.find_item s with
              | Some e => e
              | None => SettingsDialog.DuckDuckGo
              end)
  /\ SettingsDialog.accepted dlg = false.
Proof.
  unfold SettingsDialog.init. intros H.
  apply bind_ok_inv in H as (a & Ha & H).
  apply bind_ok_inv in H as (dm & Hdm & H).
  apply bind_ok_inv in H as (e & He & [= <-]). simpl.
  destruct (Dict.get "ad_block_enabled" _ d); try discriminate Ha.
  destruct (Dict.get "dark_mode" _ d); try discriminate Hdm.
  destruct (Dict.get "search_engine" _ d) as [| | |s| |]; try discriminate He.
  injection Ha as <-. injection Hdm as <-. injection He as <-.
  repeat split. now exists s.
Qed.

Lemma search_url_of_item (d : pydict) (s q : string) :
  Dict.get "search_engine" (JStr "DuckDuckGo") d = JStr s ->
  Browser.get_search_url d q
  = template_of match SettingsDialog.find_item s with
                | Some e => e
                | None => SettingsDialog.DuckDuckGo
                end +:+ Py.replace " " "+" q.
Proof.
  intros H. unfold Browser.get_search_url, SettingsDialog.find_item. rewrite H.
  simpl. destruct (String.eqb s "DuckDuckGo"); [reflexivity|].
  destruct (String.eqb s "Google"); [reflexivity|].
  destruct (String.eqb s "Startpage"); [reflexivity|].
  destruct (String.eqb s "Brave"); reflexivity.
Qed.

Lemma save_search_url (dlg : SettingsDialog.t) (st : state) (q : string) :
  Browser.get_search_url
    (settings (snd (SettingsDialog.save_settings_and_close dlg st))) q
  = template_of (SettingsDialog.search_engine_combo dlg) +:+ Py.replace " " "+" q.
Proof.
  unfold Browser.get_search_url, Dict.get, SettingsDialog.save_settings_and_close.
  cbn [snd settings]. rewrite lookup_set_eq.
  destruct (SettingsDialog.search_engine_combo dlg); reflexivity.
Qed.

Lemma save_get_adblock (dlg : SettingsDialog.t) (st : state) (v : json) :
  Dict.get "ad_block_enabled" v
    (settings (snd (SettingsDialog.save_settings_and_close dlg st)))
  = JBool (SettingsDialog.adblock_checkbox dlg).
Proof.
  unfold Dict.get, SettingsDialog.save_settings_and_close. cbn [snd settings].
  rewrite !lookup_set_ne by discriminate. now rewrite lookup_set_eq.
Qed.

Lemma save_get_darkmode (dlg : SettingsDialog.t) (st : state) (v : json) :
  Dict.get "dark_mode" v
    (settings (snd (SettingsDialog.save_settings_and_close dlg st)))
  = JBool (SettingsDialog.darkmode_checkbox dlg).
Proof.
  unfold Dict.get, SettingsDialog.save_settings_and_close. cbn [snd settings].
  rewrite lookup_set_ne by discriminate. now rewrite lookup_set_eq.
Qed.

End DialogFacts.

(** X17: when the dialog opens, its widgets show the settings as the
    program uses them: the check boxes show the filter toggle and the dark
    mode, and the engine selected is the one the search URLs are built for,
    DuckDuckGo when the stored name is none of the four. *)
Theorem dialog_shows_effective_settings (d : pydict) (dlg : SettingsDialog.t)
    (q : string) :
  SettingsDialog.init d = Ok dlg ->
  SettingsDialog.adblock_checkbox dlg
  = truthy (Dict.get "ad_block_enabled" (JBool true) d)
  /\ SettingsDialog.darkmode_checkbox dlg
     = truthy (Dict.get "dark_mode" (JBool false) d)
  /\ Browser.get_search_url d q
     = template_of (SettingsDialog.search_engine_combo dlg) +:+ Py.replace " " "+" q.
Proof.
  intros H. apply dialog_init_inv in H as (Ha & Hdm & (s & Hs & He) & _).
  rewrite Ha, Hdm, He. repeat split. now apply search_url_of_item.
Qed.

Lemma dialog_shows_effective_settings_witness :
  exists dlg,
    SettingsDialog.init [("search_engine", JStr "Bing")] = Ok dlg
    /\ SettingsDialog.search_engine_combo dlg = SettingsDialog.DuckDuckGo
    /\ Browser.get_search_url [("search_engine", JStr "Bing")] "a b"
       = template_of (SettingsDialog.search_engine_combo dlg)
         +:+ Py.replace " " "+" "a b".
Proof.
  eexists. split; [reflexivity|]. split; [reflexivity|].
  apply (dialog_shows_effective_settings [("search_engine", JStr "Bing")]).
  reflexivity.
Defined.

(** X18: pressing Save in a dialog that was not touched does not change
    how the program behaves: the filter toggle, the dark mode and every
    search URL are as before, and so is the value under every other key. *)
Theorem untouched_save_keeps_behaviour (st : state) (dlg : SettingsDialog.t) :
  SettingsDialog.init (settings st) = Ok dlg ->
  let st' := snd (SettingsDialog.save_settings_and_close dlg st) in
  Dict.get "ad_block_enabled" (JBool true) (settings st')
  = Dict.get "ad_block_enabled" (JBool true) (settings st)
  /\ Dict.get "dark_mode" (JBool false) (settings st')
     = Dict.get "dark_mode" (JBool false) (settings st)
  /\ (forall q, Browser.get_search_url (settings st') q
                = Browser.get_search_url (settings st) q)
  /\ (forall k, k <> "ad_block_enabled" -> k <> "dark_mode" ->
                k <> "search_engine" ->
                Dict.lookup k (settings st') = Dict.lookup k (settings st)).
Proof.
  intros H. cbv zeta.
  apply dialog_init_inv in H as (Ha & Hdm & (s & Hs & He) & _).
  split; [|split; [|split]].
  - now rewrite save_get_adblock, Ha.
  - now rewrite save_get_darkmode, Hdm.
  - intros q. now rewrite save_search_url, He, (search_url_of_item _ s).
  - intros k H1 H2 H3. unfold SettingsDialog.save_settings_and_close.
    cbn [snd settings]. rewrite !lookup_set_ne by congruence. reflexivity.
Qed.

Lemma untouched_save_keeps_behaviour_witness :
  exists dlg,
    SettingsDialog.init (settings sample_state) = Ok dlg
    /\ forall q,
        Browser.get_search_url
          (settings (snd (SettingsDialog.save_settings_and_close dlg sample_state))) q
        = Browser.get_search_url (settings sample_state) q.
Proof.
  eexists. split; [reflexivity|].
  apply (untouched_save_keeps_behaviour sample_state). reflexivity.
Defined.

Section OpenSettingsFacts.

Lemma init_after_dump (d : pydict) (fs : gmap string string) :
  json_wf (JDict d) ->
  Browser.init (dump_settings d fs)
  = bind (AdBlocker.init fs) (fun domains =>
      Ok {| files := dump_settings d fs; settings := d;
            blocked_domains := domains; url_bar := "";
            url := Browser.get_search_url d "" |}).
Proof.
  intros Hwf. unfold Browser.init.
  rewrite (load_after_dump _ _ Hwf), bind_ok.
  rewrite (adblocker_init_blocklist fs); [reflexivity|].
  unfold dump_settings. now rewrite lookup_insert_ne by discriminate.
Qed.

Lemma reachable_blocklist (fs : gmap string string) (st : state) (es : list event) :
  Browser.init fs = Ok st ->
  AdBlocker.init (files (run st es)) = Ok (blocked_domains (run st es)).
Proof.
  intros H. apply init_inv in H as (d & domains & _ & Hb & ->).
  rewrite run_blocked_domains. cbn [blocked_domains]. rewrite <- Hb.
  apply adblocker_init_blocklist. now rewrite run_files_other by discriminate.
Qed.

End OpenSettingsFacts.

(** X19: the settings dialog, opened in a running browser.  Closing it
    without saving leaves the state as it was.  Pressing Save ends in a new
    process whose settings hold the three values of the widgets, whose
    blocklist set is the old one, and which loads the home page of the
    engine that was chosen. *)
Theorem open_settings_outcome (fs : gmap string string) (st0 : state)
    (es : list event) (dlg : SettingsDialog.t) :
  Browser.init fs = Ok st0 ->
  let st := run st0 es in
  SettingsDialog.init (settings st) = Ok dlg ->
  Browser.open_settings SettingsDialog.Dismiss st = Ok st
  /\ forall (a dm : bool) (e : SettingsDialog.engine_item),
      exists st2,
        Browser.open_settings (SettingsDialog.PressSave a dm e) st = Ok st2
        /\ Dict.lookup "ad_block_enabled" (settings st2) = Some (JBool a)
        /\ Dict.lookup "dark_mode" (settings st2) = Some (JBool dm)
        /\ Dict.lookup "search_engine" (settings st2)
           = Some (JStr (SettingsDialog.item_text e))
        /\ blocked_domains st2 = blocked_domains st
        /\ url_bar st2 = ""
        /\ url st2 = template_of e.
Proof.
  intros H0. cbv zeta. intros Hdlg.
  pose proof (dialog_init_inv _ _ Hdlg) as (_ & _ & _ & Hacc).
  pose proof (init_in_sync _ _ H0) as [Hwf0 Hsync0].
  destruct (run_in_sync es st0 Hwf0 Hsync0) as [Hwf _].
  pose proof (reachable_blocklist fs st0 es H0) as Hb.
  unfold Browser.open_settings. rewrite Hdlg. split.
  - rewrite bind_ok. cbn [SettingsDialog.exec_]. now rewrite Hacc.
  - intros a dm e. rewrite bind_ok. cbn [SettingsDialog.exec_].
    set (w := {| SettingsDialog.adblock_checkbox := a;
                 SettingsDialog.darkmode_checkbox := dm;
                 SettingsDialog.search_engine_combo := e;
                 SettingsDialog.accepted := SettingsDialog.accepted dlg |}).
    pose proof (save_search_url w (run st0 es) "") as Hq.
    unfold SettingsDialog.save_settings_and_close in *.
    cbn [snd settings SettingsDialog.accepted Browser.closeEvent files] in *.
    set (d2 := Dict.set "search_engine" _ _) in *.
    assert (Hwf2 : json_wf (JDict d2)).
    { subst d2. repeat apply set_json_wf; try exact I. exact Hwf. }
    unfold dump_settings. rewrite insert_insert_eq.
    change (<[SETTINGS_FILE:=Json.dumps (JDict d2)]> (files (run st0 es)))
      with (dump_settings d2 (files (run st0 es))).
    rewrite (init_after_dump _ _ Hwf2), Hb, bind_ok.
    eexists. split; [reflexivity|]. cbn [settings blocked_domains url_bar url].
    subst d2. repeat split.
    + rewrite !lookup_set_ne by discriminate. apply lookup_set_eq.
    + rewrite lookup_set_ne by discriminate. apply lookup_set_eq.
    + apply lookup_set_eq.
    + rewrite Hq. subst w. cbn [SettingsDialog.search_engine_combo].
      apply append_nil_r.
Qed.

Lemma open_settings_outcome_witness :
  exists st st2,
    Browser.init ∅ = Ok st
    /\ Browser.open_settings
         (SettingsDialog.PressSave false true SettingsDialog.Google) (run st [])
       = Ok st2
    /\ url st2 = "https://www.google.com/search?q=".
Proof.
  pose (st := {| files := ∅; settings := Browser.default_settings;
                 blocked_domains := ∅; url_bar := "";
                 url := "https://duckduckgo.com/?q=" |}).
  assert (H0 : Browser.init ∅ = Ok st) by reflexivity.
  assert (Hd : SettingsDialog.init (settings (run st []))
               = Ok {| SettingsDialog.adblock_checkbox := true;
                       SettingsDialog.darkmode_checkbox := false;
                       SettingsDialog.search_engine_combo := SettingsDialog.DuckDuckGo;
                       SettingsDialog.accepted := false |}) by reflexivity.
  destruct (open_settings_outcome ∅ st [] _ H0 Hd) as [_ H].
  destruct (H false true SettingsDialog.Google) as (st2 & H2 & _ & _ & _ & _ & _ & Hu).
  exists st, st2. split; [exact H0|]. split; [exact H2 | exact Hu].
Defined.

(** * The blocklist file, line by line *)

Section BlocklistLines.

Lemma universal_newlines_id (s : string) :
  ~ occurs "013" s -> Py.universal_newlines s = s.
Proof.
  unfold occurs. induction s as [|c s IH]; intros H; [reflexivity|].
  cbn [Py.universal_newlines]. destruct (Ascii.eqb c "013") eqn:E.
  - apply Ascii.eqb_eq in E. subst c. simpl in H. tauto.
  - rewrite IH; [reflexivity|]. simpl in H. tauto.
Qed.

Lemma split_lines_line (l rest : string) :
  ~ occurs "010" l ->
  Py.split_lines (l +:+ String "010" rest)
  = (l +:+ String "010" "") :: Py.split_lines rest.
Proof.
  unfold occurs. induction l as [|c l IH]; intros H; [reflexivity|].
  cbn [String.append Py.split_lines]. destruct (Ascii.eqb c "010") eqn:E.
  - apply Ascii.eqb_eq in E. subst c. simpl in H. tauto.
  - rewrite IH; [reflexivity|]. simpl in H. tauto.
Qed.

Lemma lines_text_no_cr (ls : list string) :
  (forall l, In l ls -> ~ occurs "013" l) -> ~ occurs "013" (lines_text ls).
Proof.
  induction ls as [|l ls IH]; intros H; [intros []|].
  cbn [lines_text]. rewrite occurs_append. intros [Hl | Hr].
  - now apply (H l (or_introl eq_refl)).
  - destruct Hr as [Hr | Hr]; [discriminate Hr|].
    revert Hr. apply IH. intros l' Hl'. apply H. now right.
Qed.

Lemma iter_lines_text (ls : list string) :
  (forall l, In l ls -> ~ occurs "010" l /\ ~ occurs "013" l) ->
  Py.iter_lines (lines_text ls) = List.map (fun l => l +:+ String "010" "") ls.
Proof.
  intros H. unfold Py.iter_lines.
  rewrite universal_newlines_id by (apply lines_text_no_cr; intros l Hl; now apply H).
  induction ls as [|l ls IH]; [reflexivity|].
  cbn [lines_text List.map]. rewrite split_lines_line by now apply H; left.
  rewrite IH; [reflexivity|]. intros l' Hl'. apply H. now right.
Qed.

Lemma rstrip_line (s : string) : Py.rstrip (s +:+ String "010" "") = Py.rstrip s.
Proof.
  induction s as [|c s IH]; [reflexivity|].
  cbn [String.append Py.rstrip]. now rewrite IH.
Qed.

Lemma strip_line (l : string) : Py.strip (l +:+ String "010" "") = Py.strip l.
Proof.
  unfold Py.strip. induction l as [|c l IH]; [reflexivity|].
  cbn [String.append Py.lstrip]. destruct (Py.isspace c); [exact IH|].
  apply (rstrip_line (String c l)).
Qed.

End BlocklistLines.

(** X20: for a blocklist file written one entry per line, each line ended
    by a line feed, the blocklist set holds exactly the lines with their
    leading and trailing white space taken off, blank lines left out. *)
Theorem blocklist_of_lines (fs : gmap string string) (ls : list string) :
  fs !! "blocklist.txt" = Some (lines_text ls) ->
  (forall l, In l ls -> ~ occurs "010" l /\ ~ occurs "013" l) ->
  exists domains,
    AdBlocker.init fs = Ok domains
    /\ forall d, (d ∈ domains) <-> (d <> "" /\ exists l, In l ls /\ d = Py.strip l).
Proof.
  intros Hfs Hls. unfold AdBlocker.init, open_read. rewrite Hfs.
  eexists. split; [reflexivity|]. intros d.
  rewrite read_blocklist_spec, (iter_lines_text ls Hls). split.
  - intros (line & Hin & -> & Hne). apply in_map_iff in Hin as (l & <- & Hl).
    rewrite strip_line in *. eauto.
  - intros (Hne & l & Hl & ->). exists (l +:+ String "010" "").
    rewrite strip_line. split; [|now split].
    apply in_map_iff. now exists l.
Qed.

Lemma blocklist_of_lines_witness :
  exists domains,
    AdBlocker.init
      {[ "blocklist.txt" := lines_text ["ads.example.com"; "   "; " track. "] ]}
    = Ok domains
    /\ "track." ∈ domains.
Proof.
  destruct (blocklist_of_lines
              {[ "blocklist.txt" := lines_text ["ads.example.com"; "   "; " track. "] ]}
              ["ads.example.com"; "   "; " track. "]) as (domains & Hi & Hd).
  - reflexivity.
  - intros l Hl. unfold occurs. simpl in Hl.
    repeat (destruct Hl as [<- | Hl]; [simpl; intuition discriminate|]).
    contradiction.
  - exists domains. split; [exact Hi|]. apply Hd. split; [discriminate|].
    exists " track. ". split; [simpl; tauto | reflexivity].
Defined.

Section BlocklistCrlf.

Lemma universal_newlines_crlf (l rest : string) :
  ~ occurs "013" l ->
  Py.universal_newlines (l +:+ String "013" (String "010" rest))
  = l +:+ String "010" (Py.universal_newlines rest).
Proof.
  unfold occurs. induction l as [|c l IH]; intros H; [reflexivity|].
  cbn [String.append Py.universal_newlines]. destruct (Ascii.eqb c "013") eqn:E.
  - apply Ascii.eqb_eq in E. subst c. simpl in H. tauto.
  - rewrite IH; [reflexivity|]. simpl in H. tauto.
Qed.

Lemma universal_newlines_crlf_text (ls : list string) :
  (forall l, In l ls -> ~ occurs "013" l) ->
  Py.universal_newlines (crlf_text ls) = lines_text ls.
Proof.
  induction ls as [|l ls IH]; intros H; [reflexivity|].
  cbn [crlf_text lines_text].
  rewrite universal_newlines_crlf by (apply H; now left).
  rewrite IH; [reflexivity|]. intros l' Hl'. apply H. now right.
Qed.

End BlocklistCrlf.

(** X21: the line ending does not matter: a blocklist file whose lines end
    in carriage return and line feed gives the same blocklist set as the
    file with the same lines ended by a line feed. *)
Theorem blocklist_line_endings (ls : list string) :
  (forall l, In l ls -> ~ occurs "013" l) ->
  AdBlocker.read_blocklist (crlf_text ls) = AdBlocker.read_blocklist (lines_text ls).
Proof.
  intros H. unfold AdBlocker.read_blocklist, Py.iter_lines.
  rewrite (universal_newlines_crlf_text ls H).
  rewrite universal_newlines_id by now apply lines_text_no_cr.
  reflexivity.
Qed.

Lemma blocklist_line_endings_witness :
  AdBlocker.read_blocklist (crlf_text ["ads.example.com"; "track."])
  = AdBlocker.read_blocklist (lines_text ["ads.example.com"; "track."]).
Proof.
  apply (blocklist_line_endings ["ads.example.com"; "track."]).
  intros l Hl. unfold occurs. simpl in Hl.
  repeat (destruct Hl as [<- | Hl]; [simpl; intuition discriminate|]).
  contradiction.
Defined.

(** * The settings with every Python [str] *)

Section UnicodeArith.

Local Open Scope N_scope.

#[local] Ltac Zify.zify_post_hook ::= Z.to_euclidean_division_equations.

Lemma hex_val_hex_digit (d : N) :
  d < 16 -> Json.hex_val (UJson.hex_digit d) = Some (N.to_nat d).
Proof.
  intros H.
  assert (G : In d [0; 1; 2; 3; 4; 5; 6; 7; 8; 9; 10; 11; 12; 13; 14; 15])
    by (simpl; lia).
  simpl in G. repeat (destruct G as [<- | G]; [reflexivity|]). contradiction.
Qed.

Lemma hex4_val_hex4 (n : N) :
  n < 0x10000 ->
  UJson.hex4_val (UJson.hex_digit (n / 4096 mod 16))
    (UJson.hex_digit (n / 256 mod 16)) (UJson.hex_digit (n / 16 mod 16))
    (UJson.hex_digit (n mod 16)) = Some n.
Proof.
  intros H. unfold UJson.hex4_val.
  rewrite !hex_val_hex_digit by (apply N.mod_lt; discriminate).
  f_equal. lia.
Qed.

Lemma lor_high_low (a b : N) : b < 1024 -> N.lor (a * 1024) b = a * 1024 + b.
Proof.
  intros Hb. rewrite <- N.lxor_lor.
  - symmetry. apply N.add_nocarry_lxor.
    apply N.bits_inj. intros i. rewrite N.land_spec, N.bits_0.
    destruct (N.lt_ge_cases i 10) as [Hi | Hi].
    + change 1024 with (2 ^ 10). now rewrite N.mul_pow2_bits_low.
    + rewrite andb_false_iff. right.
      destruct (N.eq_dec b 0) as [-> | Hb0]; [apply N.bits_0|].
      apply N.bits_above_log2.
      apply N.lt_le_trans with 10; [|exact Hi].
      apply N.log2_lt_pow2; [lia | exact Hb].
  - apply N.bits_inj. intros i. rewrite N.land_spec, N.bits_0.
    destruct (N.lt_ge_cases i 10) as [Hi | Hi].
    + change 1024 with (2 ^ 10). now rewrite N.mul_pow2_bits_low.
    + rewrite andb_false_iff. right.
      destruct (N.eq_dec b 0) as [-> | Hb0]; [apply N.bits_0|].
      apply N.bits_above_log2.
      apply N.lt_le_trans with 10; [|exact Hi].
      apply N.log2_lt_pow2; [lia | exact Hb].
Qed.

(** The two halves the encoder writes for a code point above [0xffff]. *)
Lemma surrogate_halves (n : N) :
  0x10000 <= n -> n < 0x110000 ->
  let v := n - 0x10000 in
  let s1 := N.lor 0xd800 (N.land (N.shiftr v 10) 0x3ff) in
  let s2 := N.lor 0xdc00 (N.land v 0x3ff) in
  s1 = 0xd800 + v / 1024 /\ s2 = 0xdc00 + v mod 1024
  /\ UJson.is_high_surrogate s1 = true /\ UJson.is_low_surrogate s2 = true
  /\ UJson.join_surrogates s1 s2 = n.
Proof.
  intros Hlo Hhi. cbv zeta.
  assert (H1 : N.lor 0xd800 (N.land (N.shiftr (n - 0x10000) 10) 0x3ff)
               = 0xd800 + (n - 0x10000) / 1024).
  { change 0x3ff with (N.ones 10). rewrite N.land_ones, N.shiftr_div_pow2.
    change (2 ^ 10) with 1024. change 0xd800 with (54 * 1024).
    rewrite lor_high_low by (apply N.mod_lt; discriminate). lia. }
  assert (H2 : N.lor 0xdc00 (N.land (n - 0x10000) 0x3ff)
               = 0xdc00 + (n - 0x10000) mod 1024).
  { change 0x3ff with (N.ones 10). rewrite N.land_ones.
    change (2 ^ 10) with 1024. change 0xdc00 with (55 * 1024).
    now rewrite lor_high_low by (apply N.mod_lt; discriminate). }
  rewrite H1, H2. split; [reflexivity|]. split; [reflexivity|].
  split; [|split].
  - unfold UJson.is_high_surrogate. apply andb_true_iff. split; apply N.leb_le; lia.
  - unfold UJson.is_low_surrogate. apply andb_true_iff. split; apply N.leb_le; lia.
  - unfold UJson.join_surrogates. rewrite N.shiftl_mul_pow2.
    change (2 ^ 10) with 1024.
    replace (0xd800 + (n - 0x10000) / 1024 - 0xd800) with ((n - 0x10000) / 1024) by lia.
    replace (0xdc00 + (n - 0x10000) mod 1024 - 0xdc00) with ((n - 0x10000) mod 1024) by lia.
    rewrite lor_high_low by (apply N.mod_lt; discriminate). lia.
Qed.

End UnicodeArith.

Section UnicodeStrings.

Local Open Scope N_scope.

Implicit Types (n k : N) (tail rest : string) (t : ustr).

Lemma uscanstring_plain (c : ascii) tail :
  Ascii.eqb c Json.dquote = false -> Ascii.eqb c Json.backslash = false ->
  (nat_of_ascii c <? 32)%nat = false ->
  UJson.scanstring (String c tail)
  = bind (UJson.scanstring tail)
      (fun x => match x with (t, rest) => Ok (N_of_ascii c :: t, rest) end).
Proof. intros H1 H2 H3. cbn [UJson.scanstring]. now rewrite H1, H2, H3. Qed.

Lemma uscanstring_short (e ch : ascii) tail :
  Ascii.eqb e "u" = false -> Json.unescape e = Some ch ->
  UJson.scanstring (String Json.backslash (String e tail))
  = bind (UJson.scanstring tail)
      (fun x => match x with (t, rest) => Ok (N_of_ascii ch :: t, rest) end).
Proof.
  intros H1 H2. cbn [UJson.scanstring].
  change (Ascii.eqb Json.backslash Json.dquote) with false.
  change (Ascii.eqb Json.backslash Json.backslash) with true.
  cbv iota. now rewrite H1, H2.
Qed.

Lemma uscanstring_u n tail :
  n < 0x10000 ->
  UJson.scanstring (String Json.backslash (String "u" (UJson.hex4 n +:+ tail)))
  = if UJson.is_high_surrogate n then UJson.after_high n tail
    else bind (UJson.scanstring tail)
           (fun x => match x with (t, rest) => Ok (n :: t, rest) end).
Proof.
  intros H. cbn [UJson.scanstring UJson.hex4 String.append].
  change (Ascii.eqb Json.backslash Json.dquote) with false.
  change (Ascii.eqb Json.backslash Json.backslash) with true.
  change (Ascii.eqb "u" "u") with true.
  cbv iota. rewrite (hex4_val_hex4 n H). reflexivity.
Qed.

(** Behind a high surrogate, an escape that is no low surrogate is left
    for the next step. *)
Lemma after_high_u k n tail :
  n < 0x10000 -> UJson.is_low_surrogate n = false ->
  UJson.after_high k (String Json.backslash (String "u" (UJson.hex4 n +:+ tail)))
  = bind (UJson.scanstring
            (String Json.backslash (String "u" (UJson.hex4 n +:+ tail))))
      (fun x => match x with (t, rest) => Ok (k :: t, rest) end).
Proof.
  intros H Hl. unfold UJson.after_high. cbn [UJson.hex4 String.append].
  change (Ascii.eqb Json.backslash Json.backslash) with true.
  change (Ascii.eqb "u" "u") with true.
  cbv iota. cbn [andb]. rewrite (hex4_val_hex4 n H), Hl. reflexivity.
Qed.

Lemma after_high_pair k n tail :
  n < 0x10000 -> UJson.is_low_surrogate n = true ->
  UJson.after_high k (String Json.backslash (String "u" (UJson.hex4 n +:+ tail)))
  = bind (UJson.scanstring tail)
      (fun x => match x with
                | (t, rest) => Ok (UJson.join_surrogates k n :: t, rest)
                end).
Proof.
  intros H Hl. unfold UJson.after_high. cbn [UJson.hex4 String.append].
  change (Ascii.eqb Json.backslash Json.backslash) with true.
  change (Ascii.eqb "u" "u") with true.
  cbv iota. cbn [andb]. rewrite (hex4_val_hex4 n H), Hl. reflexivity.
Qed.

Lemma after_high_other k (b : ascii) tail :
  Ascii.eqb b Json.backslash = false ->
  UJson.after_high k (String b tail)
  = bind (UJson.scanstring (String b tail))
      (fun x => match x with (t, rest) => Ok (k :: t, rest) end).
Proof.
  intros H. unfold UJson.after_high. destruct tail; [reflexivity|].
  now rewrite H.
Qed.

Lemma after_high_short k (e : ascii) tail :
  Ascii.eqb e "u" = false ->
  UJson.after_high k (String Json.backslash (String e tail))
  = bind (UJson.scanstring (String Json.backslash (String e tail)))
      (fun x => match x with (t, rest) => Ok (k :: t, rest) end).
Proof.
  intros H. unfold UJson.after_high. rewrite H.
  now rewrite andb_false_r.
Qed.

(** The four shapes of an escaped code point. *)
Lemma escape_cp_cases n :
  UJson.is_code_point n = true ->
  (exists c, UJson.escape_cp n = String c ""
             /\ Ascii.eqb c Json.dquote = false
             /\ Ascii.eqb c Json.backslash = false
             /\ (nat_of_ascii c <? 32)%nat = false /\ N_of_ascii c = n)
  \/ (exists e ch, UJson.escape_cp n = String Json.backslash (String e "")
                   /\ Ascii.eqb e "u" = false
                   /\ Json.unescape e = Some ch /\ N_of_ascii ch = n)
  \/ (n < 0x10000
      /\ UJson.escape_cp n = String Json.backslash (String "u" (UJson.hex4 n)))
  \/ (exists s1 s2,
         UJson.escape_cp n
         = String Json.backslash (String "u" (UJson.hex4 s1))
           +:+ String Json.backslash (String "u" (UJson.hex4 s2))
         /\ s1 < 0x10000 /\ s2 < 0x10000
         /\ UJson.is_high_surrogate s1 = true /\ UJson.is_low_surrogate s1 = false
         /\ UJson.is_low_surrogate s2 = true
         /\ UJson.join_surrogates s1 s2 = n).
Proof.
  intros Hcp. unfold UJson.is_code_point in Hcp. apply N.ltb_lt in Hcp.
  unfold UJson.escape_cp.
  destruct (n =? 34) eqn:E1.
  { apply N.eqb_eq in E1. subst. right. left. now exists Json.dquote, Json.dquote. }
  destruct (n =? 92) eqn:E2.
  { apply N.eqb_eq in E2. subst. right. left.
    now exists Json.backslash, Json.backslash. }
  destruct (n =? 8) eqn:E3.
  { apply N.eqb_eq in E3. subst. right. left. now exists "b"%char, "008"%char. }
  destruct (n =? 12) eqn:E4.
  { apply N.eqb_eq in E4. subst. right. left. now exists "f"%char, "012"%char. }
  destruct (n =? 10) eqn:E5.
  { apply N.eqb_eq in E5. subst. right. left. now exists "n"%char, "010"%char. }
  destruct (n =? 13) eqn:E6.
  { apply N.eqb_eq in E6. subst. right. left. now exists "r"%char, "013"%char. }
  destruct (n =? 9) eqn:E7.
  { apply N.eqb_eq in E7. subst. right. left. now exists "t"%char, "009"%char. }
  apply N.eqb_neq in E1, E2.
  destruct ((32 <=? n) && (n <=? 126)) eqn:E8.
  { apply andb_true_iff in E8 as [Hlo Hhi].
    apply N.leb_le in Hlo, Hhi. left. exists (ascii_of_N n).
    assert (Hemb : N_of_ascii (ascii_of_N n) = n) by (apply N_ascii_embedding; lia).
    split; [reflexivity|]. split; [|split; [|split]].
    - apply Ascii.eqb_neq. intros Hc. apply E1. rewrite <- Hemb, Hc. reflexivity.
    - apply Ascii.eqb_neq. intros Hc. apply E2. rewrite <- Hemb, Hc. reflexivity.
    - apply Nat.ltb_ge. unfold nat_of_ascii. rewrite Hemb. lia.
    - exact Hemb. }
  destruct (n <? 0x10000) eqn:E9.
  { apply N.ltb_lt in E9. right. right. left. now split. }
  apply N.ltb_ge in E9. right. right. right.
  destruct (surrogate_halves n E9 Hcp) as (H1 & H2 & Hh & Hl & Hj).
  cbv zeta in *. eexists _, _. split; [reflexivity|].
  assert (Hdiv : (n - 0x10000) / 1024 < 1024).
  { apply N.Div0.div_lt_upper_bound. lia. }
  assert (Hmod : (n - 0x10000) mod 1024 < 1024) by (apply N.mod_lt; discriminate).
  rewrite H1 at 1. rewrite H2 at 1.
  split; [lia|]. split; [lia|]. split; [exact Hh|]. split; [|split; [exact Hl | exact Hj]].
  rewrite H1. unfold UJson.is_low_surrogate. apply andb_false_iff. left.
  apply N.leb_gt. lia.
Qed.

End UnicodeStrings.

Section UnicodeRoundTrip.

Local Open Scope N_scope.

Implicit Types (n k : N) (tail rest : string) (t : ustr).

(** Behind a high surrogate, the escaped rest of a string whose first code
    point is no low surrogate is left for the next step. *)
Lemma after_high_escape k t rest :
  UJson.is_str t = true ->
  match t with
  | m :: _ => UJson.is_low_surrogate m = false
  | [] => True
  end ->
  UJson.after_high k (UJson.escape t +:+ String Json.dquote rest)
  = bind (UJson.scanstring (UJson.escape t +:+ String Json.dquote rest))
      (fun x => match x with (t', rest') => Ok (k :: t', rest') end).
Proof.
  intros Hstr Hhead. destruct t as [|m t].
  - now apply after_high_other.
  - apply andb_true_iff in Hstr as [Hm _]. cbn [UJson.escape].
    rewrite append_assoc.
    destruct (escape_cp_cases m Hm)
      as [(c & -> & _ & Hc & _) | [(e & ch & -> & He & _)
          | [(Hlt & ->) | (s1 & s2 & -> & H1 & _ & _ & Hl1 & _)]]].
    + now apply after_high_other.
    + now apply after_high_short.
    + now apply after_high_u.
    + cbn [String.append]. rewrite append_assoc. now apply after_high_u.
Qed.

(** Decoding an escaped string gives the string back, unless it holds a
    high surrogate followed at once by a low one. *)
Lemma uscanstring_escape t rest :
  UJson.is_str t = true -> UJson.no_surrogate_pair t = true ->
  UJson.scanstring (UJson.escape t +:+ String Json.dquote rest) = Ok (t, rest).
Proof.
  induction t as [|n t IH]; intros Hstr Hpair; [reflexivity|].
  pose proof Hstr as Hstr'. apply andb_true_iff in Hstr' as [Hn Ht].
  cbn [UJson.no_surrogate_pair] in Hpair.
  apply andb_true_iff in Hpair as [Hhere Hrest].
  specialize (IH Ht Hrest). cbn [UJson.escape]. rewrite append_assoc.
  destruct (escape_cp_cases n Hn)
    as [(c & -> & Hc1 & Hc2 & Hc3 & <-) | [(e & ch & -> & He & Hu & <-)
        | [(Hlt & ->) | (s1 & s2 & -> & H1 & H2 & Hh1 & _ & Hl2 & <-)]]].
  - cbn [String.append]. rewrite uscanstring_plain by assumption.
    now rewrite IH.
  - cbn [String.append]. rewrite (uscanstring_short e ch) by assumption.
    now rewrite IH.
  - cbn [String.append]. rewrite uscanstring_u by assumption.
    destruct (UJson.is_high_surrogate n) eqn:Eh; [|now rewrite IH].
    rewrite after_high_escape; [now rewrite IH | exact Ht |].
    destruct t as [|m t']; [exact I|]. cbn [andb negb] in Hhere.
    now apply negb_true_iff in Hhere.
  - cbn [String.append]. rewrite append_assoc. cbn [String.append].
    rewrite uscanstring_u, Hh1 by assumption.
    rewrite after_high_pair by assumption. now rewrite IH.
Qed.

(** The surrogate pair is the one obstacle: with it the string that comes
    back is another one. *)
Lemma uscanstring_merges_pair :
  UJson.scanstring (UJson.escape [0xd83d; 0xde00] +:+ String Json.dquote "")
  = Ok ([0x1f600], "").
Proof. vm_compute. reflexivity. Qed.

End UnicodeRoundTrip.

Section UnicodeSettings.

Local Open Scope nat_scope.

Implicit Types (s rest : string) (fuel f : nat).

Lemma uparse_members_S fuel s :
  UJson.parse_members (S fuel) s
  = bind (UJson.scanstring s) (fun p =>
      match p with
      | (key, r) =>
          match Json.skip_ws r with
          | String c r1 =>
              if Ascii.eqb c ":" then
                bind (UJson.scan_once fuel (Json.skip_ws r1)) (fun q =>
                  match q with
                  | (v, r2) =>
                      match Json.skip_ws r2 with
                      | String c2 r3 =>
                          if Ascii.eqb c2 "}" then Ok ([(key, v)], r3)
                          else if Ascii.eqb c2 "," then
                            match Json.skip_ws r3 with
                            | String c3 r4 =>
                                if Ascii.eqb c3 Json.dquote then
                                  bind (UJson.parse_members fuel r4) (fun w =>
                                    match w with
                                    | (ps, rest) => Ok ((key, v) :: ps, rest)
                                    end)
                                else Raise JSONDecodeError
                            | EmptyString => Raise JSONDecodeError
                            end
                          else Raise JSONDecodeError
                      | EmptyString => Raise JSONDecodeError
                      end
                  end)
              else Raise JSONDecodeError
          | EmptyString => Raise JSONDecodeError
          end
      end).
Proof. reflexivity. Qed.

Lemma uscan_once_dict fuel s r :
  Json.skip_ws s = String Json.dquote r ->
  UJson.scan_once (S fuel) (String "{" s)
  = bind (UJson.parse_members fuel r) (fun q =>
      match q with
      | (pairs, rest) => Ok (UJson.Dict (UJson.of_pairs pairs), rest)
      end).
Proof. intros Hs. cbn [UJson.scan_once]. simpl. rewrite Hs. reflexivity. Qed.

Lemma uscan_once_str fuel s :
  UJson.scan_once (S fuel) (String Json.dquote s)
  = bind (UJson.scanstring s)
      (fun q => match q with (t, rest) => Ok (UJson.Str t, rest) end).
Proof. reflexivity. Qed.

Lemma uscan_once_bool fuel (b : bool) rest :
  UJson.scan_once (S fuel) ((if b then "true" else "false") +:+ rest)
  = Ok (UJson.Bool b, rest).
Proof. destruct b; reflexivity. Qed.

(** A key of printable characters is decoded as it stands. *)
Lemma uscanstring_key (key : string) rest :
  forallb (fun c => negb (Ascii.eqb c Json.dquote)
                    && negb (Ascii.eqb c Json.backslash)
                    && negb (nat_of_ascii c <? 32))
    (list_ascii_of_string key) = true ->
  UJson.scanstring (key +:+ String Json.dquote rest)
  = Ok (UJson.of_string key, rest).
Proof.
  induction key as [|c key IH]; intros H; [reflexivity|].
  cbn [list_ascii_of_string forallb] in H.
  apply andb_true_iff in H as [Hc H].
  apply andb_true_iff in Hc as [Hc H3]. apply andb_true_iff in Hc as [H1 H2].
  apply negb_true_iff in H1, H2, H3.
  cbn [String.append UJson.of_string].
  rewrite uscanstring_plain by assumption. now rewrite (IH H).
Qed.

(** The text [json.dump] writes for the settings record. *)
Lemma udumps_record (a d : bool) (e : ustr) :
  UJson.dumps
    (UJson.Dict
       (UJson.record_dict
          {| UJson.ad_block_enabled := a; UJson.dark_mode := d;
             UJson.search_engine := e |}))
  = String "{" (Json.newline_indent 1 +:+ String Json.dquote (
     "ad_block_enabled" +:+ String Json.dquote (": " +:+ (if a then "true" else "false") +:+ String "," (Json.newline_indent 1 +:+ String Json.dquote (
        "dark_mode" +:+ String Json.dquote (": " +:+ (if d then "true" else "false") +:+ String "," (Json.newline_indent 1 +:+ String Json.dquote (
           "search_engine" +:+ String Json.dquote (": " +:+ String Json.dquote (UJson.escape e +:+ String Json.dquote (Json.newline_indent 0 +:+ String "}" ""))))))))))).
Proof.
  unfold UJson.dumps, UJson.record_dict.
  cbn [UJson.dumps_at List.map Json.join UJson.ad_block_enabled UJson.dark_mode
         UJson.search_engine].
  change (UJson.encode_str (UJson.of_string "ad_block_enabled"))
    with (String Json.dquote ("ad_block_enabled" +:+ String Json.dquote "")).
  change (UJson.encode_str (UJson.of_string "dark_mode"))
    with (String Json.dquote ("dark_mode" +:+ String Json.dquote "")).
  change (UJson.encode_str (UJson.of_string "search_engine"))
    with (String Json.dquote ("search_engine" +:+ String Json.dquote "")).
  change (UJson.encode_str e)
    with (String Json.dquote (UJson.escape e +:+ String Json.dquote "")).
  generalize (UJson.escape e). intros x.
  destruct a, d;
    repeat (progress (cbn [String.append Json.newline_indent Json.spaces
                             Nat.mul Nat.add])
            || rewrite append_assoc);
    reflexivity.
Qed.

Lemma skip_ws_bool (b : bool) rest :
  Json.skip_ws ((if b then "true" else "false") +:+ rest)
  = (if b then "true" else "false") +:+ rest.
Proof. destruct b; reflexivity. Qed.

Ltac char_tests :=
  cbv beta iota;
  repeat match goal with
         | |- context [Ascii.eqb ?a ?b] =>
             let r := eval vm_compute in (Ascii.eqb a b) in
             change (Ascii.eqb a b) with r
         end;
  cbv beta iota.

(** One member with a boolean value, another member following. *)
Lemma uparse_members_bool f (key : string) (b : bool) (next : string) :
  forallb (fun c => negb (Ascii.eqb c Json.dquote)
                    && negb (Ascii.eqb c Json.backslash)
                    && negb (nat_of_ascii c <? 32))
    (list_ascii_of_string key) = true ->
  UJson.parse_members (S f)
    (key +:+ String Json.dquote
               (": " +:+ (if b then "true" else "false")
                +:+ String "," (Json.newline_indent 1 +:+ String Json.dquote next)))
  = bind (UJson.parse_members f next) (fun w =>
      match w with
      | (ps, rest) => Ok ((UJson.of_string key, UJson.Bool b) :: ps, rest)
      end).
Proof.
  intros Hkey. destruct f as [|f].
  { rewrite uparse_members_S, (uscanstring_key _ _ Hkey), bind_ok.
    cbn [String.append]. rewrite skip_ws_other by reflexivity. char_tests.
    reflexivity. }
  rewrite uparse_members_S, (uscanstring_key _ _ Hkey), bind_ok.
  cbn [String.append]. rewrite skip_ws_other by reflexivity. char_tests.
  change (Json.skip_ws (String " " ?t)) with (Json.skip_ws t).
  rewrite skip_ws_bool, uscan_once_bool, bind_ok.
  rewrite skip_ws_other by reflexivity. char_tests.
  rewrite skip_ws_newline_indent, skip_ws_other by reflexivity. char_tests.
  reflexivity.
Qed.

(** The last member, with a string value. *)
Lemma uparse_members_str f (key : string) (e : ustr) rest :
  forallb (fun c => negb (Ascii.eqb c Json.dquote)
                    && negb (Ascii.eqb c Json.backslash)
                    && negb (nat_of_ascii c <? 32))
    (list_ascii_of_string key) = true ->
  UJson.is_str e = true -> UJson.no_surrogate_pair e = true ->
  UJson.parse_members (S (S f))
    (key +:+ String Json.dquote
               (": " +:+ String Json.dquote
                           (UJson.escape e
                            +:+ String Json.dquote
                                  (Json.newline_indent 0 +:+ String "}" rest))))
  = Ok ([(UJson.of_string key, UJson.Str e)], rest).
Proof.
  intros Hkey Hstr Hpair.
  rewrite uparse_members_S, (uscanstring_key _ _ Hkey), bind_ok.
  cbn [String.append]. rewrite skip_ws_other by reflexivity. char_tests.
  change (Json.skip_ws (String " " ?t)) with (Json.skip_ws t).
  rewrite skip_ws_other by reflexivity.
  rewrite uscan_once_str, (uscanstring_escape _ _ Hstr Hpair), !bind_ok.
  rewrite skip_ws_newline_indent, skip_ws_other by reflexivity. char_tests.
  reflexivity.
Qed.

(** The decoder on the text of the settings record. *)
Lemma uloads_record (a d : bool) (e : ustr) :
  UJson.is_str e = true -> UJson.no_surrogate_pair e = true ->
  UJson.loads
    (UJson.dumps
       (UJson.Dict
          (UJson.record_dict
             {| UJson.ad_block_enabled := a; UJson.dark_mode := d;
                UJson.search_engine := e |})))
  = Ok (UJson.Dict
          (UJson.record_dict
             {| UJson.ad_block_enabled := a; UJson.dark_mode := d;
                UJson.search_engine := e |})).
Proof.
  intros Hstr Hpair. rewrite udumps_record. unfold UJson.loads.
  match goal with
  | |- context [String.length ?T] =>
      assert (Hf : S (2 * String.length T)
                   = S (S (S (S (S (2 * String.length T - 4))))))
        by (cbn [String.append String.length Json.newline_indent]; lia);
      rewrite Hf; clear Hf;
      generalize (2 * String.length T - 4); intros f
  end.
  rewrite skip_ws_other by reflexivity.
  erewrite uscan_once_dict by (rewrite skip_ws_newline_indent; reflexivity).
  rewrite (uparse_members_bool (S (S (S f))) "ad_block_enabled") by reflexivity.
  rewrite (uparse_members_bool (S (S f)) "dark_mode") by reflexivity.
  rewrite (uparse_members_str f "search_engine" e "" eq_refl Hstr Hpair).
  reflexivity.
Qed.

End UnicodeSettings.

(** The two encoders write the same text for a string of code points below
    256, so on such strings the two models of the settings file agree. *)
Lemma escape_of_string (s : string) : UJson.escape (UJson.of_string s) = Json.escape s.
Proof.
  induction s as [|c s IH]; [reflexivity|].
  cbn [UJson.of_string UJson.escape Json.escape]. rewrite IH. f_equal.
  destruct c as [[] [] [] [] [] [] [] []]; vm_compute; reflexivity.
Qed.

Lemma dumps_record_of_string (r : settings_record) :
  UJson.dumps
    (UJson.Dict
       (UJson.record_dict
          {| UJson.ad_block_enabled := ad_block_enabled r;
             UJson.dark_mode := dark_mode r;
             UJson.search_engine := UJson.of_string (search_engine r) |}))
  = Json.dumps (JDict (record_dict r)).
Proof.
  rewrite udumps_record, escape_of_string. destruct r as [a d e].
  unfold Json.dumps, record_dict.
  cbn [Json.dumps_at List.map Json.join ad_block_enabled dark_mode search_engine].
  change (Json.encode_str "ad_block_enabled")
    with (String Json.dquote ("ad_block_enabled" +:+ String Json.dquote "")).
  change (Json.encode_str "dark_mode")
    with (String Json.dquote ("dark_mode" +:+ String Json.dquote "")).
  change (Json.encode_str "search_engine")
    with (String Json.dquote ("search_engine" +:+ String Json.dquote "")).
  change (Json.encode_str e)
    with (String Json.dquote (Json.escape e +:+ String Json.dquote "")).
  generalize (Json.escape e). intros x.
  destruct a, d;
    repeat (progress (cbn [String.append Json.newline_indent Json.spaces
                             Nat.mul Nat.add])
            || rewrite append_assoc);
    reflexivity.
Qed.

(** C3, as amended: a settings record written to [settings.json] and loaded
    again is the record that was written, for both booleans and for every
    [search_engine] string in which no high surrogate is followed at once by
    a low surrogate; and the dialog's save action, which first stores the
    widget values in the dict, writes a file that loads as the dict it
    stored.  The strings are Python strings in full: lists of code points
    below [0x110000]. *)
Theorem settings_round_trip_unicode (r r0 : UJson.settings_record)
    (dlg : SettingsDialog.t) (fs : gmap string string) :
  UJson.is_str (UJson.search_engine r) = true ->
  UJson.no_surrogate_pair (UJson.search_engine r) = true ->
  UJson.load_settings (UJson.dump_settings (UJson.record_dict r) fs)
  = Ok (UJson.Dict (UJson.record_dict r))
  /\ (let saved := UJson.save_settings_and_close dlg (UJson.record_dict r0) fs in
      fst saved
      = UJson.record_dict
          {| UJson.ad_block_enabled := SettingsDialog.adblock_checkbox dlg;
             UJson.dark_mode := SettingsDialog.darkmode_checkbox dlg;
             UJson.search_engine :=
               UJson.of_string
                 (SettingsDialog.item_text
                    (SettingsDialog.search_engine_combo dlg)) |}
      /\ UJson.load_settings (snd saved) = Ok (UJson.Dict (fst saved))).
Proof.
  intros Hstr Hpair. split.
  - destruct r as [a d e].
    unfold UJson.load_settings, UJson.dump_settings, open_read.
    rewrite lookup_insert_eq, bind_ok. now apply uloads_record.
  - cbv zeta.
    assert (E : fst (UJson.save_settings_and_close dlg (UJson.record_dict r0) fs)
                = UJson.record_dict
                    {| UJson.ad_block_enabled := SettingsDialog.adblock_checkbox dlg;
                       UJson.dark_mode := SettingsDialog.darkmode_checkbox dlg;
                       UJson.search_engine :=
                         UJson.of_string
                           (SettingsDialog.item_text
                              (SettingsDialog.search_engine_combo dlg)) |})
      by (destruct r0; reflexivity).
    split; [exact E|].
    change (snd (UJson.save_settings_and_close dlg (UJson.record_dict r0) fs))
      with (UJson.dump_settings
              (fst (UJson.save_settings_and_close dlg (UJson.record_dict r0) fs))
              fs).
    rewrite E.
    unfold UJson.load_settings, UJson.dump_settings, open_read.
    rewrite lookup_insert_eq, bind_ok.
    apply uloads_record;
      destruct (SettingsDialog.search_engine_combo dlg); reflexivity.
Qed.

Lemma settings_round_trip_unicode_witness :
  UJson.load_settings
    (UJson.dump_settings
       (UJson.record_dict
          {| UJson.ad_block_enabled := false; UJson.dark_mode := true;
             UJson.search_engine := [0x1f600; 0xd83d; 0x41; 0xde00; 233]%N |})
       ∅)
  = Ok (UJson.Dict
          (UJson.record_dict
             {| UJson.ad_block_enabled := false; UJson.dark_mode := true;
                UJson.search_engine := [0x1f600; 0xd83d; 0x41; 0xde00; 233]%N |}))
  /\ (let saved :=
        UJson.save_settings_and_close
          {| SettingsDialog.adblock_checkbox := true;
             SettingsDialog.darkmode_checkbox := true;
             SettingsDialog.search_engine_combo := SettingsDialog.Brave;
             SettingsDialog.accepted := false |}
          (UJson.record_dict
             {| UJson.ad_block_enabled := true; UJson.dark_mode := false;
                UJson.search_engine := UJson.of_string "DuckDuckGo" |})
          ∅ in
      fst saved
      = UJson.record_dict
          {| UJson.ad_block_enabled := true; UJson.dark_mode := true;
             UJson.search_engine := UJson.of_string "Brave" |}
      /\ UJson.load_settings (snd saved) = Ok (UJson.Dict (fst saved))).
Proof.
  refine (settings_round_trip_unicode
            {| UJson.ad_block_enabled := false; UJson.dark_mode := true;
               UJson.search_engine := [0x1f600; 0xd83d; 0x41; 0xde00; 233]%N |}
            {| UJson.ad_block_enabled := true; UJson.dark_mode := false;
               UJson.search_engine := UJson.of_string "DuckDuckGo" |}
            {| SettingsDialog.adblock_checkbox := true;
               SettingsDialog.darkmode_checkbox := true;
               SettingsDialog.search_engine_combo := SettingsDialog.Brave;
               SettingsDialog.accepted := false |}
            ∅ _ _);
    reflexivity.
Defined.

(** C3 as it was stated fails: the string of the two code points [0xd83d]
    and [0xde00], a high surrogate followed by a low one, is written as the
    escapes [\ud83d\ude00] and comes back as the single code point
    [0x1f600]. *)
Lemma settings_round_trip_surrogate_pair :
  UJson.is_str [0xd83d; 0xde00]%N = true
  /\ UJson.load_settings
       (UJson.dump_settings
          (UJson.record_dict
             {| UJson.ad_block_enabled := true; UJson.dark_mode := false;
                UJson.search_engine := [0xd83d; 0xde00]%N |})
          ∅)
     = Ok (UJson.Dict
             (UJson.record_dict
                {| UJson.ad_block_enabled := true; UJson.dark_mode := false;
                   UJson.search_engine := [0x1f600]%N |}))
  /\ UJson.load_settings
       (UJson.dump_settings
          (UJson.record_dict
             {| UJson.ad_block_enabled := true; UJson.dark_mode := false;
                UJson.search_engine := [0xd83d; 0xde00]%N |})
          ∅)
     <> Ok (UJson.Dict
              (UJson.record_dict
                 {| UJson.ad_block_enabled := true; UJson.dark_mode := false;
                    UJson.search_engine := [0xd83d; 0xde00]%N |})).
Proof.
  split; [reflexivity|].
  assert (H : UJson.load_settings
                (UJson.dump_settings
                   (UJson.record_dict
                      {| UJson.ad_block_enabled := true; UJson.dark_mode := false;
                         UJson.search_engine := [0xd83d; 0xde00]%N |})
                   ∅)
              = Ok (UJson.Dict
                      (UJson.record_dict
                         {| UJson.ad_block_enabled := true;
                            UJson.dark_mode := false;
                            UJson.search_engine := [0x1f600]%N |})))
    by (vm_compute; reflexivity).
  split; [exact H|]. rewrite H. intros [=].
Qed.
